(** * Line-assembly pipeline of the stock-count exporter

    A shallow embedding of the text pipeline of
    [exportador_txt_gui_xls_ou_postgres_ini_merged_weighted2.py]
    (value normalisation, EAN-13 canonicalisation, attribute block,
    line builder, rejection log) together with the properties the
    specification states about it.

    Conventions.  A Python [str] is a Rocq [string] whose characters are
    read as the code points 0..255.  A pandas row is an association list
    from column name to cell value.  The Tk variables of the application
    object ([opening_var], [col_vars], ...) are plain record fields. *)

From Stdlib Require Import List String Ascii ZArith Lia Bool.
From Stdlib Require Import PrimFloat SpecFloat FloatOps DecimalString.
From Stdlib Require DecimalZ DecimalPos.
Import ListNotations.
Local Open Scope list_scope.
Local Open Scope string_scope.

(* ================================================================== *)
(** * Python built-ins used by the source *)
(* ================================================================== *)

Module Py.

(** [str.isspace] on one character, for the code points 0..255:
    TAB..CR, FS..US, space, NEL and NBSP. *)
Definition isspace (c : ascii) : bool :=
  let n := nat_of_ascii c in
  (((9 <=? n) && (n <=? 13)) || ((28 <=? n) && (n <=? 32))
   || (n =? 133) || (n =? 160))%nat.

(** [str.isdigit] on one character, for the code points 0..255: the
    ten decimal digits and the superscripts two, three and one. *)
Definition isdigit (c : ascii) : bool :=
  let n := nat_of_ascii c in
  (((48 <=? n) && (n <=? 57)) || (n =? 178) || (n =? 179) || (n =? 185))%nat.

(** [s.lstrip()] *)
Fixpoint lstrip (s : string) : string :=
  match s with
  | EmptyString => EmptyString
  | String c s' => if isspace c then lstrip s' else s
  end.

(** [s.rstrip()] *)
Fixpoint rstrip (s : string) : string :=
  match s with
  | EmptyString => EmptyString
  | String c s' =>
      match rstrip s' with
      | EmptyString => if isspace c then EmptyString else String c EmptyString
      | r => String c r
      end
  end.

(** [s.strip()] *)
Definition strip (s : string) : string := rstrip (lstrip s).

(** ["".join(ch for ch in s if p(ch))] *)
Fixpoint filter_chars (p : ascii -> bool) (s : string) : string :=
  match s with
  | EmptyString => EmptyString
  | String c s' =>
      if p c then String c (filter_chars p s') else filter_chars p s'
  end.

(** [fill * n] for a one-character [fill]. *)
Fixpoint repeat_char (fill : ascii) (n : nat) : string :=
  match n with
  | O => EmptyString
  | S n' => String fill (repeat_char fill n')
  end.

(** [s.rjust(width, fill)]: [s] itself when it is already [width] long
    or longer. *)
Definition rjust (width : nat) (fill : ascii) (s : string) : string :=
  repeat_char fill (width - String.length s) ++ s.

(** [s.replace(old, new)] for one-character [old] and [new]. *)
Fixpoint replace_char (old new : ascii) (s : string) : string :=
  match s with
  | EmptyString => EmptyString
  | String c s' =>
      String (if Ascii.eqb c old then new else c) (replace_char old new s')
  end.

(** [s.split(sep)] for a one-character [sep]; the result is never the
    empty list ([""] splits into [[""]]). *)
Fixpoint split (sep : ascii) (s : string) : list string :=
  match s with
  | EmptyString => [EmptyString]
  | String c s' =>
      if Ascii.eqb c sep then EmptyString :: split sep s'
      else match split sep s' with
           | seg :: segs => String c seg :: segs
           | [] => [String c EmptyString]
           end
  end.

(** [c.upper()] for the code points 0..255.  The sharp s expands to
    two letters; the micro sign and y-diaeresis, whose capitals lie
    beyond code point 255, are left as they are. *)
Definition upper_char (c : ascii) : string :=
  let n := nat_of_ascii c in
  if (((97 <=? n) && (n <=? 122))
      || ((224 <=? n) && (n <=? 254) && negb (n =? 247)))%nat
  then String (ascii_of_nat (n - 32)) EmptyString
  else if (n =? 223)%nat then "SS"
  else String c EmptyString.

(** [s.upper()] *)
Fixpoint upper (s : string) : string :=
  match s with
  | EmptyString => EmptyString
  | String c s' => upper_char c ++ upper s'
  end.

(** [s[:n]] *)
Definition prefix_slice (n : nat) (s : string) : string := substring 0 n s.

(** [sep.join(parts)] *)
Definition join (sep : string) (parts : list string) : string :=
  String.concat sep parts.

(** [str(n)] for an [int]. *)
Definition str_int (n : Z) : string := NilZero.string_of_int (Z.to_int n).

(** ** Floats

    A Python [float] is an IEEE-754 double, here a primitive float read
    through its decoding [Prim2SF] into sign, mantissa and exponent. *)

(** [math.isnan(x)] *)
Definition isnan (x : float) : bool :=
  match Prim2SF x with S754_nan => true | _ => false end.

(** [x.is_integer()]: finite and without fractional part. *)
Definition is_integer (x : float) : bool :=
  match Prim2SF x with
  | S754_zero _ => true
  | S754_finite _ m e =>
      if (0 <=? e)%Z then true
      else (Z.pos m mod 2 ^ (- e) =? 0)%Z
  | _ => false
  end.

(** [int(x)]: truncation towards zero.  Python raises on NaN and the
    infinities; the source calls it only under [x.is_integer()], so the
    value chosen there is never observed. *)
Definition int_of_float (x : float) : Z :=
  match Prim2SF x with
  | S754_finite s m e =>
      let a := if (0 <=? e)%Z then (Z.pos m * 2 ^ e)%Z
               else (Z.pos m / 2 ^ (- e))%Z in
      if s then (- a)%Z else a
  | _ => 0%Z
  end.

(** *** [str(x)] for a float

    CPython prints the shortest decimal string that reads back as the
    same double, the closest to it when several are as short, with a
    tie on the last digit resolved to the even digit; then lays the
    digits out in fixed notation when the decimal point position lies
    in -3..16 and in exponent notation otherwise. *)

(** One decimal digit. *)
Definition digit_char (d : Z) : ascii :=
  nth (Z.to_nat d)
      ["0"; "1"; "2"; "3"; "4"; "5"; "6"; "7"; "8"; "9"]%char "9"%char.

Fixpoint digits_string (ds : list Z) : string :=
  match ds with
  | [] => EmptyString
  | d :: ds' => String (digit_char d) (digits_string ds')
  end.

(** Does the upper end [(r + mp) / s] of the rounding interval reach 1?
    The end point itself belongs to the interval when the mantissa is
    even (round-half-even reads it back as the same double). *)
Definition high_reached (even : bool) (r s mp : Z) : bool :=
  if even then (s <=? r + mp)%Z else (s <? r + mp)%Z.

(** Raise the decimal exponent [k] until the interval lies below 1. *)
Fixpoint scale_up (fuel : nat) (even : bool) (r s mp k : Z) : Z * Z :=
  match fuel with
  | O => (s, k)
  | S fuel' =>
      if high_reached even r s mp
      then scale_up fuel' even r (s * 10) mp (k + 1)
      else (s, k)
  end.

(** Lower the decimal exponent [k] while the interval stays below 1/10. *)
Fixpoint scale_down (fuel : nat) (even : bool) (r s mp mm k : Z)
  : Z * Z * Z * Z :=
  match fuel with
  | O => (r, mp, mm, k)
  | S fuel' =>
      if high_reached even (r * 10) s (mp * 10)
      then (r, mp, mm, k)
      else scale_down fuel' even (r * 10) s (mp * 10) (mm * 10) (k - 1)
  end.

(** Digits of [r / s], stopping as soon as what is printed lies within
    [mm / s] below or [mp / s] above the exact value. *)
Fixpoint gen_digits (fuel : nat) (even : bool) (r s mp mm : Z) : list Z :=
  match fuel with
  | O => []
  | S fuel' =>
      let d := (r * 10 / s)%Z in
      let r' := ((r * 10) mod s)%Z in
      let mp' := (mp * 10)%Z in
      let mm' := (mm * 10)%Z in
      let low_ok := if even then (r' <=? mm')%Z else (r' <? mm')%Z in
      let high_ok := high_reached even r' s mp' in
      match low_ok, high_ok with
      | false, false => d :: gen_digits fuel' even r' s mp' mm'
      | true, false => [d]
      | false, true => [d + 1]%Z
      | true, true =>
          if (2 * r' <? s)%Z then [d]
          else if (s <? 2 * r')%Z then [d + 1]%Z
          else if Z.even d then [d] else [d + 1]%Z
      end
  end.

(** Shortest digits [ds] and decimal point position [k] of the double
    [m * 2^e]: its value prints as [0.ds * 10^k]. *)
Definition shortest_digits (m : positive) (e : Z) : list Z * Z :=
  let even := Z.even (Z.pos m) in
  let boundary := (Z.pos m =? 2 ^ 52)%Z in
  let '(r, s, mp, mm) :=
    if (0 <=? e)%Z then
      if boundary
      then (Z.pos m * 2 ^ (e + 1) * 2, 4, 2 ^ (e + 1), 2 ^ e)%Z
      else (Z.pos m * 2 ^ e * 2, 2, 2 ^ e, 2 ^ e)%Z
    else
      if boundary && negb (e =? -1074)%Z
      then (Z.pos m * 4, 2 ^ (- e + 2), 2, 1)%Z
      else (Z.pos m * 2, 2 ^ (- e + 1), 1, 1)%Z in
  let '(s1, k1) := scale_up 400 even r s mp 0 in
  let '(r2, mp2, mm2, k2) := scale_down 400 even r s1 mp mm k1 in
  (gen_digits 20 even r2 s1 mp2 mm2, k2).

(** The layout of [ds] with decimal point position [k]. *)
Definition layout_digits (ds : list Z) (k : Z) : string :=
  let D := digits_string ds in
  let n := Z.of_nat (List.length ds) in
  if ((k <=? -4) || (16 <? k))%Z then
    let ex := (k - 1)%Z in
    let mant :=
      match D with
      | String d0 EmptyString => String d0 EmptyString
      | String d0 rest => String d0 (String "."%char rest)
      | EmptyString => EmptyString
      end in
    mant ++ "e" ++ (if (ex <? 0)%Z then "-" else "+")
         ++ rjust 2 "0"%char (str_int (Z.abs ex))
  else if (k <=? 0)%Z then
    "0." ++ repeat_char "0"%char (Z.to_nat (- k)) ++ D
  else if (n <=? k)%Z then
    D ++ repeat_char "0"%char (Z.to_nat (k - n)) ++ ".0"
  else
    substring 0 (Z.to_nat k) D ++ "."
      ++ substring (Z.to_nat k) (List.length ds - Z.to_nat k) D.

(** [str(x)] (and [repr(x)]) for a float. *)
Definition str_float (x : float) : string :=
  match Prim2SF x with
  | S754_nan => "nan"
  | S754_infinity s => if s then "-inf" else "inf"
  | S754_zero s => if s then "-0.0" else "0.0"
  | S754_finite s m e =>
      let '(ds, k) := shortest_digits m e in
      (if s then "-" else "") ++ layout_digits ds k
  end.

End Py.


(* ================================================================== *)
(** * Data model *)
(* ================================================================== *)

(** A cell value as the loaders deliver it. *)
Inductive pyvalue : Type :=
| PyNone
| PyFloat (x : float)
| PyInt (n : Z)
| PyStr (s : string)
| PyObj (text : string).  (* any other object, by the text [str] gives *)

(** [str(x)] *)
Definition py_str (x : pyvalue) : string :=
  match x with
  | PyNone => "None"
  | PyFloat f => Py.str_float f
  | PyInt n => Py.str_int n
  | PyStr s => s
  | PyObj text => text
  end.

(** A row of the data frame: column name to cell value. *)
Definition Row : Type := list (string * pyvalue).

(** [row.get(col, default)] *)
Fixpoint row_get (row : Row) (col : string) (default : pyvalue) : pyvalue :=
  match row with
  | [] => default
  | (c, v) :: row' => if String.eqb c col then v else row_get row' col default
  end.

Record DataFrame : Type := {
  df_columns : list string;
  df_rows : list Row
}.

(** The module-level constants, which [load_config_values] overwrites
    from the INI file. *)
Record Globals : Type := {
  BASE_COL : string;
  MANDATORY_PREFIX : list string
}.

Definition default_globals : Globals :=
  {| BASE_COL := "DES_PRODUTO";
     MANDATORY_PREFIX := ["COD_INTERNO"; "COD_EAN"] |}.

(** One line of the column list of the window: the key shared by the
    dictionaries [col_vars] and [label_vars], the check box and the
    label entry.  [_populate_columns_ui] fills both dictionaries in
    the same loop, so every key of [col_vars] has its [label_vars]
    entry; the list keeps the insertion order that [col_vars.items()]
    iterates in. *)
Record ColEntry : Type := {
  col_name : string;
  col_var : bool;
  label_var : string
}.

(** An element of [_ean13_oversized]: the dictionary with the keys
    [COD_IN], [COD_EAN], [DES_PRODUTO] and [LEN]. *)
Record Oversized : Type := {
  rec_COD_IN : string;
  rec_COD_EAN : string;
  rec_DES_PRODUTO : string;
  rec_LEN : nat
}.

(** The state of [ExportadorTXTApp] the pipeline reads and writes. *)
Record App : Type := {
  df : option DataFrame;
  columns : list ColEntry;
  opening_var : string;
  closing_var : string;
  pair_sep_var : string;
  label_sep_var : string;
  validate_ean13 : bool;
  _ean13_oversized : list Oversized;
  preview_txt : string
}.

Definition set_oversized (self : App) (l : list Oversized) : App :=
  {| df := df self; columns := columns self;
     opening_var := opening_var self; closing_var := closing_var self;
     pair_sep_var := pair_sep_var self; label_sep_var := label_sep_var self;
     validate_ean13 := validate_ean13 self;
     _ean13_oversized := l;
     preview_txt := preview_txt self |}.

Definition set_preview (self : App) (text : string) : App :=
  {| df := df self; columns := columns self;
     opening_var := opening_var self; closing_var := closing_var self;
     pair_sep_var := pair_sep_var self; label_sep_var := label_sep_var self;
     validate_ean13 := validate_ean13 self;
     _ean13_oversized := _ean13_oversized self;
     preview_txt := text |}.

Definition set_columns (self : App) (cols : list ColEntry) : App :=
  {| df := df self; columns := cols;
     opening_var := opening_var self; closing_var := closing_var self;
     pair_sep_var := pair_sep_var self; label_sep_var := label_sep_var self;
     validate_ean13 := validate_ean13 self;
     _ean13_oversized := _ean13_oversized self;
     preview_txt := preview_txt self |}.

(** The application right after [__init__]. *)
Definition initial_app : App :=
  {| df := None; columns := [];
     opening_var := "("; closing_var := ")";
     pair_sep_var := " / "; label_sep_var := ": ";
     validate_ean13 := false;
     _ean13_oversized := [];
     preview_txt := "" |}.

(* ================================================================== *)
(** * Utilities *)
(* ================================================================== *)

(** [smart_str] *)
Definition smart_str (x : pyvalue) : string :=
  match x with
  | PyNone => ""
  | PyFloat f =>
      if Py.isnan f then ""
      else if Py.is_integer f then Py.str_int (Py.int_of_float f)
      else Py.str_float f
  | _ => Py.strip (py_str x)
  end.

(** [smart_str] as [Exportador_contagem_Ver2.0.py] writes it: the
    float that is neither NaN nor integral falls through to
    [str(x).strip()]. *)
Definition smart_str_v2 (x : pyvalue) : string :=
  match x with
  | PyNone => ""
  | PyFloat f =>
      if Py.isnan f then ""
      else if Py.is_integer f then Py.str_int (Py.int_of_float f)
      else Py.strip (py_str x)
  | _ => Py.strip (py_str x)
  end.

(** [colname.replace("-", "_").replace(" ", "_").split("_")[0]] *)
Definition first_segment (colname : string) : string :=
  hd "" (Py.split "_"%char
           (Py.replace_char " "%char "_"%char
              (Py.replace_char "-"%char "_"%char colname))).

(** [abbrev_label] *)
Definition abbrev_label (colname : string) : string :=
  if String.eqb colname "" then "VAL"
  else
    let seg := first_segment colname in
    let seg := Py.upper (Py.strip seg) in
    if (String.length seg <=? 4)%nat then seg else Py.prefix_slice 4 seg.

(** [parse_mandatory_prefix] *)
Definition parse_mandatory_prefix (value : string) : list string :=
  let parts := map (fun p => Py.upper (Py.strip p))
                   (Py.split ","%char value) in
  filter (fun p => negb (String.eqb p "")) parts.

(** The two options of the [format] section of the INI file, [None]
    when the file does not give them. *)
Record FormatSection : Type := {
  ini_BASE_COL : option string;
  ini_MANDATORY_PREFIX : option string
}.

(** [load_config_values], as far as the two globals go. *)
Definition load_config_values (cfg : FormatSection) : Globals :=
  {| BASE_COL :=
       Py.upper (Py.strip (match ini_BASE_COL cfg with
                           | Some v => v
                           | None => "DES_PRODUTO"
                           end));
     MANDATORY_PREFIX :=
       parse_mandatory_prefix (match ini_MANDATORY_PREFIX cfg with
                               | Some v => v
                               | None => "COD_INTERNO,COD_EAN"
                               end) |}.

(* ================================================================== *)
(** * EAN helper *)
(* ================================================================== *)

(** ["".join(ch for ch in s if ch.isdigit())] *)
Definition digits_of (s : string) : string := Py.filter_chars Py.isdigit s.

(** [_ean13_fix_and_validate] *)
Definition _ean13_fix_and_validate (value : pyvalue) : bool * string :=
  let s := smart_str value in
  let digits := digits_of s in
  if (13 <? String.length digits)%nat then (false, "")
  else (true, Py.rjust 13 "0"%char digits).

(* ================================================================== *)
(** * Building a line *)
(* ================================================================== *)

(** The body of the loop of [_build_extra_block] for one entry of
    [col_vars]: what it appends to [parts]. *)
Definition extra_step (self : App) (row : Row) (parts : list string)
                      (e : ColEntry) : list string :=
  if col_var e then
    let label := Py.strip (label_var e) in
    let val := smart_str (row_get row (col_name e) (PyStr "")) in
    if negb (String.eqb val "") then
      parts ++ [if negb (String.eqb label "")
                then label ++ label_sep_var self ++ val
                else val]
    else parts
  else parts.

(** [_build_extra_block] *)
Definition _build_extra_block (self : App) (row : Row) : string :=
  let parts := fold_left (extra_step self row) (columns self) [] in
  match parts with
  | [] => ""
  | _ => opening_var self ++ Py.join (pair_sep_var self) parts
           ++ closing_var self
  end.

(** [_build_line]: the line, or [None] with the row recorded in
    [_ean13_oversized]. *)
Definition _build_line (g : Globals) (self : App) (row : Row)
  : option string * App :=
  let cod_interno := smart_str (row_get row "COD_INTERNO" (PyStr "")) in
  let raw_ean := row_get row "COD_EAN" (PyStr "") in
  let finish (cod_ean : string) : option string * App :=
    let base_text := smart_str (row_get row (BASE_COL g) (PyStr "")) in
    let extra := _build_extra_block self row in
    let desc_final :=
      if negb (String.eqb extra "")
      then Py.strip (base_text ++ " " ++ extra)
      else base_text in
    (Some (cod_interno ++ "|" ++ cod_ean ++ "|" ++ desc_final), self) in
  if validate_ean13 self then
    let '(ok, ean) := _ean13_fix_and_validate raw_ean in
    if negb ok then
      (None,
       set_oversized self
         (_ean13_oversized self ++
            [{| rec_COD_IN := cod_interno;
                rec_COD_EAN := smart_str raw_ean;
                rec_DES_PRODUTO :=
                  smart_str (row_get row (BASE_COL g) (PyStr ""));
                rec_LEN := String.length (digits_of (smart_str raw_ean)) |}]))
    else finish ean
  else finish (smart_str raw_ean).

(** The loop shared by [on_preview] and [on_save]: build every row,
    keep the lines that are not [None]. *)
Fixpoint build_lines (g : Globals) (self : App) (rows : list Row)
                     (lines : list string) : list string * App :=
  match rows with
  | [] => (lines, self)
  | row :: rows' =>
      let '(line, self') := _build_line g self row in
      build_lines g self' rows'
        (match line with
         | Some l => lines ++ [l]
         | None => lines
         end)
  end.

(* ================================================================== *)
(** * Files, dialogs and exceptions *)
(* ================================================================== *)

(** What a file operation raises when it fails.  Every case is a
    subclass of Python's [Exception]. *)
Inductive exn : Type :=
| PermissionError
| FileNotFoundError
| OSError (errno : nat).

(** The message boxes of the window. *)
Inductive dialog : Type :=
| WarnLoadDataFirst
| ErrorBaseColMissing (base_col : string)
| WarnOversizedPreview (count : nat)
| WarnSavedWithOversized (out_path : string) (count : nat)
| InfoSaved (out_path : string)
| ErrorSaving (e : exn)
| ErrorBaseColAbsent (base_col : string) (cols : list string)
| WarnOptionalMissing (cols : list string).

(** The world outside the application object. *)
Record World : Type := {
  script_dir : string;              (* [ini_path().parent] *)
  clock : string;                   (* [datetime.now().strftime(...)] *)
  files : list (string * string);   (* path and text of each file *)
  faults : list (option exn);       (* fate of the file operations to
                                       come: [Some e] raises [e] *)
  save_as : string;                 (* answer of [asksaveasfilename] *)
  dialogs : list dialog             (* message boxes shown so far *)
}.

Definition set_files (w : World) (fs : list (string * string)) : World :=
  {| script_dir := script_dir w; clock := clock w; files := fs;
     faults := faults w; save_as := save_as w; dialogs := dialogs w |}.

Definition set_faults (w : World) (l : list (option exn)) : World :=
  {| script_dir := script_dir w; clock := clock w; files := files w;
     faults := l; save_as := save_as w; dialogs := dialogs w |}.

Definition add_dialog (w : World) (d : dialog) : World :=
  {| script_dir := script_dir w; clock := clock w; files := files w;
     faults := faults w; save_as := save_as w;
     dialogs := dialogs w ++ [d] |}.

Fixpoint file_get (fs : list (string * string)) (path : string)
  : option string :=
  match fs with
  | [] => None
  | (p, text) :: fs' => if String.eqb p path then Some text
                        else file_get fs' path
  end.

Fixpoint file_set (fs : list (string * string)) (path text : string)
  : list (string * string) :=
  match fs with
  | [] => [(path, text)]
  | (p, t) :: fs' => if String.eqb p path then (p, text) :: fs'
                     else (p, t) :: file_set fs' path text
  end.

(** A method of the application: it reads and writes [self] and the
    world, and returns a value or raises. *)
Definition IO (A : Type) : Type := App * World -> (A + exn) * (App * World).

Definition ret {A : Type} (a : A) : IO A := fun st => (inl a, st).

Definition bind {A B : Type} (m : IO A) (k : A -> IO B) : IO B :=
  fun st => match m st with
            | (inl a, st') => k a st'
            | (inr e, st') => (inr e, st')
            end.

Declare Scope io_scope.
Delimit Scope io_scope with io.
Notation "x <- m ;; k" := (bind m (fun x => k))
  (at level 61, m at next level, right associativity) : io_scope.
Notation "m ;;; k" := (bind m (fun _ => k))
  (at level 61, right associativity) : io_scope.

Definition get_self : IO App := fun st => (inl (fst st), st).

Definition put_self (self : App) : IO unit :=
  fun st => (inl tt, (self, snd st)).

Definition get_world : IO World := fun st => (inl (snd st), st).

Definition put_world (w : World) : IO unit :=
  fun st => (inl tt, (fst st, w)).

(** [try: body / except Exception: pass] *)
Definition try_except_pass (body : IO unit) : IO unit :=
  fun st => match body st with
            | (inl tt, st') => (inl tt, st')
            | (inr _, st') => (inl tt, st')
            end.

(** [try: body / except Exception as e: handler(e)] *)
Definition try_except (body : IO unit) (handler : exn -> IO unit)
  : IO unit :=
  fun st => match body st with
            | (inl tt, st') => (inl tt, st')
            | (inr e, st') => handler e st'
            end.

(** The next file operation: it raises if the world says so. *)
Definition file_op : IO unit :=
  fun st =>
    let w := snd st in
    match faults w with
    | [] => (inl tt, st)
    | None :: l => (inl tt, (fst st, set_faults w l))
    | Some e :: l => (inr e, (fst st, set_faults w l))
    end.

Inductive open_mode : Type := mode_a | mode_w.

(** [open(path, mode, encoding="utf-8")]: mode ["a"] creates the file
    when it is missing, mode ["w"] empties it.  The handle is the
    path. *)
Definition py_open (path : string) (mode : open_mode) : IO string :=
  (file_op ;;;
   w <- get_world ;;
   let text := match mode, file_get (files w) path with
               | mode_a, Some t => t
               | _, _ => ""
               end in
   put_world (set_files w (file_set (files w) path text)) ;;;
   ret path)%io.

(** [fh.write(text)] *)
Definition fh_write (fh : string) (text : string) : IO unit :=
  (file_op ;;;
   w <- get_world ;;
   let old := match file_get (files w) fh with
              | Some t => t
              | None => ""
              end in
   put_world (set_files w (file_set (files w) fh (old ++ text))))%io.

(** Leaving the [with] block closes the file, which flushes it. *)
Definition fh_close (fh : string) : IO unit := file_op.

(** [with open(path, mode, ...) as fh: body(fh)]: the file is closed
    whether the body raises or not, and an exception of the closing
    replaces that of the body. *)
Definition with_open (path : string) (mode : open_mode)
                     (body : string -> IO unit) : IO unit :=
  (fh <- py_open path mode ;;
   fun st => match body fh st with
             | (inl tt, st') => fh_close fh st'
             | (inr e, st') =>
                 match fh_close fh st' with
                 | (inl tt, st'') => (inr e, st'')
                 | (inr e', st'') => (inr e', st'')
                 end
             end)%io.

Definition showdialog (d : dialog) : IO unit :=
  fun st => (inl tt, (fst st, add_dialog (snd st) d)).

(** [for x in xs: body(x)] *)
Fixpoint for_each {A : Type} (xs : list A) (body : A -> IO unit) : IO unit :=
  match xs with
  | [] => ret tt
  | x :: xs' => (body x ;;; for_each xs' body)%io
  end.

(* ================================================================== *)
(** * The rejection log *)
(* ================================================================== *)

Definition NL : string := String "010"%char EmptyString.
Definition TAB : string := String "009"%char EmptyString.

(** ["Itens com EAN > 13 dígitos: "], i-acute being code point 237. *)
Definition oversized_caption : string :=
  "Itens com EAN > 13 d" ++ String "237"%char "gitos: ".

(** ["Pré-visualização"] and ["Exportação"], the two context labels. *)
Definition ctx_preview : string :=
  "Pr" ++ String "233"%char "-visualiza"
       ++ String "231"%char (String "227"%char "o").

Definition ctx_export : string :=
  "Exporta" ++ String "231"%char (String "227"%char "o").

(** [str(n)] for a length. *)
Definition str_nat (n : nat) : string := Py.str_int (Z.of_nat n).

(** The line of the log for one record. *)
Definition log_record_line (rec : Oversized) : string :=
  let cod_in := rec_COD_IN rec in
  let cod_ean := rec_COD_EAN rec in
  let descr := Py.replace_char "010"%char " "%char (rec_DES_PRODUTO rec) in
  let length := str_nat (rec_LEN rec) in
  cod_in ++ TAB ++ cod_ean ++ TAB ++ descr ++ TAB ++ length ++ NL.

(** [base / "ean13_invalid.log"] *)
Definition log_path (w : World) : string :=
  script_dir w ++ "/" ++ "ean13_invalid.log".

(** The body of the [try] of [_write_ean13_log]. *)
Definition write_log_body (context : string) : IO unit :=
  (w <- get_world ;;
   self <- get_self ;;
   with_open (log_path w) mode_a
     (fun fh =>
        fh_write fh
          ("[" ++ clock w ++ "] " ++ context ++ " - "
               ++ oversized_caption
               ++ str_nat (List.length (_ean13_oversized self))
               ++ NL) ;;;
        fh_write fh
          ("COD_INTERNO" ++ TAB ++ "COD_EAN" ++ TAB
                         ++ "DES_PRODUTO" ++ TAB ++ "LEN" ++ NL) ;;;
        for_each (_ean13_oversized self)
                 (fun rec => fh_write fh (log_record_line rec)) ;;;
        fh_write fh NL))%io.

(** [_write_ean13_log] *)
Definition _write_ean13_log (context : string) : IO unit :=
  (self <- get_self ;;
   match _ean13_oversized self with
   | [] => ret tt
   | _ => try_except_pass (write_log_body context)
   end)%io.

(* ================================================================== *)
(** * Preview and export *)
(* ================================================================== *)

(** [x in xs] for a list of strings. *)
Definition str_in (x : string) (xs : list string) : bool :=
  existsb (String.eqb x) xs.

(** [self.validate_ean13.get() and self._ean13_oversized] *)
Definition must_log (self : App) : bool :=
  validate_ean13 self
  && match _ean13_oversized self with
     | [] => false
     | _ => true
     end.

(** [on_preview]: the first ten rows. *)
Definition on_preview (g : Globals) : IO unit :=
  (self <- get_self ;;
   match df self with
   | None => showdialog WarnLoadDataFirst
   | Some d =>
       if negb (str_in (BASE_COL g) (df_columns d)) then
         showdialog (ErrorBaseColMissing (BASE_COL g))
       else
         let '(lines, self1) :=
           build_lines g (set_oversized self []) (firstn 10 (df_rows d)) [] in
         put_self (set_preview self1 (Py.join NL lines)) ;;;
         self2 <- get_self ;;
         if must_log self2 then
           _write_ean13_log ctx_preview ;;;
           showdialog
             (WarnOversizedPreview (List.length (_ean13_oversized self2)))
         else ret tt
   end)%io.

(** [line = self._build_line(row)] inside a method. *)
Definition build_line_io (g : Globals) (row : Row) : IO (option string) :=
  fun st => let '(line, self') := _build_line g (fst st) row in
            (inl line, (self', snd st)).

(** [filedialog.asksaveasfilename(...)] *)
Definition asksaveasfilename : IO string :=
  fun st => (inl (save_as (snd st)), st).

(** [on_save]: every row. *)
Definition on_save (g : Globals) : IO unit :=
  (self <- get_self ;;
   match df self with
   | None => showdialog WarnLoadDataFirst
   | Some d =>
       if negb (str_in (BASE_COL g) (df_columns d)) then
         showdialog (ErrorBaseColMissing (BASE_COL g))
       else
         out_path <- asksaveasfilename ;;
         if String.eqb out_path "" then ret tt
         else
           put_self (set_oversized self []) ;;;
           try_except
             (with_open out_path mode_w
                (fun f =>
                   for_each (df_rows d)
                     (fun row =>
                        line <- build_line_io g row ;;
                        match line with
                        | Some l => fh_write f (l ++ NL)
                        | None => ret tt
                        end)) ;;;
              self' <- get_self ;;
              if must_log self' then
                _write_ean13_log ctx_export ;;;
                showdialog
                  (WarnSavedWithOversized
                     out_path (List.length (_ean13_oversized self')))
              else showdialog (InfoSaved out_path))
             (fun e => showdialog (ErrorSaving e))
   end)%io.

(* ================================================================== *)
(** * The column list of the window *)
(* ================================================================== *)

(** The keys of a dictionary filled by assigning [d[k] = ...] for each
    [k] of [ks] in turn: a key assigned again keeps its first place. *)
Fixpoint dict_keys (seen ks : list string) : list string :=
  match ks with
  | [] => []
  | k :: ks' =>
      if str_in k seen then dict_keys seen ks'
      else k :: dict_keys (k :: seen) ks'
  end.

(** [col in prev_selected] *)
Definition prev_selected (cols : list ColEntry) (col : string) : bool :=
  existsb (fun e => String.eqb (col_name e) col && col_var e) cols.

(** [prev_labels.get(col, default)] *)
Fixpoint prev_label (cols : list ColEntry) (col default : string) : string :=
  match cols with
  | [] => default
  | e :: cols' => if String.eqb (col_name e) col then label_var e
                  else prev_label cols' col default
  end.

(** [_populate_columns_ui], as far as [col_vars], [label_vars] and the
    message boxes go: the columns offered are those of the data frame
    that are neither the base column nor in [MANDATORY_PREFIX]. *)
Definition _populate_columns_ui (g : Globals) : IO unit :=
  (self <- get_self ;;
   let prev := columns self in
   put_self (set_columns self []) ;;;
   match df self with
   | None => ret tt
   | Some d =>
       let cols := map (fun c => Py.upper (Py.strip c)) (df_columns d) in
       if negb (str_in (BASE_COL g) cols) then
         showdialog (ErrorBaseColAbsent (BASE_COL g) cols)
       else
         let warn_opt :=
           filter (fun c => negb (str_in c cols)) ["COD_INTERNO"; "COD_EAN"] in
         match warn_opt with
         | [] => ret tt
         | _ => showdialog (WarnOptionalMissing warn_opt)
         end ;;;
         let excluded := BASE_COL g :: MANDATORY_PREFIX g in
         let cols_all := filter (fun c => negb (str_in c excluded)) cols in
         put_self
           (set_columns self
              (map (fun col =>
                      {| col_name := col;
                         col_var := prev_selected prev col;
                         label_var := prev_label prev col (abbrev_label col) |})
                   (dict_keys [] cols_all)))
   end)%io.

(* ================================================================== *)
(** * Vocabulary of the properties *)
(* ================================================================== *)

(** The first character of [s] is whitespace. *)
Definition starts_with_space (s : string) : bool :=
  match s with
  | EmptyString => false
  | String c _ => Py.isspace c
  end.

(** The last character of [s] is whitespace. *)
Fixpoint ends_with_space (s : string) : bool :=
  match s with
  | EmptyString => false
  | String c EmptyString => Py.isspace c
  | String _ s' => ends_with_space s'
  end.

(** Every character of [s] is whitespace. *)
Fixpoint all_space (s : string) : bool :=
  match s with
  | EmptyString => true
  | String c s' => Py.isspace c && all_space s'
  end.

(** No character of [s] is whitespace. *)
Fixpoint no_space (s : string) : bool :=
  match s with
  | EmptyString => true
  | String c s' => negb (Py.isspace c) && no_space s'
  end.

(** Every character of [s] is a digit. *)
Fixpoint all_digits (s : string) : bool :=
  match s with
  | EmptyString => true
  | String c s' => Py.isdigit c && all_digits s'
  end.

(** The normalized value of column [col] of [row]. *)
Definition cell (row : Row) (col : string) : string :=
  smart_str (row_get row col (PyStr "")).

(** The columns that contribute a fragment: ticked, with a non-empty
    normalized value. *)
Definition contributes (row : Row) (e : ColEntry) : bool :=
  col_var e && negb (String.eqb (cell row (col_name e)) "").

(** The fragment of a contributing column. *)
Definition fragment (self : App) (row : Row) (e : ColEntry) : string :=
  if String.eqb (Py.strip (label_var e)) "" then cell row (col_name e)
  else Py.strip (label_var e) ++ label_sep_var self ++ cell row (col_name e).

(** The fragments of a list of columns, in the order of the list. *)
Definition fragments (self : App) (row : Row) (cols : list ColEntry)
  : list string :=
  map (fragment self row) (filter (contributes row) cols).

(** The final description of a row. *)
Definition final_description (g : Globals) (self : App) (row : Row)
  : string :=
  let base_text := cell row (BASE_COL g) in
  let extra := _build_extra_block self row in
  if String.eqb extra "" then base_text
  else Py.strip (base_text ++ " " ++ extra).

(** The barcode field of an emitted line. *)
Definition barcode_field (self : App) (row : Row) : string :=
  if validate_ean13 self
  then snd (_ean13_fix_and_validate (row_get row "COD_EAN" (PyStr "")))
  else cell row "COD_EAN".

(** The line as the specification words it: the normalized values of
    the configured prefix columns joined with a bar, a bar, the final
    description. *)
Definition spec_prefixed_line (g : Globals) (self : App) (row : Row)
  : string :=
  Py.join "|" (map (cell row) (MANDATORY_PREFIX g))
    ++ "|" ++ final_description g self row.

(** The record [_build_line] files for a rejected row. *)
Definition rejected_record (g : Globals) (row : Row) : Oversized :=
  {| rec_COD_IN := cell row "COD_INTERNO";
     rec_COD_EAN := cell row "COD_EAN";
     rec_DES_PRODUTO := cell row (BASE_COL g);
     rec_LEN := String.length (digits_of (cell row "COD_EAN")) |}.

(** Scenario A of the specification. *)
Definition row_A : Row :=
  [("COD_INTERNO", PyStr "123"); ("COD_EAN", PyStr "789");
   ("DES_PRODUTO", PyStr "ADSTRIGENTE 387 FACE BEAUTIFUL");
   ("DEPARTAMENTO", PyStr "GERAL");
   ("QTD_ESTOQUE_ATUAL", PyFloat 3%float)].

Definition selection_A : list ColEntry :=
  [{| col_name := "DEPARTAMENTO"; col_var := true; label_var := "DEP" |};
   {| col_name := "QTD_ESTOQUE_ATUAL"; col_var := true;
      label_var := "QTD" |}].

Definition app_A : App := set_columns initial_app selection_A.

(** The separators [abbrev_label] cuts the column name at. *)
Definition is_separator (c : ascii) : bool :=
  Ascii.eqb c "_" || Ascii.eqb c "-" || Ascii.eqb c " ".

(** Does [_build_line] reject the row? *)
Definition is_rejected (self : App) (row : Row) : bool :=
  validate_ean13 self
  && negb (fst (_ean13_fix_and_validate (row_get row "COD_EAN" (PyStr "")))).

(** The lines a pass over [rows] emits, in the order of the rows. *)
Definition emitted_lines (g : Globals) (self : App) (rows : list Row)
  : list string :=
  flat_map (fun row => match fst (_build_line g self row) with
                       | Some l => [l]
                       | None => []
                       end) rows.

(** The records a pass over [rows] files, in the order of the rows. *)
Definition rejected_records (g : Globals) (self : App) (rows : list Row)
  : list Oversized :=
  map (rejected_record g) (filter (is_rejected self) rows).

(** A configuration read from an INI file that names one prefix
    column only, and one that names three. *)
Definition globals_one_prefix : Globals :=
  load_config_values
    {| ini_BASE_COL := None; ini_MANDATORY_PREFIX := Some "cod_interno" |}.

Definition globals_three_prefixes : Globals :=
  load_config_values
    {| ini_BASE_COL := None;
       ini_MANDATORY_PREFIX := Some "COD_INTERNO, COD_EAN, DEPARTAMENTO" |}.

(** A row without description, and a window whose opening and closing
    strings carry a space on the outside. *)
Definition row_no_base : Row :=
  [("COD_INTERNO", PyStr "1"); ("COD_EAN", PyStr "2");
   ("DES_PRODUTO", PyStr ""); ("DEPARTAMENTO", PyStr "GERAL")].

Definition app_spaced : App :=
  {| df := None;
     columns := [{| col_name := "DEPARTAMENTO"; col_var := true;
                    label_var := "DEP" |}];
     opening_var := " ("; closing_var := ") ";
     pair_sep_var := " / "; label_sep_var := ": ";
     validate_ean13 := false;
     _ean13_oversized := [];
     preview_txt := "" |}.

(** A window whose only column carries a label of two spaces. *)
Definition app_blank_label : App :=
  set_columns initial_app
    [{| col_name := "DEPARTAMENTO"; col_var := true; label_var := "  " |}].

(** A row whose barcode is typed with blanks around it and a hyphen
    inside: 15 characters once stripped, 14 of them digits. *)
Definition row_dashed_ean : Row :=
  [("COD_INTERNO", PyStr " 77 "); ("COD_EAN", PyStr " 7891234-5678901 ");
   ("DES_PRODUTO", PyStr "SABONETE")].

(** A row whose barcode has 14 digits, and the window with validation
    switched on. *)
Definition row_long_ean : Row :=
  [("COD_INTERNO", PyStr "77"); ("COD_EAN", PyStr "12345678901234");
   ("DES_PRODUTO", PyStr "SABONETE")].

Definition app_validating : App :=
  {| df := Some {| df_columns := ["COD_INTERNO"; "COD_EAN"; "DES_PRODUTO"];
                   df_rows := [row_long_ean;
                               [("COD_INTERNO", PyStr "78");
                                ("COD_EAN", PyStr "42");
                                ("DES_PRODUTO", PyStr "CREME XYZ")]] |};
     columns := [];
     opening_var := "("; closing_var := ")";
     pair_sep_var := " / "; label_sep_var := ": ";
     validate_ean13 := true;
     _ean13_oversized := [];
     preview_txt := "" |}.

(** A computation that leaves the application object alone, keeps
    the script directory, and changes no file other than [path]. *)
Definition quiet {A : Type} (path : string) (m : IO A) : Prop :=
  forall st : App * World,
    fst (snd (m st)) = fst st
    /\ script_dir (snd (snd (m st))) = script_dir (snd st)
    /\ forall p, p <> path ->
         file_get (files (snd (snd (m st)))) p = file_get (files (snd st)) p.

(** A world in which the log directory cannot be written (every file
    operation is refused), and one without any failure; both hold an
    earlier export. *)
Definition world_ok : World :=
  {| script_dir := "/app"; clock := "2025-01-31 08:00:00";
     files := [("/out/contagem.txt", "1|2|X" ++ String "010"%char "")];
     faults := []; save_as := "/out/contagem.txt"; dialogs := [] |}.

Definition world_denied : World :=
  {| script_dir := "/app"; clock := "2025-01-31 08:00:00";
     files := [("/out/contagem.txt", "1|2|X" ++ String "010"%char "")];
     faults := [Some PermissionError]; save_as := "/out/contagem.txt";
     dialogs := [] |}.

(* ================================================================== *)
(** * More of the exporters *)
(* ================================================================== *)

(** [c in s] for a character. *)
Fixpoint has_char (c : ascii) (s : string) : bool :=
  match s with
  | EmptyString => false
  | String x s' => Ascii.eqb x c || has_char c s'
  end.

(** [s.count(c)] for a character. *)
Fixpoint count_char (c : ascii) (s : string) : nat :=
  match s with
  | EmptyString => 0
  | String x s' => (if Ascii.eqb x c then 1 else 0) + count_char c s'
  end.

(** The line boundaries of [str.splitlines], for the code points
    0..255: LF, VT, FF, CR, FS, GS, RS and NEL. *)
Definition is_linebreak (c : ascii) : bool :=
  let n := nat_of_ascii c in
  (((10 <=? n) && (n <=? 13)) || ((28 <=? n) && (n <=? 30))
   || (n =? 133))%nat.

(** [s.splitlines()]: a CR directly before an LF belongs to the same
    boundary, and a boundary at the very end opens no further line. *)
Fixpoint splitlines (s : string) : list string :=
  match s with
  | EmptyString => []
  | String c s' =>
      let rest := splitlines s' in
      if Ascii.eqb c "013"
         && match s' with
            | String c' _ => Ascii.eqb c' "010"
            | EmptyString => false
            end
      then rest
      else if is_linebreak c then EmptyString :: rest
      else match rest with
           | [] => [String c EmptyString]
           | l :: ls => String c l :: ls
           end
  end.

(** Does [s] hold a line boundary? *)
Fixpoint has_linebreak (s : string) : bool :=
  match s with
  | EmptyString => false
  | String c s' => is_linebreak c || has_linebreak s'
  end.

(** Every line boundary of [s] is a line feed. *)
Fixpoint only_lf_breaks (s : string) : bool :=
  match s with
  | EmptyString => true
  | String c s' => (negb (is_linebreak c) || Ascii.eqb c "010")
                   && only_lf_breaks s'
  end.

(** The last character of [s] is a line feed. *)
Fixpoint ends_with_lf (s : string) : bool :=
  match s with
  | EmptyString => false
  | String c EmptyString => Ascii.eqb c "010"
  | String _ s' => ends_with_lf s'
  end.

(** [one_line] of [Exportador_contagem_Ver2.0.py] *)
Definition one_line (text : pyvalue) : string :=
  Py.join " " (splitlines (py_str text)).

(** [c.lower()] for the code points 0..255. *)
Definition lower_char (c : ascii) : ascii :=
  let n := nat_of_ascii c in
  if (((65 <=? n) && (n <=? 90))
      || ((192 <=? n) && (n <=? 222) && negb (n =? 215)))%nat
  then ascii_of_nat (n + 32)
  else c.

(** [s.lower()] *)
Fixpoint lower (s : string) : string :=
  match s with
  | EmptyString => EmptyString
  | String c s' => String (lower_char c) (lower s')
  end.

(** [save_config_from_state], the [format] section it hands to the INI
    writer. *)
Definition saved_format_section (base_col : string)
                                (mandatory_prefix : list string)
  : FormatSection :=
  {| ini_BASE_COL :=
       Some (Py.upper (if String.eqb base_col "" then "DES_PRODUTO"
                       else base_col));
     ini_MANDATORY_PREFIX :=
       Some (match mandatory_prefix with
             | [] => "COD_INTERNO,COD_EAN"
             | _ => Py.join ","
                      (map (fun p => Py.upper (Py.strip p)) mandatory_prefix)
             end) |}.

(** [df.columns = [c.strip().upper() for c in df.columns]], the
    renaming [on_run_query] applies to the frame of a query: the
    columns are renamed in place, position by position. *)
Definition normalize_frame (d : DataFrame) : DataFrame :=
  {| df_columns := map (fun c => Py.upper (Py.strip c)) (df_columns d);
     df_rows :=
       map (map (fun kv : string * pyvalue =>
                   (Py.upper (Py.strip (fst kv)), snd kv)))
           (df_rows d) |}.

(** The names [_populate_columns_ui] lists for a frame that has the
    base column: the keys of [col_vars] after its loop. *)
Definition offered_names (g : Globals) (d : DataFrame) : list string :=
  dict_keys []
    (filter (fun c => negb (str_in c (BASE_COL g :: MANDATORY_PREFIX g)))
            (map (fun c => Py.upper (Py.strip c)) (df_columns d))).

(** A window on a sheet whose headers are in mixed case, with one
    column ticked and relabelled by the user. *)
Definition frame_mixed_case : DataFrame :=
  {| df_columns := ["cod_interno"; "cod_ean"; "des_produto";
                    "Departamento"; " qtd_estoque_atual"];
     df_rows := [[("cod_interno", PyStr "123"); ("cod_ean", PyStr "789");
                  ("des_produto", PyStr "CREME XYZ");
                  ("Departamento", PyStr "GERAL");
                  (" qtd_estoque_atual", PyFloat 3%float)]] |}.

Definition app_listed : App :=
  {| df := Some frame_mixed_case;
     columns := [{| col_name := "DEPARTAMENTO"; col_var := true;
                    label_var := "SETOR" |}];
     opening_var := "("; closing_var := ")";
     pair_sep_var := " / "; label_sep_var := ": ";
     validate_ean13 := false;
     _ean13_oversized := [];
     preview_txt := "" |}.

(** The text of a file as Python's text layer wrote it (the encoding
    and the newline convention of the platform apart), the empty text
    when the file does not exist. *)
Definition file_text (w : World) (path : string) : string :=
  match file_get (files w) path with
  | Some t => t
  | None => ""
  end.

(** From [w] to [w'] the text [text] was appended to the file [path],
    nothing else changed, and no failure is pending. *)
Definition wrote (path text : string) (w w' : World) : Prop :=
  faults w' = []
  /\ file_text w' path = file_text w path ++ text
  /\ script_dir w' = script_dir w
  /\ clock w' = clock w
  /\ save_as w' = save_as w
  /\ dialogs w' = dialogs w
  /\ forall p, p <> path -> file_get (files w') p = file_get (files w) p.

(** A computation under which every file keeps the text it had and
    at most grows at its end. *)
Definition appends_only {A : Type} (m : IO A) : Prop :=
  forall (st : App * World) (p : string),
    exists suffix,
      file_text (snd (snd (m st))) p = file_text (snd st) p ++ suffix.

(** One block of the rejection log. *)
Definition log_block (now context : string) (recs : list Oversized)
  : string :=
  "[" ++ now ++ "] " ++ context ++ " - " ++ oversized_caption
      ++ str_nat (List.length recs) ++ NL
      ++ "COD_INTERNO" ++ TAB ++ "COD_EAN" ++ TAB ++ "DES_PRODUTO" ++ TAB
      ++ "LEN" ++ NL
      ++ String.concat "" (map log_record_line recs)
      ++ NL.

(** The text [on_save] leaves in the output file. *)
Definition export_text (lines : list string) : string :=
  String.concat "" (map (fun l => l ++ NL) lines).

(** ** [exportador_pipe_gui.py] *)

Module PipeGui.

(** [pd.isna(val)] for a cell: [None] and the float NaN (the frame is
    read with [dtype=str], so a cell is a string or NaN). *)
Definition isna (val : pyvalue) : bool :=
  match val with
  | PyNone => true
  | PyFloat x => Py.isnan x
  | _ => false
  end.

(** [sanitize_text] *)
Definition sanitize_text (val : pyvalue) : string :=
  let s := if isna val then "" else py_str val in
  let s := Py.replace_char "|" "/"
             (Py.replace_char "010" " " (Py.replace_char "013" " " s)) in
  Py.strip s.

(** The body of the loop of [build_lines] for one row of the three
    columns [pick_columns] kept. *)
Definition build_line (extra_text extra_pos : string)
                      (row : pyvalue * pyvalue * pyvalue) : string :=
  let '(v_sistema, v_barras, v_nome) := row in
  let cod_sistema := sanitize_text v_sistema in
  let cod_barras := sanitize_text v_barras in
  let nome := sanitize_text v_nome in
  let nome :=
    if negb (String.eqb extra_text "") then
      if String.eqb extra_pos "prefixo"
      then Py.strip (extra_text ++ " " ++ nome)
      else if negb (String.eqb nome "")
           then Py.strip (nome ++ " " ++ extra_text)
           else Py.strip extra_text
    else nome in
  cod_sistema ++ "|" ++ cod_barras ++ "|" ++ nome.

(** [build_lines] *)
Definition build_lines (rows : list (pyvalue * pyvalue * pyvalue))
                       (extra_text extra_pos : string) : list string :=
  map (build_line extra_text extra_pos) rows.

(** [lower_map[key]] of [pick_columns]: the dictionary is filled in
    column order, so the last column whose name reads [key] once
    lower-cased and stripped is the one kept. *)
Fixpoint lower_map_get (columns : list string) (key : string)
  : option string :=
  match columns with
  | [] => None
  | c :: columns' =>
      match lower_map_get columns' key with
      | Some c' => Some c'
      | None => if String.eqb (Py.strip (lower c)) key then Some c else None
      end
  end.

(** [pick_columns], as far as the column names go: the three names it
    selects the frame by, or the keys its [KeyError] lists. *)
Definition pick_columns (columns : list string)
  : list string + list string :=
  let needed := map (fun key => (key, lower_map_get columns key))
                    ["cod_interno"; "cod_ean"; "des_produto"] in
  let missing :=
    flat_map (fun kv : string * option string =>
                match snd kv with
                | None => [fst kv]
                | Some _ => []
                end) needed in
  match missing with
  | [] => inl (flat_map (fun kv : string * option string =>
                           match snd kv with
                           | Some c => [c]
                           | None => []
                           end) needed)
  | _ => inr missing
  end.

End PipeGui.

(* ================================================================== *)
(** * Strings: stripping *)
(* ================================================================== *)

Lemma length_append (a b : string) :
  String.length (a ++ b) = String.length a + String.length b.
Proof.
  induction a as [|c a IH]; simpl; [reflexivity | now rewrite IH].
Qed.

Lemma append_empty_r (s : string) : s ++ "" = s.
Proof.
  induction s as [|c s IH]; simpl; [reflexivity | now rewrite IH].
Qed.

Lemma append_assoc (a b c : string) : (a ++ b) ++ c = a ++ b ++ c.
Proof.
  induction a as [|x a IH]; simpl; [reflexivity | now rewrite IH].
Qed.

Lemma lstrip_head (s : string) : starts_with_space (Py.lstrip s) = false.
Proof.
  induction s as [|c s IH]; simpl; [reflexivity|].
  destruct (Py.isspace c) eqn:E; [exact IH | simpl; exact E].
Qed.

Lemma lstrip_fixed (s : string) :
  starts_with_space s = false -> Py.lstrip s = s.
Proof.
  destruct s as [|c s]; simpl; [reflexivity|].
  intros ->. reflexivity.
Qed.

Lemma rstrip_tail (s : string) : ends_with_space (Py.rstrip s) = false.
Proof.
  induction s as [|c s IH]; simpl; [reflexivity|].
  destruct (Py.rstrip s) as [|c' r] eqn:E.
  - destruct (Py.isspace c) eqn:Ec; simpl; [reflexivity | exact Ec].
  - exact IH.
Qed.

Lemma rstrip_fixed (s : string) :
  ends_with_space s = false -> Py.rstrip s = s.
Proof.
  induction s as [|c s IH]; simpl; [reflexivity|].
  destruct s as [|c' s'].
  - simpl. intros ->. reflexivity.
  - intros H. rewrite (IH H). reflexivity.
Qed.

Lemma rstrip_head (s : string) :
  starts_with_space s = false -> starts_with_space (Py.rstrip s) = false.
Proof.
  destruct s as [|c s]; simpl; [reflexivity|].
  intros Hc. destruct (Py.rstrip s); [rewrite Hc|]; simpl; auto.
Qed.

Lemma strip_head (s : string) : starts_with_space (Py.strip s) = false.
Proof. apply rstrip_head, lstrip_head. Qed.

Lemma strip_tail (s : string) : ends_with_space (Py.strip s) = false.
Proof. apply rstrip_tail. Qed.

Lemma strip_fixed (s : string) :
  starts_with_space s = false -> ends_with_space s = false ->
  Py.strip s = s.
Proof.
  intros Hs He. unfold Py.strip.
  rewrite (lstrip_fixed s Hs). now apply rstrip_fixed.
Qed.

Lemma strip_idempotent (s : string) : Py.strip (Py.strip s) = Py.strip s.
Proof. apply strip_fixed; [apply strip_head | apply strip_tail]. Qed.

Lemma strip_all_space (s : string) : all_space s = true -> Py.strip s = "".
Proof.
  unfold Py.strip. induction s as [|c s IH]; simpl; [reflexivity|].
  intros H. apply andb_true_iff in H as [Hc Hs]. rewrite Hc. now apply IH.
Qed.

Lemma no_space_head (s : string) :
  no_space s = true -> starts_with_space s = false.
Proof.
  destruct s as [|c s]; simpl; [reflexivity|].
  intros H. apply andb_true_iff in H as [Hc _].
  now apply negb_true_iff in Hc.
Qed.

Lemma no_space_tail (s : string) :
  no_space s = true -> ends_with_space s = false.
Proof.
  induction s as [|c s IH]; simpl; [reflexivity|].
  intros H. apply andb_true_iff in H as [Hc Hs].
  destruct s; [now apply negb_true_iff in Hc | now apply IH].
Qed.

Lemma no_space_app (a b : string) :
  no_space (a ++ b) = no_space a && no_space b.
Proof.
  induction a as [|c a IH]; simpl; [reflexivity|].
  now rewrite IH, andb_assoc.
Qed.

(* ================================================================== *)
(** * Numbers print without whitespace *)
(* ================================================================== *)

Lemma no_space_string_of_uint (d : Decimal.uint) :
  no_space (NilEmpty.string_of_uint d) = true.
Proof. induction d; simpl; auto. Qed.

Lemma no_space_str_int (n : Z) : no_space (Py.str_int n) = true.
Proof.
  unfold Py.str_int, NilZero.string_of_int, NilZero.string_of_uint.
  destruct (Z.to_int n) as [d | d]; destruct d; simpl;
    auto using no_space_string_of_uint.
Qed.

Lemma no_space_repeat_char (c : ascii) (n : nat) :
  Py.isspace c = false -> no_space (Py.repeat_char c n) = true.
Proof.
  intros Hc. induction n as [|n IH]; simpl; [reflexivity|].
  now rewrite Hc, IH.
Qed.

Lemma no_space_rjust (w : nat) (c : ascii) (s : string) :
  Py.isspace c = false -> no_space s = true ->
  no_space (Py.rjust w c s) = true.
Proof.
  intros Hc Hs. unfold Py.rjust.
  now rewrite no_space_app, no_space_repeat_char, Hs.
Qed.

Lemma digit_char_not_space (d : Z) : Py.isspace (Py.digit_char d) = false.
Proof.
  unfold Py.digit_char. generalize (Z.to_nat d). intros n.
  do 10 (destruct n as [|n]; [reflexivity|]).
  destruct n; reflexivity.
Qed.

Lemma no_space_digits_string (ds : list Z) :
  no_space (Py.digits_string ds) = true.
Proof.
  induction ds as [|d ds IH]; simpl; [reflexivity|].
  now rewrite digit_char_not_space, IH.
Qed.

Lemma no_space_substring (s : string) :
  no_space s = true ->
  forall i n, no_space (substring i n s) = true.
Proof.
  induction s as [|c s IH]; intros Hs i n.
  - destruct i, n; reflexivity.
  - simpl in Hs. apply andb_true_iff in Hs as [Hc Hs'].
    destruct i as [|i]; simpl.
    + destruct n as [|n]; simpl; [reflexivity|].
      now rewrite Hc, IH.
    + now apply IH.
Qed.

Lemma no_space_layout_digits (ds : list Z) (k : Z) :
  no_space (Py.layout_digits ds k) = true.
Proof.
  pose proof (no_space_digits_string ds) as HD.
  unfold Py.layout_digits.
  destruct ((k <=? -4)%Z || (16 <? k)%Z).
  - rewrite !no_space_app.
    assert (Hm : no_space
                   match Py.digits_string ds with
                   | "" => ""
                   | String d0 "" => String d0 ""
                   | String d0 (String _ _ as rest) =>
                       String d0 (String "."%char rest)
                   end = true).
    { destruct (Py.digits_string ds) as [|d0 [|d1 rest]]; simpl in *; auto. }
    rewrite Hm. simpl.
    rewrite no_space_rjust; auto using no_space_str_int.
    now destruct (k - 1 <? 0)%Z.
  - destruct (k <=? 0)%Z.
    + rewrite !no_space_app, no_space_repeat_char, HD; reflexivity.
    + destruct (Z.of_nat (List.length ds) <=? k)%Z.
      * rewrite !no_space_app, no_space_repeat_char, HD; reflexivity.
      * rewrite !no_space_app, !no_space_substring; auto.
Qed.

Lemma no_space_str_float (x : float) : no_space (Py.str_float x) = true.
Proof.
  unfold Py.str_float.
  destruct (Prim2SF x) as [s | s | | s m e]; try (destruct s; reflexivity).
  - reflexivity.
  - destruct (Py.shortest_digits m e) as [ds k].
    rewrite no_space_app, no_space_layout_digits.
    now destruct s.
Qed.

(* ================================================================== *)
(** * The value normalizer *)
(* ================================================================== *)

Lemma smart_str_head (v : pyvalue) :
  starts_with_space (smart_str v) = false.
Proof.
  destruct v; simpl; try apply strip_head; try reflexivity.
  destruct (Py.isnan x); [reflexivity|].
  destruct (Py.is_integer x); apply no_space_head;
    [apply no_space_str_int | apply no_space_str_float].
Qed.

Lemma smart_str_tail (v : pyvalue) :
  ends_with_space (smart_str v) = false.
Proof.
  destruct v; simpl; try apply strip_tail; try reflexivity.
  destruct (Py.isnan x); [reflexivity|].
  destruct (Py.is_integer x); apply no_space_tail;
    [apply no_space_str_int | apply no_space_str_float].
Qed.

(** The two source files that differ in [smart_str] agree on every
    value. *)
Lemma smart_str_v2_same (v : pyvalue) : smart_str_v2 v = smart_str v.
Proof.
  destruct v; simpl; try reflexivity.
  destruct (Py.isnan x); [reflexivity|].
  destruct (Py.is_integer x); [reflexivity|].
  apply strip_fixed; [apply no_space_head | apply no_space_tail];
    apply no_space_str_float.
Qed.

(** C6: for every string without leading or trailing whitespace the
    value normalizer returns the string itself; consequently
    normalizing a normalized result again, taken as a string, changes
    nothing. *)
Theorem C6_smart_str_fixed_point_and_idempotent :
  (forall s : string,
      starts_with_space s = false -> ends_with_space s = false ->
      smart_str (PyStr s) = s)
  /\ (forall x : pyvalue,
         smart_str (PyStr (smart_str x)) = smart_str x).
Proof.
  assert (H : forall s : string,
             starts_with_space s = false -> ends_with_space s = false ->
             smart_str (PyStr s) = s).
  { intros s Hs He. simpl. now apply strip_fixed. }
  split; [exact H|].
  intros x. apply H; [apply smart_str_head | apply smart_str_tail].
Qed.

(** C6 on the description of scenario B. *)
Lemma C6_witness :
  starts_with_space "CREME XYZ" = false
  /\ ends_with_space "CREME XYZ" = false
  /\ smart_str (PyStr "CREME XYZ") = "CREME XYZ".
Proof.
  split; [reflexivity|]. split; [reflexivity|].
  apply (proj1 C6_smart_str_fixed_point_and_idempotent); reflexivity.
Defined.

Example load_config_defaults :
  load_config_values {| ini_BASE_COL := None; ini_MANDATORY_PREFIX := None |}
  = default_globals.
Proof. reflexivity. Qed.

(** C1: scenario A.  With the default format configuration, the
    columns DEPARTAMENTO and QTD_ESTOQUE_ATUAL ticked with the labels
    DEP and QTD, and validation off, the row of the scenario gives the
    line of the specification; the float 3.0 prints as 3. *)
Theorem C1_scenario_A_line :
  _build_line default_globals app_A row_A
  = (Some "123|789|ADSTRIGENTE 387 FACE BEAUTIFUL (DEP: GERAL / QTD: 3)",
     app_A)
  /\ smart_str (PyFloat 3%float) = "3"
  /\ validate_ean13 app_A = false
  /\ (opening_var app_A, closing_var app_A,
      pair_sep_var app_A, label_sep_var app_A) = ("(", ")", " / ", ": ").
Proof. repeat split; vm_compute; reflexivity. Qed.

(* ================================================================== *)
(** * The barcode canonicalizer *)
(* ================================================================== *)

Lemma length_repeat_char (c : ascii) (n : nat) :
  String.length (Py.repeat_char c n) = n.
Proof. induction n as [|n IH]; simpl; [reflexivity | now rewrite IH]. Qed.

Lemma length_rjust (w : nat) (c : ascii) (s : string) :
  String.length s <= w -> String.length (Py.rjust w c s) = w.
Proof.
  intros H. unfold Py.rjust. rewrite length_append, length_repeat_char. lia.
Qed.

Lemma rjust_full (w : nat) (c : ascii) (s : string) :
  w <= String.length s -> Py.rjust w c s = s.
Proof.
  intros H. unfold Py.rjust.
  replace (w - String.length s) with 0 by lia. reflexivity.
Qed.

Lemma digit_not_space (c : ascii) :
  Py.isdigit c = true -> Py.isspace c = false.
Proof.
  destruct c as [[] [] [] [] [] [] [] []]; vm_compute; congruence.
Qed.

Lemma all_digits_no_space (s : string) :
  all_digits s = true -> no_space s = true.
Proof.
  induction s as [|c s IH]; simpl; [reflexivity|].
  intros H. apply andb_true_iff in H as [Hc Hs].
  now rewrite (digit_not_space c Hc), IH.
Qed.

Lemma digits_of_all_digits (s : string) :
  all_digits s = true -> digits_of s = s.
Proof.
  unfold digits_of. induction s as [|c s IH]; simpl; [reflexivity|].
  intros H. apply andb_true_iff in H as [Hc Hs].
  now rewrite Hc, IH.
Qed.

Lemma all_digits_digits_of (s : string) : all_digits (digits_of s) = true.
Proof.
  unfold digits_of. induction s as [|c s IH]; simpl; [reflexivity|].
  destruct (Py.isdigit c) eqn:E; simpl; [now rewrite E|exact IH].
Qed.

Lemma ean13_accepts (value : pyvalue) :
  String.length (digits_of (smart_str value)) <= 13 ->
  _ean13_fix_and_validate value
  = (true, Py.rjust 13 "0" (digits_of (smart_str value))).
Proof.
  intros H. unfold _ean13_fix_and_validate.
  destruct (Nat.ltb_spec 13 (String.length (digits_of (smart_str value))));
    [lia | reflexivity].
Qed.

Lemma ean13_rejects (value : pyvalue) :
  13 < String.length (digits_of (smart_str value)) ->
  _ean13_fix_and_validate value = (false, "").
Proof.
  intros H. unfold _ean13_fix_and_validate.
  destruct (Nat.ltb_spec 13 (String.length (digits_of (smart_str value))));
    [reflexivity | lia].
Qed.

(** C2: when the normalized value holds at most 13 digit characters the
    canonicalizer accepts and returns those digits behind as many
    zeros as it takes to reach 13 characters; without any digit that
    is thirteen zeros, and a string of 13 digits comes back as it
    is. *)
Theorem C2_canonicalizer_pads_to_13 :
  (forall value : pyvalue,
      String.length (digits_of (smart_str value)) <= 13 ->
      let d := digits_of (smart_str value) in
      _ean13_fix_and_validate value
      = (true, Py.repeat_char "0" (13 - String.length d) ++ d)
      /\ String.length (snd (_ean13_fix_and_validate value)) = 13
      /\ all_digits (snd (_ean13_fix_and_validate value)) = true)
  /\ (forall value : pyvalue,
         digits_of (smart_str value) = "" ->
         _ean13_fix_and_validate value = (true, "0000000000000"))
  /\ (forall s : string,
         all_digits s = true -> String.length s = 13 ->
         _ean13_fix_and_validate (PyStr s) = (true, s)).
Proof.
  split; [|split].
  - intros value H d. rewrite (ean13_accepts value H). fold d.
    split; [reflexivity|]. simpl. split.
    + now apply length_rjust.
    + unfold Py.rjust. generalize (13 - String.length d). intros n.
      induction n as [|n IH]; simpl; [apply all_digits_digits_of | exact IH].
  - intros value H. rewrite ean13_accepts; rewrite H; [reflexivity|simpl; lia].
  - intros s Hd Hl.
    assert (Hs : smart_str (PyStr s) = s).
    { simpl. apply strip_fixed;
        [apply no_space_head | apply no_space_tail];
        now apply all_digits_no_space. }
    rewrite ean13_accepts; rewrite Hs, (digits_of_all_digits s Hd);
      [|lia].
    f_equal. apply rjust_full. lia.
Qed.

(** C2 on scenario D with blanks around the digits. *)
Lemma C2_witness :
  String.length (digits_of (smart_str (PyStr " 789 "))) <= 13
  /\ _ean13_fix_and_validate (PyStr " 789 ") = (true, "0000000000789").
Proof.
  split; [vm_compute; lia|].
  apply (proj1 C2_canonicalizer_pads_to_13 (PyStr " 789 ")).
  vm_compute; lia.
Defined.

(* ================================================================== *)
(** * The label deriver *)
(* ================================================================== *)

Lemma first_segment_cons (c : ascii) (rest : string) :
  first_segment (String c rest)
  = if is_separator c then ""
    else String c (first_segment rest).
Proof.
  unfold first_segment, is_separator. simpl.
  destruct (Ascii.eqb_spec c "-") as [->|Hm]; [reflexivity|].
  destruct (Ascii.eqb_spec c " ") as [->|Hs]; [reflexivity|].
  destruct (Ascii.eqb_spec c "_") as [->|Hu]; [reflexivity|].
  simpl.
  destruct (Py.split "_"
              (Py.replace_char " " "_" (Py.replace_char "-" "_" rest)));
    reflexivity.
Qed.

(** The first segment is empty exactly for the empty name and for the
    names that begin with a separator. *)
Lemma first_segment_empty_iff (colname : string) :
  first_segment colname = ""
  <-> colname = ""
      \/ exists c rest, colname = String c rest /\ is_separator c = true.
Proof.
  destruct colname as [|c rest].
  - split; [now left | reflexivity].
  - rewrite first_segment_cons. destruct (is_separator c) eqn:E; split.
    + intros _. right. now exists c, rest.
    + reflexivity.
    + discriminate.
    + intros [H | (c' & rest' & H & Hc)]; [discriminate|].
      injection H as -> ->. congruence.
Qed.

Lemma prefix_slice_short (n : nat) (s : string) :
  String.length s <= n -> Py.prefix_slice n s = s.
Proof.
  unfold Py.prefix_slice. revert n.
  induction s as [|c s IH]; intros [|n] H; simpl in *;
    try reflexivity; try lia.
  rewrite IH; [reflexivity | lia].
Qed.

(** C10, as the code has it: a column name that begins with an
    underscore, a hyphen or a space has an empty first segment and
    gets the empty label, not the fallback; these are the only
    non-empty names with an empty first segment.  The fallback is
    taken for the empty name only: every non-empty name gets the label
    derived from its own first segment, stripped, upper-cased and cut
    to four characters, so it is labelled VAL exactly when that
    derived text is VAL. *)
Theorem C10_abbrev_label_leading_separator :
  forall (c : ascii) (rest : string),
    c = "_"%char \/ c = "-"%char \/ c = " "%char ->
    first_segment (String c rest) = ""
    /\ abbrev_label (String c rest) = ""
    /\ abbrev_label (String c rest) <> "VAL"
    /\ (forall colname : string,
           colname <> "" -> first_segment colname = "" ->
           abbrev_label colname = ""
           /\ exists c' rest',
                colname = String c' rest'
                /\ (c' = "_"%char \/ c' = "-"%char \/ c' = " "%char))
    /\ (forall colname : string,
           colname <> "" ->
           abbrev_label colname
           = Py.prefix_slice 4
               (Py.upper (Py.strip (first_segment colname))))
    /\ (forall colname : string,
           abbrev_label colname = "VAL"
           <-> colname = ""
               \/ Py.prefix_slice 4
                    (Py.upper (Py.strip (first_segment colname))) = "VAL")
    /\ abbrev_label "" = "VAL".
Proof.
  intros c rest Hc.
  assert (Hderived : forall colname : string,
             colname <> "" ->
             abbrev_label colname
             = Py.prefix_slice 4
                 (Py.upper (Py.strip (first_segment colname)))).
  { intros colname Hne. unfold abbrev_label.
    apply String.eqb_neq in Hne. rewrite Hne.
    destruct (Nat.leb_spec
                (String.length
                   (Py.upper (Py.strip (first_segment colname)))) 4)
      as [Hle | Hgt]; [|reflexivity].
    symmetry. now apply prefix_slice_short. }
  assert (Hempty : forall colname : string,
             colname <> "" -> first_segment colname = "" ->
             abbrev_label colname = "").
  { intros colname Hne Hseg. rewrite (Hderived colname Hne), Hseg.
    reflexivity. }
  assert (Hsep : is_separator c = true).
  { unfold is_separator. destruct Hc as [-> | [-> | ->]]; reflexivity. }
  assert (Hseg : first_segment (String c rest) = "").
  { rewrite first_segment_cons, Hsep. reflexivity. }
  assert (Hlab : abbrev_label (String c rest) = "").
  { apply Hempty; [discriminate | exact Hseg]. }
  split; [exact Hseg|]. split; [exact Hlab|].
  split; [rewrite Hlab; discriminate|]. split; [|split; [exact Hderived|split]].
  - intros colname Hne Hs. split; [now apply Hempty|].
    apply first_segment_empty_iff in Hs.
    destruct Hs as [-> | (c' & rest' & -> & Hc')]; [congruence|].
    exists c', rest'. split; [reflexivity|].
    unfold is_separator in Hc'.
    apply orb_true_iff in Hc' as [Hc' | Hc'];
      [apply orb_true_iff in Hc' as [Hc' | Hc']|];
      apply Ascii.eqb_eq in Hc'; auto.
  - intros colname. destruct colname as [|c0 rest0].
    + split; [now left | reflexivity].
    + rewrite Hderived by discriminate. split; [now right|].
      intros [H | H]; [discriminate H | exact H].
  - reflexivity.
Qed.

(** C10 on a name for each of the three separators. *)
Lemma C10_witness :
  ("_"%char = "_"%char \/ "_"%char = "-"%char \/ "_"%char = " "%char)
  /\ abbrev_label "_QTD" = ""
  /\ abbrev_label " QTD" = ""
  /\ abbrev_label "-QTD" = "".
Proof.
  split; [left; reflexivity|].
  split; [|split].
  - exact (proj1 (proj2 (C10_abbrev_label_leading_separator
                           "_" "QTD" (or_introl eq_refl)))).
  - exact (proj1 (proj2 (C10_abbrev_label_leading_separator
                           " " "QTD" (or_intror (or_intror eq_refl))))).
  - exact (proj1 (proj2 (C10_abbrev_label_leading_separator
                           "-" "QTD" (or_intror (or_introl eq_refl))))).
Defined.

(** C10 as stated fails in its last clause: VAL is also the label of
    non-empty names, those whose own first segment reads VAL. *)
Lemma C10_counterexample :
  "VAL_CUSTO" <> ""
  /\ first_segment "VAL_CUSTO" = "VAL"
  /\ abbrev_label "VAL_CUSTO" = "VAL"
  /\ ~ (forall colname : string,
          abbrev_label colname = "VAL" -> colname = "").
Proof.
  split; [discriminate|]. split; [reflexivity|]. split; [reflexivity|].
  intros H. specialize (H "VAL_CUSTO" eq_refl). discriminate H.
Qed.

Example abbrev_label_samples :
  map abbrev_label ["QTD_ESTOQUE_ATUAL"; "DEPARTAMENTO"; "des-cor"; "";
                    "val_custo"]
  = ["QTD"; "DEPA"; "DES"; "VAL"; "VAL"].
Proof. reflexivity. Qed.

(* ================================================================== *)
(** * The attribute block *)
(* ================================================================== *)

Lemma append_nonempty_l (a b : string) : a <> "" -> a ++ b <> "".
Proof. destruct a; [congruence | discriminate]. Qed.

Lemma append_nonempty_r (a b : string) : b <> "" -> a ++ b <> "".
Proof. destruct a; simpl; [auto | discriminate]. Qed.

Lemma head_append (a b : string) :
  starts_with_space (a ++ b)
  = match a with
    | EmptyString => starts_with_space b
    | _ => starts_with_space a
    end.
Proof. destruct a; reflexivity. Qed.

Lemma tail_append (a b : string) :
  ends_with_space (a ++ b)
  = match b with
    | EmptyString => ends_with_space a
    | _ => ends_with_space b
    end.
Proof.
  induction a as [|c a IH]; simpl.
  - destruct b; reflexivity.
  - rewrite IH. destruct a as [|c' a']; simpl.
    + destruct b; reflexivity.
    + destruct b; reflexivity.
Qed.

Lemma join_cons (sep p : string) (ps : list string) :
  Py.join sep (p :: ps)
  = match ps with
    | [] => p
    | _ => p ++ sep ++ Py.join sep ps
    end.
Proof. destruct ps; reflexivity. Qed.

Lemma join_nonempty (sep p : string) (ps : list string) :
  p <> "" -> Py.join sep (p :: ps) <> "".
Proof.
  intros Hp. rewrite join_cons.
  destruct ps; [exact Hp | now apply append_nonempty_l].
Qed.

Lemma join_head (sep p : string) (ps : list string) :
  p <> "" ->
  starts_with_space (Py.join sep (p :: ps)) = starts_with_space p.
Proof.
  intros Hp. rewrite join_cons. destruct ps; [reflexivity|].
  rewrite head_append. destruct p; congruence.
Qed.

Lemma join_tail (sep : string) (ps : list string) :
  Forall (fun p => p <> "" /\ ends_with_space p = false) ps ->
  ends_with_space (Py.join sep ps) = false.
Proof.
  induction 1 as [|p ps [Hp He] Hps IH]; [reflexivity|].
  rewrite join_cons. destruct ps as [|q qs]; [exact He|].
  rewrite !tail_append.
  inversion Hps as [|? ? [Hq _] _]; subst.
  pose proof (join_nonempty sep q qs Hq) as Hj.
  destruct (Py.join sep (q :: qs)) eqn:E; [congruence|].
  destruct (sep ++ String a s) eqn:E2.
  - destruct sep; discriminate.
  - exact IH.
Qed.

(** The loop of [_build_extra_block] collects the fragments of the
    contributing columns, in order. *)
Lemma fold_extra_step (self : App) (row : Row) (cols : list ColEntry) :
  forall acc,
    fold_left (extra_step self row) cols acc
    = (acc ++ fragments self row cols)%list.
Proof.
  unfold fragments.
  induction cols as [|e cols IH]; intros acc; simpl.
  - now rewrite app_nil_r.
  - rewrite IH. unfold extra_step, contributes, fragment, cell.
    destruct (col_var e); simpl; [|reflexivity].
    destruct (smart_str (row_get row (col_name e) (PyStr "")) =? "")%string;
      simpl; [reflexivity|].
    rewrite <- app_assoc. simpl.
    destruct (Py.strip (label_var e) =? "")%string; reflexivity.
Qed.

Lemma build_extra_block_fragments (self : App) (row : Row) :
  _build_extra_block self row
  = match fragments self row (columns self) with
    | [] => ""
    | parts => opening_var self ++ Py.join (pair_sep_var self) parts
                 ++ closing_var self
    end.
Proof.
  unfold _build_extra_block. rewrite fold_extra_step. simpl.
  destruct (fragments self row (columns self)); reflexivity.
Qed.

Lemma fragment_nonempty (self : App) (row : Row) (e : ColEntry) :
  cell row (col_name e) <> "" -> fragment self row e <> "".
Proof.
  intros Hv. unfold fragment.
  destruct (Py.strip (label_var e) =? "")%string; [exact Hv|].
  now apply append_nonempty_r, append_nonempty_r.
Qed.

Lemma fragment_head (self : App) (row : Row) (e : ColEntry) :
  starts_with_space (fragment self row e) = false.
Proof.
  unfold fragment.
  destruct (String.eqb_spec (Py.strip (label_var e)) "") as [_|Hne].
  - apply smart_str_head.
  - rewrite head_append. pose proof (strip_head (label_var e)) as H.
    destruct (Py.strip (label_var e)); [congruence | exact H].
Qed.

Lemma fragment_tail (self : App) (row : Row) (e : ColEntry) :
  cell row (col_name e) <> "" ->
  ends_with_space (fragment self row e) = false.
Proof.
  intros Hv. unfold fragment.
  pose proof (smart_str_tail (row_get row (col_name e) (PyStr ""))) as Ht.
  fold (cell row (col_name e)) in Ht.
  destruct (Py.strip (label_var e) =? "")%string; [exact Ht|].
  rewrite !tail_append.
  destruct (cell row (col_name e)) eqn:E; [congruence|].
  destruct (label_sep_var self ++ String a s) eqn:E2; [|exact Ht].
  destruct (label_sep_var self); discriminate.
Qed.

Lemma contributes_cell (row : Row) (e : ColEntry) :
  contributes row e = true ->
  col_var e = true /\ cell row (col_name e) <> "".
Proof.
  unfold contributes. intros H. apply andb_true_iff in H as [Hc Hv].
  split; [exact Hc|]. apply negb_true_iff in Hv.
  now apply String.eqb_neq.
Qed.

Lemma fragments_nil_iff (self : App) (row : Row) (cols : list ColEntry) :
  fragments self row cols = []
  <-> forall e, In e cols -> col_var e = true -> cell row (col_name e) = "".
Proof.
  unfold fragments. split.
  - intros H e Hin Hc.
    destruct (String.eqb_spec (cell row (col_name e)) "") as [Hv|Hv];
      [exact Hv|exfalso].
    assert (Hf : In e (filter (contributes row) cols)).
    { apply filter_In. split; [exact Hin|]. unfold contributes.
      rewrite Hc. apply String.eqb_neq in Hv. now rewrite Hv. }
    destruct (filter (contributes row) cols); [contradiction|discriminate].
  - intros H.
    destruct (filter (contributes row) cols) as [|e l] eqn:E; [reflexivity|].
    assert (Hin : In e (filter (contributes row) cols))
      by (rewrite E; now left).
    apply filter_In in Hin as [Hin Hc].
    apply contributes_cell in Hc as [Hc Hv].
    elim Hv. now apply H.
Qed.

Lemma fragments_all_nonempty (self : App) (row : Row)
                             (cols : list ColEntry) :
  Forall (fun p => p <> "" /\ ends_with_space p = false)
         (fragments self row cols).
Proof.
  unfold fragments. apply Forall_forall. intros p Hp.
  apply in_map_iff in Hp as (e & <- & He).
  apply filter_In in He as [_ Hc].
  apply contributes_cell in Hc as [_ Hv].
  split; [now apply fragment_nonempty | now apply fragment_tail].
Qed.

Lemma fragments_head_nonempty (self : App) (row : Row)
                              (cols : list ColEntry) p ps :
  fragments self row cols = p :: ps ->
  p <> "" /\ starts_with_space p = false.
Proof.
  intros E. pose proof (fragments_all_nonempty self row cols) as H.
  rewrite E in H. inversion H as [|? ? [Hp _] _]; subst.
  split; [exact Hp|].
  unfold fragments in E.
  destruct (filter (contributes row) cols) as [|e l]; [discriminate|].
  injection E as <- _. apply fragment_head.
Qed.

Lemma block_nonempty_of_fragments (self : App) (row : Row) p ps :
  fragments self row (columns self) = p :: ps ->
  _build_extra_block self row <> "".
Proof.
  intros E. rewrite build_extra_block_fragments, E.
  apply append_nonempty_r, append_nonempty_l, join_nonempty.
  now apply (fragments_head_nonempty self row (columns self) p ps).
Qed.

Lemma block_empty_iff (self : App) (row : Row) :
  _build_extra_block self row = ""
  <-> fragments self row (columns self) = [].
Proof.
  split.
  - intros H. destruct (fragments self row (columns self)) as [|p ps] eqn:E;
      [reflexivity|].
    now apply block_nonempty_of_fragments in E.
  - intros E. now rewrite build_extra_block_fragments, E.
Qed.

(** C5: the attribute block is the empty string exactly when no ticked
    column has a non-empty normalized value; otherwise it is the
    fragments of the ticked columns with a value, in order, joined by
    the pair separator between the opening and the closing string.
    The bare pair opening-closing comes out only as the empty
    string. *)
Theorem C5_extra_block_empty_iff_no_fragment :
  forall (self : App) (row : Row),
    (_build_extra_block self row = ""
     <-> forall e, In e (columns self) -> col_var e = true ->
                   cell row (col_name e) = "")
    /\ (fragments self row (columns self) <> [] ->
        _build_extra_block self row
        = opening_var self
            ++ Py.join (pair_sep_var self)
                 (fragments self row (columns self))
            ++ closing_var self)
    /\ (_build_extra_block self row = opening_var self ++ closing_var self ->
        _build_extra_block self row = "").
Proof.
  intros self row. split; [|split].
  - rewrite block_empty_iff. apply fragments_nil_iff.
  - intros Hne. rewrite build_extra_block_fragments.
    destruct (fragments self row (columns self)); [congruence|reflexivity].
  - intros H.
    destruct (fragments self row (columns self)) as [|p ps] eqn:E;
      [now apply block_empty_iff|exfalso].
    rewrite build_extra_block_fragments, E in H.
    apply (f_equal String.length) in H.
    rewrite !length_append in H.
    pose proof (fragments_head_nonempty _ _ _ _ _ E) as [Hp _].
    pose proof (join_nonempty (pair_sep_var self) p ps Hp) as Hj.
    destruct (Py.join (pair_sep_var self) (p :: ps)); [congruence|].
    simpl in H. lia.
Qed.

(** C5 on scenario A. *)
Lemma C5_witness :
  fragments app_A row_A (columns app_A) <> []
  /\ _build_extra_block app_A row_A = "(DEP: GERAL / QTD: 3)".
Proof.
  split; [intros H; vm_compute in H; discriminate H|].
  etransitivity.
  - apply (proj1 (proj2 (C5_extra_block_empty_iff_no_fragment app_A row_A))).
    intros H; vm_compute in H; discriminate H.
  - vm_compute. reflexivity.
Defined.

Lemma fragments_app (self : App) (row : Row) (a b : list ColEntry) :
  fragments self row (a ++ b)
  = (fragments self row a ++ fragments self row b)%list.
Proof. unfold fragments. now rewrite filter_app, map_app. Qed.

(** C8: a ticked column whose stored label is made of whitespace only
    is treated as a column without label: its fragment is the bare
    normalized value, without the label and without the label
    separator. *)
Theorem C8_blank_label_gives_bare_value :
  forall (self : App) (row : Row) (pre post : list ColEntry) (e : ColEntry),
    columns self = (pre ++ e :: post)%list ->
    col_var e = true ->
    all_space (label_var e) = true ->
    cell row (col_name e) <> "" ->
    Py.strip (label_var e) = ""
    /\ fold_left (extra_step self row) (columns self) []
       = (fragments self row pre ++ cell row (col_name e)
            :: fragments self row post)%list
    /\ _build_extra_block self row
       = opening_var self
           ++ Py.join (pair_sep_var self)
                (fragments self row pre ++ cell row (col_name e)
                   :: fragments self row post)
           ++ closing_var self.
Proof.
  intros self row pre post e Hcols Hc Hl Hv.
  pose proof (strip_all_space _ Hl) as Hs.
  assert (Hf : fragments self row (columns self)
               = (fragments self row pre ++ cell row (col_name e)
                    :: fragments self row post)%list).
  { rewrite Hcols, fragments_app. f_equal.
    change (e :: post) with ([e] ++ post)%list.
    rewrite fragments_app. unfold fragments at 1. simpl.
    unfold contributes. rewrite Hc.
    apply String.eqb_neq in Hv. rewrite Hv. simpl.
    unfold fragment. rewrite Hs. reflexivity. }
  split; [exact Hs|]. split.
  - rewrite fold_extra_step. exact Hf.
  - rewrite build_extra_block_fragments, Hf.
    destruct (fragments self row pre); reflexivity.
Qed.

(** C8 on a label of two spaces. *)
Lemma C8_witness :
  label_var {| col_name := "DEPARTAMENTO"; col_var := true;
               label_var := "  " |} <> ""
  /\ _build_extra_block app_blank_label row_A = "(GERAL)".
Proof.
  split; [discriminate|].
  etransitivity.
  - apply (C8_blank_label_gives_bare_value app_blank_label row_A [] []
             {| col_name := "DEPARTAMENTO"; col_var := true;
                label_var := "  " |});
      try reflexivity.
    intros H; vm_compute in H; discriminate H.
  - vm_compute. reflexivity.
Defined.

(* ================================================================== *)
(** * The line builder *)
(* ================================================================== *)

(** The two outcomes of [_build_line]. *)
Lemma build_line_cases (g : Globals) (self : App) (row : Row) :
  _build_line g self row
  = if is_rejected self row
    then (None,
          set_oversized self
            (_ean13_oversized self ++ [rejected_record g row]))
    else (Some (cell row "COD_INTERNO" ++ "|" ++ barcode_field self row
                  ++ "|" ++ final_description g self row),
          self).
Proof.
  unfold _build_line, is_rejected, barcode_field, final_description, cell.
  destruct (validate_ean13 self); simpl.
  - destruct (_ean13_fix_and_validate (row_get row "COD_EAN" (PyStr "")))
      as [[|] ean]; simpl; [|reflexivity].
    destruct (_build_extra_block self row =? "")%string; reflexivity.
  - destruct (_build_extra_block self row =? "")%string; reflexivity.
Qed.

Lemma strip_after_space (s : string) : Py.strip (" " ++ s) = Py.strip s.
Proof. reflexivity. Qed.

(** With clean opening and closing strings the block has no whitespace
    on its outside. *)
Lemma block_clean (self : App) (row : Row) :
  starts_with_space (opening_var self) = false ->
  ends_with_space (closing_var self) = false ->
  starts_with_space (_build_extra_block self row) = false
  /\ ends_with_space (_build_extra_block self row) = false.
Proof.
  intros Ho Hc. rewrite build_extra_block_fragments.
  destruct (fragments self row (columns self)) as [|p ps] eqn:E;
    [split; reflexivity|].
  pose proof (fragments_head_nonempty _ _ _ _ _ E) as [Hp Hhead].
  pose proof (fragments_all_nonempty self row (columns self)) as Hall.
  rewrite E in Hall.
  pose proof (join_nonempty (pair_sep_var self) p ps Hp) as Hj.
  pose proof (join_head (pair_sep_var self) p ps Hp) as Hjh.
  pose proof (join_tail (pair_sep_var self) (p :: ps) Hall) as Hjt.
  split.
  - rewrite head_append. destruct (opening_var self); [|exact Ho].
    rewrite head_append.
    destruct (Py.join (pair_sep_var self) (p :: ps)); congruence.
  - rewrite !tail_append.
    destruct (closing_var self) as [|c cl].
    + rewrite append_empty_r.
      destruct (Py.join (pair_sep_var self) (p :: ps)); congruence.
    + destruct (Py.join (pair_sep_var self) (p :: ps) ++ String c cl) eqn:E2;
        [|exact Hc].
      destruct (Py.join (pair_sep_var self) (p :: ps)); discriminate.
Qed.

(** C9, as the code has it: when the base column normalizes to the
    empty string and the attribute block is not empty, the final
    description is the attribute block stripped of the whitespace on
    its outside, so it never starts with a space; it is the attribute
    block itself whenever the opening string does not begin and the
    closing string does not end with whitespace. *)
Theorem C9_empty_base_description_is_stripped_block :
  forall (g : Globals) (self : App) (row : Row),
    cell row (BASE_COL g) = "" ->
    _build_extra_block self row <> "" ->
    final_description g self row = Py.strip (_build_extra_block self row)
    /\ starts_with_space (final_description g self row) = false
    /\ (starts_with_space (opening_var self) = false ->
        ends_with_space (closing_var self) = false ->
        final_description g self row = _build_extra_block self row)
    /\ (forall line,
           fst (_build_line g self row) = Some line ->
           line = cell row "COD_INTERNO" ++ "|" ++ barcode_field self row
                    ++ "|" ++ Py.strip (_build_extra_block self row)).
Proof.
  intros g self row Hbase Hextra.
  assert (Hd : final_description g self row
               = Py.strip (_build_extra_block self row)).
  { unfold final_description. rewrite Hbase.
    apply String.eqb_neq in Hextra. rewrite Hextra.
    apply strip_after_space. }
  split; [exact Hd|]. split; [rewrite Hd; apply strip_head|]. split.
  - intros Ho Hc. rewrite Hd.
    destruct (block_clean self row Ho Hc) as [Hh Ht].
    now apply strip_fixed.
  - intros line. rewrite build_line_cases, Hd.
    destruct (is_rejected self row); simpl; [discriminate|].
    now intros [= <-].
Qed.

(** C9 with the default opening and closing strings. *)
Lemma C9_witness :
  cell row_no_base (BASE_COL default_globals) = ""
  /\ _build_extra_block (set_columns initial_app (columns app_spaced))
                        row_no_base <> ""
  /\ final_description default_globals
       (set_columns initial_app (columns app_spaced)) row_no_base
     = "(DEP: GERAL)".
Proof.
  split; [reflexivity|].
  split; [intros H; vm_compute in H; discriminate H|].
  etransitivity.
  - refine (proj1 (C9_empty_base_description_is_stripped_block
                      default_globals
                      (set_columns initial_app (columns app_spaced))
                      row_no_base _ _));
      [reflexivity | intros H; vm_compute in H; discriminate H].
  - vm_compute. reflexivity.
Defined.

(** C9 as stated fails when the opening string begins or the closing
    string ends with whitespace: the base column is empty,
    the block is [" (DEP: GERAL) "], and the final description of the
    emitted line is ["(DEP: GERAL)"], which is neither the block nor
    the block without its leading space. *)
Lemma C9_counterexample :
  cell row_no_base (BASE_COL default_globals) = ""
  /\ _build_extra_block app_spaced row_no_base = " (DEP: GERAL) "
  /\ _build_line default_globals app_spaced row_no_base
     = (Some "1|2|(DEP: GERAL)", app_spaced)
  /\ final_description default_globals app_spaced row_no_base
     <> _build_extra_block app_spaced row_no_base
  /\ final_description default_globals app_spaced row_no_base
     <> Py.lstrip (_build_extra_block app_spaced row_no_base).
Proof.
  repeat split; try (vm_compute; reflexivity);
    intros H; vm_compute in H; discriminate H.
Qed.

(** C4, as the code has it: an emitted line is always the normalized
    COD_INTERNO value, a bar, the barcode field of COD_EAN, a bar and
    the final description; the configured prefix list changes
    neither which nor how many fields lead the line; with the default
    prefix list and validation off this is the line the specification
    words. *)
Theorem C4_line_has_fixed_two_field_prefix :
  forall (g : Globals) (self : App) (row : Row),
    (forall line,
        fst (_build_line g self row) = Some line ->
        line = cell row "COD_INTERNO" ++ "|" ++ barcode_field self row
                 ++ "|" ++ final_description g self row)
    /\ (forall prefix' : list string,
           _build_line {| BASE_COL := BASE_COL g;
                          MANDATORY_PREFIX := prefix' |} self row
           = _build_line g self row)
    /\ (validate_ean13 self = false ->
        MANDATORY_PREFIX g = ["COD_INTERNO"; "COD_EAN"] ->
        fst (_build_line g self row) = Some (spec_prefixed_line g self row)).
Proof.
  intros g self row. split; [|split].
  - intros line. rewrite build_line_cases.
    destruct (is_rejected self row); simpl; [discriminate|].
    now intros [= <-].
  - intros prefix'. reflexivity.
  - intros Hv Hp. rewrite build_line_cases.
    unfold is_rejected, spec_prefixed_line, barcode_field.
    rewrite Hv, Hp. simpl. now rewrite !append_assoc.
Qed.

(** C4 on scenario A with the default prefix list. *)
Lemma C4_witness :
  validate_ean13 app_A = false
  /\ MANDATORY_PREFIX default_globals = ["COD_INTERNO"; "COD_EAN"]
  /\ fst (_build_line default_globals app_A row_A)
     = Some (spec_prefixed_line default_globals app_A row_A).
Proof.
  split; [reflexivity|]. split; [reflexivity|].
  refine (proj2 (proj2 (C4_line_has_fixed_two_field_prefix
                          default_globals app_A row_A)) _ _);
    reflexivity.
Defined.

(** C4 as stated fails for a configuration whose prefix list is not
    the default one: with the prefix list
    COD_INTERNO alone the line still carries the barcode, and with a
    third prefix column it still carries two fields. *)
Lemma C4_counterexample :
  MANDATORY_PREFIX globals_one_prefix = ["COD_INTERNO"]
  /\ fst (_build_line globals_one_prefix app_A row_A)
     = Some "123|789|ADSTRIGENTE 387 FACE BEAUTIFUL (DEP: GERAL / QTD: 3)"
  /\ spec_prefixed_line globals_one_prefix app_A row_A
     = "123|ADSTRIGENTE 387 FACE BEAUTIFUL (DEP: GERAL / QTD: 3)"
  /\ MANDATORY_PREFIX globals_three_prefixes
     = ["COD_INTERNO"; "COD_EAN"; "DEPARTAMENTO"]
  /\ fst (_build_line globals_three_prefixes app_A row_A)
     = Some "123|789|ADSTRIGENTE 387 FACE BEAUTIFUL (DEP: GERAL / QTD: 3)"
  /\ spec_prefixed_line globals_three_prefixes app_A row_A
     = "123|789|GERAL|ADSTRIGENTE 387 FACE BEAUTIFUL (DEP: GERAL / QTD: 3)"
  /\ fst (_build_line globals_one_prefix app_A row_A)
     <> Some (spec_prefixed_line globals_one_prefix app_A row_A).
Proof.
  repeat split; try (vm_compute; reflexivity).
  intros H; vm_compute in H; discriminate H.
Qed.

(* ================================================================== *)
(** * A pass over the rows *)
(* ================================================================== *)

Lemma set_oversized_same (self : App) :
  set_oversized self (_ean13_oversized self) = self.
Proof. destruct self; reflexivity. Qed.

Lemma set_oversized_twice (self : App) (l l' : list Oversized) :
  set_oversized (set_oversized self l) l' = set_oversized self l'.
Proof. reflexivity. Qed.

(** What [_build_line] returns does not depend on the records filed
    so far. *)
Lemma build_line_ignores_oversized (g : Globals) (self : App)
                                   (l : list Oversized) (row : Row) :
  fst (_build_line g (set_oversized self l) row)
  = fst (_build_line g self row).
Proof.
  rewrite !build_line_cases.
  change (is_rejected (set_oversized self l) row) with (is_rejected self row).
  destruct (is_rejected self row); reflexivity.
Qed.

Lemma emitted_lines_ignores_oversized (g : Globals) (self : App)
                                      (l : list Oversized)
                                      (rows : list Row) :
  emitted_lines g (set_oversized self l) rows = emitted_lines g self rows.
Proof.
  unfold emitted_lines. apply flat_map_ext. intros row.
  now rewrite build_line_ignores_oversized.
Qed.

Lemma emitted_lines_app (g : Globals) (self : App) (a b : list Row) :
  emitted_lines g self (a ++ b)
  = (emitted_lines g self a ++ emitted_lines g self b)%list.
Proof. unfold emitted_lines. apply flat_map_app. Qed.

Lemma rejected_records_app (g : Globals) (self : App) (a b : list Row) :
  rejected_records g self (a ++ b)
  = (rejected_records g self a ++ rejected_records g self b)%list.
Proof. unfold rejected_records. now rewrite filter_app, map_app. Qed.

(** The loop of [on_preview] and [on_save]: the lines of the accepted
    rows and the records of the rejected rows, each in row order. *)
Lemma build_lines_spec (g : Globals) (rows : list Row) :
  forall (self : App) (lines : list string),
    build_lines g self rows lines
    = ((lines ++ emitted_lines g self rows)%list,
       set_oversized self
         (_ean13_oversized self ++ rejected_records g self rows)).
Proof.
  induction rows as [|row rows IH]; intros self lines; simpl.
  - now rewrite !app_nil_r, set_oversized_same.
  - unfold emitted_lines, rejected_records. simpl.
    fold (emitted_lines g self rows).
    rewrite build_line_cases.
    destruct (is_rejected self row) eqn:E; simpl.
    + rewrite IH, emitted_lines_ignores_oversized. simpl.
      unfold rejected_records.
      change (is_rejected
                (set_oversized self
                   (_ean13_oversized self ++ [rejected_record g row])))
        with (is_rejected self).
      now rewrite <- app_assoc.
    + rewrite IH. now rewrite <- app_assoc.
Qed.

(** C3: with validation on, a row whose barcode keeps more than 13
    digits is refused by the canonicalizer and gives no line; the
    list of records of the window grows by exactly one record, which
    holds the normalized internal code, the normalized barcode, the
    base-column text and the digit count, and nothing else in the
    window changes.  The pass goes on: its lines are those of the
    rows before and after, and its records those of the rows before,
    this record, and those of the rows after. *)
Theorem C3_oversized_barcode_rejects_row :
  forall (g : Globals) (self : App) (row : Row),
    validate_ean13 self = true ->
    13 < String.length (digits_of (cell row "COD_EAN")) ->
    _ean13_fix_and_validate (row_get row "COD_EAN" (PyStr "")) = (false, "")
    /\ fst (_build_line g self row) = None
    /\ _ean13_oversized (snd (_build_line g self row))
       = (_ean13_oversized self ++
            [{| rec_COD_IN := cell row "COD_INTERNO";
                rec_COD_EAN := cell row "COD_EAN";
                rec_DES_PRODUTO := cell row (BASE_COL g);
                rec_LEN := String.length (digits_of (cell row "COD_EAN"))
             |}])%list
    /\ List.length (_ean13_oversized (snd (_build_line g self row)))
       = S (List.length (_ean13_oversized self))
    /\ (df (snd (_build_line g self row)),
        columns (snd (_build_line g self row)),
        (opening_var (snd (_build_line g self row)),
         closing_var (snd (_build_line g self row)),
         pair_sep_var (snd (_build_line g self row)),
         label_sep_var (snd (_build_line g self row))),
        validate_ean13 (snd (_build_line g self row)),
        preview_txt (snd (_build_line g self row)))
       = (df self, columns self,
          (opening_var self, closing_var self,
           pair_sep_var self, label_sep_var self),
          validate_ean13 self, preview_txt self)
    /\ (forall (before after : list Row) (lines : list string),
           fst (build_lines g self (before ++ row :: after) lines)
           = (lines ++ emitted_lines g self before
                    ++ emitted_lines g self after)%list
           /\ _ean13_oversized
                (snd (build_lines g self (before ++ row :: after) lines))
              = (_ean13_oversized self
                   ++ rejected_records g self before
                   ++ [{| rec_COD_IN := cell row "COD_INTERNO";
                          rec_COD_EAN := cell row "COD_EAN";
                          rec_DES_PRODUTO := cell row (BASE_COL g);
                          rec_LEN :=
                            String.length (digits_of (cell row "COD_EAN"))
                       |}]
                   ++ rejected_records g self after)%list).
Proof.
  intros g self row Hv Hlen.
  pose proof (ean13_rejects (row_get row "COD_EAN" (PyStr "")) Hlen) as Hrej.
  assert (Hr : is_rejected self row = true).
  { unfold is_rejected. now rewrite Hv, Hrej. }
  split; [exact Hrej|].
  rewrite build_line_cases, Hr. cbn [fst snd].
  split; [reflexivity|]. split; [reflexivity|]. split.
  - cbn [_ean13_oversized set_oversized]. rewrite length_app. simpl. lia.
  - split; [reflexivity|].
    intros before after lines.
    rewrite build_lines_spec, emitted_lines_app, rejected_records_app.
    cbn [fst snd _ean13_oversized set_oversized]. split.
    + do 2 f_equal. unfold emitted_lines at 1. simpl.
      rewrite build_line_cases, Hr. reflexivity.
    + do 2 f_equal. unfold rejected_records at 1. simpl.
      rewrite Hr. reflexivity.
Qed.

(** C3 on a barcode typed with a hyphen and blanks: 14 digits among
    15 characters. *)
Lemma C3_witness :
  validate_ean13 app_validating = true
  /\ 13 < String.length (digits_of (cell row_dashed_ean "COD_EAN"))
  /\ fst (_build_line default_globals app_validating row_dashed_ean) = None
  /\ _ean13_oversized
       (snd (_build_line default_globals app_validating row_dashed_ean))
     = [{| rec_COD_IN := "77"; rec_COD_EAN := "7891234-5678901";
           rec_DES_PRODUTO := "SABONETE"; rec_LEN := 14 |}].
Proof.
  assert (Hlen : 13 < String.length
                        (digits_of (cell row_dashed_ean "COD_EAN")))
    by (vm_compute; lia).
  split; [reflexivity|]. split; [exact Hlen|].
  destruct (C3_oversized_barcode_rejects_row
              default_globals app_validating row_dashed_ean eq_refl Hlen)
    as (_ & Hnone & Hrec & _).
  split; [exact Hnone|].
  rewrite Hrec. vm_compute. reflexivity.
Defined.

(* ================================================================== *)
(** * The rejection logger *)
(* ================================================================== *)

Lemma file_get_set_other (fs : list (string * string)) (path text p : string) :
  p <> path -> file_get (file_set fs path text) p = file_get fs p.
Proof.
  intros Hp. induction fs as [|[q t] fs IH]; simpl.
  - apply String.eqb_neq in Hp. rewrite String.eqb_sym. now rewrite Hp.
  - destruct (String.eqb_spec q path) as [->|Hq]; simpl.
    + apply not_eq_sym, String.eqb_neq in Hp. now rewrite Hp.
    + destruct (q =? p)%string; [reflexivity | exact IH].
Qed.

Lemma quiet_ret {A : Type} (path : string) (a : A) : quiet path (ret a).
Proof. intros st. simpl. auto. Qed.

Lemma quiet_bind {A B : Type} (path : string) (m : IO A) (k : A -> IO B) :
  quiet path m -> (forall a, quiet path (k a)) -> quiet path (bind m k).
Proof.
  intros Hm Hk st. unfold bind.
  destruct (Hm st) as (H1 & H2 & H3).
  destruct (m st) as [[a | e] st']; simpl in *; [|auto].
  destruct (Hk a st') as (K1 & K2 & K3).
  split; [congruence|]. split; [congruence|].
  intros p Hp. rewrite K3, H3; auto.
Qed.

Lemma quiet_file_op (path : string) : quiet path file_op.
Proof.
  intros [self w]. unfold file_op. simpl.
  destruct (faults w) as [|[e|] l]; simpl; auto.
Qed.

Lemma quiet_fh_write (path text : string) : quiet path (fh_write path text).
Proof.
  intros [self w]. unfold fh_write, bind, file_op, get_world, put_world.
  simpl. destruct (faults w) as [|[e|] l]; simpl; auto;
    (split; [reflexivity|]; split; [reflexivity|]);
    intros p Hp; now apply file_get_set_other.
Qed.

Lemma quiet_py_open (path : string) (mode : open_mode) :
  quiet path (py_open path mode).
Proof.
  intros [self w]. unfold py_open, bind, file_op, get_world, put_world, ret.
  simpl. destruct (faults w) as [|[e|] l]; simpl; auto;
    (split; [reflexivity|]; split; [reflexivity|]);
    intros p Hp; now apply file_get_set_other.
Qed.

Lemma py_open_handle (path : string) (mode : open_mode) (st : App * World) :
  forall fh st', py_open path mode st = (inl fh, st') -> fh = path.
Proof.
  destruct st as [self w].
  unfold py_open, bind, file_op, get_world, put_world, ret. simpl.
  intros fh st'. destruct (faults w) as [|[e|] l]; simpl; congruence.
Qed.

Lemma quiet_with_open (path : string) (mode : open_mode)
                      (body : string -> IO unit) :
  quiet path (body path) -> quiet path (with_open path mode body).
Proof.
  intros Hb st. unfold with_open, bind.
  destruct (quiet_py_open path mode st) as (H1 & H2 & H3).
  destruct (py_open path mode st) as [[fh | e] st'] eqn:E; simpl in *;
    [|auto].
  apply py_open_handle in E. subst fh.
  destruct (Hb st') as (B1 & B2 & B3).
  destruct (body path st') as [[[] | e] st'']; simpl in *.
  - destruct (quiet_file_op path st'') as (C1 & C2 & C3).
    unfold fh_close.
    split; [congruence|]. split; [congruence|].
    intros p Hp. rewrite C3, B3, H3; auto.
  - destruct (quiet_file_op path st'') as (C1 & C2 & C3).
    unfold fh_close.
    destruct (file_op st'') as [[[] | e'] st3]; simpl in *;
      (split; [congruence|]; split; [congruence|]);
      intros p Hp; rewrite C3, B3, H3; auto.
Qed.

Lemma quiet_for_each {A : Type} (path : string) (xs : list A)
                     (body : A -> IO unit) :
  (forall x, quiet path (body x)) -> quiet path (for_each xs body).
Proof.
  intros Hb. induction xs as [|x xs IH]; simpl.
  - apply quiet_ret.
  - apply quiet_bind; auto.
Qed.

(** The body of the log writer touches the log file only. *)
Lemma write_log_body_quiet (context : string) (st : App * World) :
  fst (snd (write_log_body context st)) = fst st
  /\ forall p, p <> log_path (snd st) ->
       file_get (files (snd (snd (write_log_body context st)))) p
       = file_get (files (snd st)) p.
Proof.
  unfold write_log_body, bind, get_world, get_self. simpl.
  match goal with
  | |- context [with_open ?path ?mode ?body st] =>
      assert (Hq : quiet path (with_open path mode body))
  end.
  { apply quiet_with_open. cbv beta.
    apply quiet_bind; [apply quiet_fh_write | intros _].
    apply quiet_bind; [apply quiet_fh_write | intros _].
    apply quiet_bind; [|intros _; apply quiet_fh_write].
    apply quiet_for_each. intros rec. apply quiet_fh_write. }
  destruct (Hq st) as (H1 & _ & H3). split; assumption.
Qed.

(** [_write_ean13_log] returns normally whatever the file operations
    do. *)
Lemma write_log_returns (context : string) (st : App * World) :
  fst (_write_ean13_log context st) = inl tt.
Proof.
  unfold _write_ean13_log, bind, get_self. simpl.
  destruct (_ean13_oversized (fst st)); [reflexivity|].
  unfold try_except_pass.
  destruct (write_log_body context st) as [[[] | e] st']; reflexivity.
Qed.

Lemma write_log_quiet (context : string) (st : App * World) :
  fst (snd (_write_ean13_log context st)) = fst st
  /\ forall p, p <> log_path (snd st) ->
       file_get (files (snd (snd (_write_ean13_log context st)))) p
       = file_get (files (snd st)) p.
Proof.
  unfold _write_ean13_log, bind, get_self. simpl.
  destruct (_ean13_oversized (fst st)); [simpl; auto|].
  unfold try_except_pass.
  pose proof (write_log_body_quiet context st) as H.
  destruct (write_log_body context st) as [[[] | e] st']; exact H.
Qed.

Lemma on_preview_returns (g : Globals) (st : App * World) :
  fst (on_preview g st) = inl tt.
Proof.
  destruct st as [self w].
  unfold on_preview, bind, get_self. cbn -[firstn _write_ean13_log must_log].
  destruct (df self) as [d|]; [|reflexivity].
  destruct (str_in (BASE_COL g) (df_columns d)); cbn -[firstn _write_ean13_log must_log];
    [|reflexivity].
  destruct (build_lines g (set_oversized self [])
              (firstn 10 (df_rows d)) []) as [lines self1].
  unfold bind, put_self, get_self. cbn -[firstn _write_ean13_log must_log].
  destruct (must_log (set_preview self1 (Py.join NL lines)));
    [|reflexivity].
  unfold bind.
  match goal with
  | |- context [_write_ean13_log ?c ?st] =>
      pose proof (write_log_returns c st) as H;
      destruct (_write_ean13_log c st) as [[[] | e] st']
  end; [reflexivity | discriminate H].
Qed.

Lemma on_save_returns (g : Globals) (st : App * World) :
  fst (on_save g st) = inl tt.
Proof.
  unfold on_save, bind, get_self. simpl.
  destruct (df (fst st)) as [d|]; [|reflexivity].
  destruct (str_in (BASE_COL g) (df_columns d)); simpl; [|reflexivity].
  unfold bind, asksaveasfilename. simpl.
  destruct (save_as (snd st) =? "")%string; [reflexivity|].
  unfold bind, put_self, try_except. simpl.
  match goal with
  | |- fst (match ?body with _ => _ end) = _ =>
      destruct body as [[[] | e] st']; reflexivity
  end.
Qed.

(** The window after a preview: the lines and the records depend on
    the rows alone. *)
Lemma on_preview_result (g : Globals) (self : App) (w : World)
                        (d : DataFrame) :
  df self = Some d ->
  str_in (BASE_COL g) (df_columns d) = true ->
  fst (snd (on_preview g (self, w)))
  = set_preview
      (set_oversized self
         (rejected_records g self (firstn 10 (df_rows d))))
      (Py.join NL (emitted_lines g self (firstn 10 (df_rows d)))).
Proof.
  intros Hd Hb. unfold on_preview, bind, get_self. cbn -[firstn _write_ean13_log must_log].
  rewrite Hd, Hb. cbn -[firstn _write_ean13_log must_log].
  rewrite build_lines_spec. cbn -[firstn _write_ean13_log must_log].
  rewrite emitted_lines_ignores_oversized.
  change (rejected_records g (set_oversized self []))
    with (rejected_records g self).
  unfold bind, put_self, get_self. cbn -[firstn _write_ean13_log must_log].
  match goal with
  | |- context [must_log ?s] => destruct (must_log s); [|reflexivity]
  end.
  unfold bind.
  match goal with
  | |- context [_write_ean13_log ?c ?st] =>
      pose proof (write_log_returns c st) as H;
      destruct (write_log_quiet c st) as [Hs _];
      destruct (_write_ean13_log c st) as [[[] | e] st']
  end; [|discriminate H].
  simpl in *. exact Hs.
Qed.

(** C7: whatever the file operations of the log do, failures
    included, [_write_ean13_log] returns normally; it leaves the
    application object, with the records and the preview text, as it
    was and touches no file but the log.  When the writing raises, the
    exception stops there.  Neither the preview nor the export lets an
    exception out, and the lines and records of a preview are those of
    the rows, whatever happened to the log. *)
Theorem C7_log_failure_is_absorbed :
  forall (context : string) (self : App) (w : World),
    fst (_write_ean13_log context (self, w)) = inl tt
    /\ fst (snd (_write_ean13_log context (self, w))) = self
    /\ (forall p, p <> log_path w ->
          file_get (files (snd (snd (_write_ean13_log context (self, w))))) p
          = file_get (files w) p)
    /\ (forall e st',
           _ean13_oversized self <> [] ->
           write_log_body context (self, w) = (inr e, st') ->
           _write_ean13_log context (self, w) = (inl tt, st')
           /\ fst st' = self)
    /\ (forall g : Globals,
           fst (on_preview g (self, w)) = inl tt
           /\ fst (on_save g (self, w)) = inl tt)
    /\ (forall (g : Globals) (d : DataFrame),
           df self = Some d ->
           str_in (BASE_COL g) (df_columns d) = true ->
           fst (snd (on_preview g (self, w)))
           = set_preview
               (set_oversized self
                  (rejected_records g self (firstn 10 (df_rows d))))
               (Py.join NL
                  (emitted_lines g self (firstn 10 (df_rows d))))).
Proof.
  intros context self w.
  destruct (write_log_quiet context (self, w)) as [Hs Hf].
  split; [apply write_log_returns|].
  split; [exact Hs|]. split; [exact Hf|]. split; [|split].
  - intros e st' Hne Hbody.
    destruct (write_log_body_quiet context (self, w)) as [Hb _].
    rewrite Hbody in Hb. simpl in Hb. split; [|exact Hb].
    unfold _write_ean13_log, bind, get_self. simpl.
    destruct (_ean13_oversized self); [congruence|].
    unfold try_except_pass. now rewrite Hbody.
  - intros g. split; [apply on_preview_returns | apply on_save_returns].
  - intros g d. apply on_preview_result.
Qed.

(** C7 when opening the log is refused. *)
Lemma C7_witness :
  _ean13_oversized
    (set_oversized app_validating
       [rejected_record default_globals row_long_ean]) <> []
  /\ write_log_body ctx_export
       (set_oversized app_validating
          [rejected_record default_globals row_long_ean], world_denied)
     = (inr PermissionError,
        (set_oversized app_validating
           [rejected_record default_globals row_long_ean],
         set_faults world_denied []))
  /\ _write_ean13_log ctx_export
       (set_oversized app_validating
          [rejected_record default_globals row_long_ean], world_denied)
     = (inl tt,
        (set_oversized app_validating
           [rejected_record default_globals row_long_ean],
         set_faults world_denied [])).
Proof.
  split; [discriminate|]. split; [vm_compute; reflexivity|].
  refine (proj1 (proj1 (proj2 (proj2 (proj2
            (C7_log_failure_is_absorbed ctx_export
               (set_oversized app_validating
                  [rejected_record default_globals row_long_ean])
               world_denied))))
            PermissionError _ _ _));
    [discriminate | vm_compute; reflexivity].
Defined.

(** Scenario C: with the log directory refused, the preview still
    shows the line of the accepted row and keeps the record of the
    rejected one; no log file appears and the earlier export is as it
    was. *)
Example preview_with_log_denied :
  let '(r, (self', w')) :=
    on_preview default_globals (app_validating, world_denied) in
  r = inl tt
  /\ preview_txt self' = "78|0000000000042|CREME XYZ"
  /\ _ean13_oversized self'
     = [{| rec_COD_IN := "77"; rec_COD_EAN := "12345678901234";
           rec_DES_PRODUTO := "SABONETE"; rec_LEN := 14 |}]
  /\ file_get (files w') "/app/ean13_invalid.log" = None
  /\ files w' = files world_denied
  /\ dialogs w' = [WarnOversizedPreview 1].
Proof. vm_compute. repeat split. Qed.

(** Scenario C with a writable log: one block with one data line. *)
Example preview_with_log_written :
  let '(r, (self', w')) :=
    on_preview default_globals (app_validating, world_ok) in
  r = inl tt
  /\ preview_txt self' = "78|0000000000042|CREME XYZ"
  /\ file_get (files w') "/app/ean13_invalid.log"
     = Some ("[2025-01-31 08:00:00] " ++ ctx_preview ++ " - "
               ++ oversized_caption ++ "1" ++ NL
               ++ "COD_INTERNO" ++ TAB ++ "COD_EAN" ++ TAB
               ++ "DES_PRODUTO" ++ TAB ++ "LEN" ++ NL
               ++ "77" ++ TAB ++ "12345678901234" ++ TAB
               ++ "SABONETE" ++ TAB ++ "14" ++ NL
               ++ NL).
Proof. vm_compute. repeat split. Qed.

(** Scenario D: with validation on the barcode 42 is padded. *)
Example scenario_D :
  fst (_build_line default_globals app_validating
         [("COD_INTERNO", PyStr "78"); ("COD_EAN", PyStr "42");
          ("DES_PRODUTO", PyStr "CREME XYZ")])
  = Some "78|0000000000042|CREME XYZ".
Proof. reflexivity. Qed.

(** Scenario B: a NaN quantity gives no pair and the empty barcode
    stays an empty field. *)
Example scenario_B :
  fst (_build_line default_globals app_A
         [("COD_INTERNO", PyStr "456"); ("COD_EAN", PyStr "");
          ("DES_PRODUTO", PyStr "CREME XYZ");
          ("DEPARTAMENTO", PyStr "BELEZA");
          ("QTD_ESTOQUE_ATUAL", PyFloat nan)])
  = Some "456||CREME XYZ (DEP: BELEZA)".
Proof. vm_compute. reflexivity. Qed.

(** The export of the two rows of the validating window: one line in
    the file, one block in the log, no exception. *)
Example export_with_log_written :
  let '(r, (self', w')) :=
    on_save default_globals (app_validating, world_ok) in
  r = inl tt
  /\ file_get (files w') "/out/contagem.txt"
     = Some ("78|0000000000042|CREME XYZ" ++ NL)
  /\ List.length (_ean13_oversized self') = 1
  /\ dialogs w' = [WarnSavedWithOversized "/out/contagem.txt" 1].
Proof. vm_compute. repeat split. Qed.

(* ================================================================== *)
(** * The column list and the prefix columns *)
(* ================================================================== *)

Lemma str_in_iff (x : string) (xs : list string) :
  str_in x xs = true <-> In x xs.
Proof.
  unfold str_in. rewrite existsb_exists. split.
  - intros (y & Hy & E). apply String.eqb_eq in E. now subst.
  - intros H. exists x. split; [exact H | apply String.eqb_refl].
Qed.

Lemma dict_keys_subset (ks : list string) :
  forall seen k, In k (dict_keys seen ks) -> In k ks.
Proof.
  induction ks as [|k0 ks IH]; intros seen k; simpl; [auto|].
  destruct (str_in k0 seen); simpl.
  - intros H. right. now apply IH with seen.
  - intros [-> | H]; [now left | right; now apply IH with (k0 :: seen)].
Qed.

(** What [MANDATORY_PREFIX] does decide: the base column and the
    prefix columns are never offered for the attribute block. *)
Lemma populate_columns_excludes_prefix (g : Globals) (st : App * World) :
  Forall (fun e => col_name e <> BASE_COL g
                   /\ ~ In (col_name e) (MANDATORY_PREFIX g))
         (columns (fst (snd (_populate_columns_ui g st)))).
Proof.
  destruct st as [self w].
  unfold _populate_columns_ui, bind, get_self, put_self. simpl.
  destruct (df self) as [d|]; simpl; [|constructor].
  destruct (str_in (BASE_COL g)
              (map (fun c => Py.upper (Py.strip c)) (df_columns d)));
    simpl; [|constructor].
  unfold bind.
  match goal with
  | |- context [match ?m (?a, w) with _ => _ end] =>
      assert (Hm : exists w', m (a, w) = (inl tt, (a, w')))
  end.
  { match goal with
    | |- exists _, (match ?l with _ => _ end) _ = _ => destruct l
    end; unfold ret, showdialog; simpl; eauto. }
  destruct Hm as (w' & ->). simpl.
  apply Forall_forall. intros e He.
  apply in_map_iff in He as (col & <- & Hcol). simpl.
  apply dict_keys_subset in Hcol. apply filter_In in Hcol as [_ Hx].
  apply negb_true_iff in Hx.
  assert (Hn : ~ In col (BASE_COL g :: MANDATORY_PREFIX g)).
  { intros Hin. apply str_in_iff in Hin.
    change (str_in col (BASE_COL g :: MANDATORY_PREFIX g))
      with ((col =? BASE_COL g)%string || str_in col (MANDATORY_PREFIX g))
      in Hin.
    congruence. }
  split; [intros -> | intros Hin]; apply Hn; simpl; auto.
Qed.

Example populate_scenario_A :
  columns (fst (snd (_populate_columns_ui default_globals
     ({| df := Some {| df_columns := ["cod_interno"; "cod_ean";
                                      "des_produto"; "departamento";
                                      "qtd_estoque_atual"];
                       df_rows := [] |};
         columns := [];
         opening_var := "("; closing_var := ")";
         pair_sep_var := " / "; label_sep_var := ": ";
         validate_ean13 := false; _ean13_oversized := [];
         preview_txt := "" |}, world_ok))))
  = [{| col_name := "DEPARTAMENTO"; col_var := false;
        label_var := "DEPA" |};
     {| col_name := "QTD_ESTOQUE_ATUAL"; col_var := false;
        label_var := "QTD" |}].
Proof. reflexivity. Qed.

(* ================================================================== *)
(** * The built-ins on samples *)
(* ================================================================== *)

Example isspace_samples :
  map Py.isspace ["009"; " "; "160"; "a"; "0"]%char
  = [true; true; true; false; false].
Proof. reflexivity. Qed.

Example strip_both_ends : Py.strip "  a b  " = "a b".
Proof. reflexivity. Qed.

Example split_leading_separator :
  Py.split "_" "_ab_c" = [""; "ab"; "c"].
Proof. reflexivity. Qed.

Example split_empty : Py.split "_" "" = [""].
Proof. reflexivity. Qed.

Example rjust_samples :
  Py.rjust 13 "0" "789" = "0000000000789" /\ Py.rjust 1 "0" "ab" = "ab".
Proof. split; reflexivity. Qed.

Example str_int_samples :
  map Py.str_int [0; 3; -30; 10000000000000000000000]%Z
  = ["0"; "3"; "-30"; "10000000000000000000000"].
Proof. reflexivity. Qed.

Example upper_samples : Py.upper "qtd_Estoque" = "QTD_ESTOQUE".
Proof. reflexivity. Qed.

Example float_classes :
  Py.is_integer 3%float = true
  /\ Py.int_of_float 3%float = 3%Z
  /\ Py.is_integer 3.5%float = false
  /\ Py.is_integer (-0)%float = true
  /\ Py.is_integer infinity = false
  /\ Py.isnan nan = true.
Proof. repeat split; reflexivity. Qed.

Example str_float_samples :
  map Py.str_float
      [3.5; 2.5; -0.75; 0.0009765625; 0x1p-20; 1125899906842626.25; 1e22;
       infinity]%float
  = ["3.5"; "2.5"; "-0.75"; "0.0009765625"; "9.5367431640625e-07";
     "1125899906842626.2"; "1e+22"; "inf"].
Proof. vm_compute. reflexivity. Qed.

Example smart_str_samples :
  map smart_str [PyNone; PyFloat nan; PyFloat 3%float; PyFloat 3.5%float;
                 PyStr "  GERAL "; PyInt 12]
  = [""; ""; "3"; "3.5"; "GERAL"; "12"].
Proof. vm_compute. reflexivity. Qed.

(* ================================================================== *)
(** * Strings: characters, splitting and case *)
(* ================================================================== *)

Lemma has_char_app (c : ascii) (a b : string) :
  has_char c (a ++ b) = has_char c a || has_char c b.
Proof.
  induction a as [|x a IH]; simpl; [reflexivity|].
  now rewrite IH, orb_assoc.
Qed.

Lemma has_char_lstrip (c : ascii) (s : string) :
  has_char c s = false -> has_char c (Py.lstrip s) = false.
Proof.
  induction s as [|x s IH]; simpl; [reflexivity|].
  intros H. apply orb_false_iff in H as [Hx Hs].
  destruct (Py.isspace x); [now apply IH | simpl; now rewrite Hx, Hs].
Qed.

Lemma has_char_rstrip (c : ascii) (s : string) :
  has_char c s = false -> has_char c (Py.rstrip s) = false.
Proof.
  induction s as [|x s IH]; simpl; [reflexivity|].
  intros H. apply orb_false_iff in H as [Hx Hs].
  specialize (IH Hs).
  destruct (Py.rstrip s) as [|y r].
  - destruct (Py.isspace x); simpl; [reflexivity | now rewrite Hx].
  - simpl in *. now rewrite Hx, IH.
Qed.

Lemma has_char_strip (c : ascii) (s : string) :
  has_char c s = false -> has_char c (Py.strip s) = false.
Proof. intros H. now apply has_char_rstrip, has_char_lstrip. Qed.

Lemma has_char_substring (c : ascii) (s : string) :
  has_char c s = false ->
  forall i n, has_char c (substring i n s) = false.
Proof.
  induction s as [|x s IH]; intros Hs i n.
  - destruct i, n; reflexivity.
  - simpl in Hs. apply orb_false_iff in Hs as [Hx Hs'].
    destruct i as [|i]; simpl.
    + destruct n as [|n]; simpl; [reflexivity|].
      now rewrite Hx, IH.
    + now apply IH.
Qed.

Lemma has_char_replaced (old new : ascii) (s : string) :
  old <> new -> has_char old (Py.replace_char old new s) = false.
Proof.
  intros Hne. induction s as [|x s IH]; simpl; [reflexivity|].
  rewrite IH, orb_false_r.
  destruct (Ascii.eqb_spec x old) as [->|Hx].
  - apply Ascii.eqb_neq. congruence.
  - now apply Ascii.eqb_neq.
Qed.

Lemma has_char_replace_other (c old new : ascii) (s : string) :
  c <> new -> has_char c s = false ->
  has_char c (Py.replace_char old new s) = false.
Proof.
  intros Hne. induction s as [|x s IH]; simpl; [reflexivity|].
  intros H. apply orb_false_iff in H as [Hx Hs]. rewrite (IH Hs), orb_false_r.
  destruct (Ascii.eqb x old); [|exact Hx].
  apply Ascii.eqb_neq. congruence.
Qed.

Lemma split_not_nil (sep : ascii) (s : string) : Py.split sep s <> [].
Proof.
  destruct s as [|c s]; simpl; [discriminate|].
  destruct (Ascii.eqb c sep); [discriminate|].
  destruct (Py.split sep s); discriminate.
Qed.

Lemma split_without_sep (sep : ascii) (s : string) :
  has_char sep s = false -> Py.split sep s = [s].
Proof.
  induction s as [|c s IH]; simpl; [reflexivity|].
  intros H. apply orb_false_iff in H as [Hc Hs].
  now rewrite Hc, (IH Hs).
Qed.

Lemma split_app_sep (sep : ascii) (a b : string) :
  has_char sep a = false ->
  Py.split sep (a ++ String sep b) = a :: Py.split sep b.
Proof.
  induction a as [|c a IH]; simpl.
  - intros _. now rewrite Ascii.eqb_refl.
  - intros H. apply orb_false_iff in H as [Hc Ha].
    now rewrite Hc, (IH Ha).
Qed.

Lemma split_segments_without_sep (sep : ascii) (s : string) :
  Forall (fun seg => has_char sep seg = false) (Py.split sep s).
Proof.
  induction s as [|c s IH]; simpl; [now repeat constructor|].
  destruct (Ascii.eqb c sep) eqn:E; [now constructor|].
  destruct (Py.split sep s) as [|seg segs]; [now repeat constructor; simpl; rewrite E|].
  inversion IH; subst. constructor; [simpl; now rewrite E | assumption].
Qed.

Lemma split_join (sep : ascii) (ps : list string) :
  ps <> [] ->
  Forall (fun p => has_char sep p = false) ps ->
  Py.split sep (Py.join (String sep "") ps) = ps.
Proof.
  intros Hne H. induction H as [|p ps Hp Hps IH]; [congruence|].
  rewrite join_cons. destruct ps as [|q qs].
  - now apply split_without_sep.
  - simpl append. rewrite split_app_sep by exact Hp.
    f_equal. apply IH. discriminate.
Qed.

Lemma upper_app (a b : string) :
  Py.upper (a ++ b) = Py.upper a ++ Py.upper b.
Proof.
  induction a as [|c a IH]; simpl; [reflexivity|].
  now rewrite IH, append_assoc.
Qed.

Lemma upper_char_fixed (c : ascii) :
  Py.upper (Py.upper_char c) = Py.upper_char c.
Proof. destruct c as [[] [] [] [] [] [] [] []]; reflexivity. Qed.

Lemma upper_idempotent (s : string) : Py.upper (Py.upper s) = Py.upper s.
Proof.
  induction s as [|c s IH]; simpl; [reflexivity|].
  now rewrite upper_app, upper_char_fixed, IH.
Qed.

Lemma upper_char_edges (c : ascii) :
  Py.upper_char c <> ""
  /\ starts_with_space (Py.upper_char c) = Py.isspace c
  /\ ends_with_space (Py.upper_char c) = Py.isspace c.
Proof.
  destruct c as [[] [] [] [] [] [] [] []];
    (split; [discriminate | split; reflexivity]).
Qed.

Lemma upper_char_has (sep c : ascii) :
  In sep ["_"; "-"; " "; ","; "|"]%char ->
  has_char sep (Py.upper_char c) = Ascii.eqb c sep.
Proof.
  intros H. simpl in H.
  destruct H as [<- | [<- | [<- | [<- | [<- | []]]]]];
    destruct c as [[] [] [] [] [] [] [] []]; reflexivity.
Qed.

Lemma upper_has (sep : ascii) (s : string) :
  In sep ["_"; "-"; " "; ","; "|"]%char ->
  has_char sep (Py.upper s) = has_char sep s.
Proof.
  intros H. induction s as [|c s IH]; simpl; [reflexivity|].
  now rewrite has_char_app, upper_char_has, IH.
Qed.

Lemma upper_empty_iff (s : string) : Py.upper s = "" <-> s = "".
Proof.
  destruct s as [|c s]; simpl; [tauto|].
  split; [|discriminate].
  intros H. destruct (upper_char_edges c) as [Hne _].
  destruct (Py.upper_char c); [congruence | discriminate].
Qed.

Lemma upper_head (s : string) :
  starts_with_space (Py.upper s) = starts_with_space s.
Proof.
  destruct s as [|c s]; simpl; [reflexivity|].
  destruct (upper_char_edges c) as (Hne & Hh & _).
  rewrite head_append. destruct (Py.upper_char c); congruence.
Qed.

Lemma upper_tail (s : string) :
  ends_with_space (Py.upper s) = ends_with_space s.
Proof.
  induction s as [|c s IH]; [reflexivity|].
  destruct (upper_char_edges c) as (Hne & _ & Ht).
  change (Py.upper (String c s)) with (Py.upper_char c ++ Py.upper s).
  rewrite tail_append. destruct s as [|c' s'].
  - simpl. exact Ht.
  - change (ends_with_space (String c (String c' s')))
      with (ends_with_space (String c' s')).
    rewrite <- IH.
    destruct (Py.upper (String c' s')) eqn:E; [|reflexivity].
    apply (proj1 (upper_empty_iff _)) in E. discriminate E.
Qed.

(** A name as the loaders normalize it, [c.strip().upper()], is
    normalized already. *)
Lemma normalize_name_idempotent (s : string) :
  Py.upper (Py.strip (Py.upper (Py.strip s))) = Py.upper (Py.strip s).
Proof.
  rewrite (strip_fixed (Py.upper (Py.strip s))).
  - apply upper_idempotent.
  - rewrite upper_head. apply strip_head.
  - rewrite upper_tail. apply strip_tail.
Qed.

(* ================================================================== *)
(** * Labels and the INI format section *)
(* ================================================================== *)

Lemma length_prefix_slice (n : nat) (s : string) :
  String.length (Py.prefix_slice n s) <= n.
Proof.
  unfold Py.prefix_slice. revert n.
  induction s as [|c s IH]; intros [|n]; simpl; try lia.
  specialize (IH n). lia.
Qed.

Lemma split_segments_keep_absent (c sep : ascii) (s : string) :
  has_char c s = false ->
  Forall (fun seg => has_char c seg = false) (Py.split sep s).
Proof.
  induction s as [|x s IH]; simpl; [now repeat constructor|].
  intros H. apply orb_false_iff in H as [Hx Hs]. specialize (IH Hs).
  destruct (Ascii.eqb x sep); [now constructor|].
  destruct (Py.split sep s) as [|seg segs].
  - repeat constructor. simpl. now rewrite Hx.
  - inversion IH; subst. constructor; [simpl; now rewrite Hx | assumption].
Qed.

Lemma hd_split_forall (P : string -> Prop) (sep : ascii) (s : string) :
  Forall P (Py.split sep s) -> P (hd "" (Py.split sep s)).
Proof.
  pose proof (split_not_nil sep s) as Hne.
  destruct (Py.split sep s); [congruence|].
  intros H. now inversion H.
Qed.

Lemma first_segment_has_no_separator (colname : string) (sep : ascii) :
  In sep ["_"; "-"; " "]%char ->
  has_char sep (first_segment colname) = false.
Proof.
  intros H. unfold first_segment. apply hd_split_forall.
  simpl in H. destruct H as [<- | [<- | [<- | []]]].
  - apply split_segments_without_sep.
  - apply split_segments_keep_absent.
    apply has_char_replace_other; [discriminate|].
    apply has_char_replaced. discriminate.
  - apply split_segments_keep_absent.
    apply has_char_replaced. discriminate.
Qed.

(** The default label of a column is at most four characters long and
    holds none of the three word separators, whatever the column
    name. *)
Theorem abbrev_label_short_and_separator_free :
  forall (colname : string) (sep : ascii),
    In sep ["_"; "-"; " "]%char ->
    String.length (abbrev_label colname) <= 4
    /\ has_char sep (abbrev_label colname) = false.
Proof.
  intros colname sep Hsep. unfold abbrev_label.
  destruct (colname =? "")%string.
  - split; [simpl; lia|].
    simpl in Hsep. destruct Hsep as [<- | [<- | [<- | []]]]; reflexivity.
  - assert (Hseg : has_char sep
                     (Py.upper (Py.strip (first_segment colname))) = false).
    { rewrite upper_has by (simpl in *; tauto).
      apply has_char_strip. now apply first_segment_has_no_separator. }
    destruct (Nat.leb_spec
                (String.length (Py.upper (Py.strip (first_segment colname))))
                4) as [Hle | Hgt].
    + split; [exact Hle | exact Hseg].
    + split; [apply length_prefix_slice|].
      unfold Py.prefix_slice. now apply has_char_substring.
Qed.

Lemma abbrev_label_short_witness :
  In "_"%char ["_"; "-"; " "]%char
  /\ String.length (abbrev_label "QTD_ESTOQUE_ATUAL") <= 4.
Proof.
  split; [now left|].
  apply (abbrev_label_short_and_separator_free "QTD_ESTOQUE_ATUAL" "_").
  now left.
Defined.

Lemma strip_empty_all_space (s : string) :
  Py.strip s = "" -> all_space s = true.
Proof.
  unfold Py.strip. induction s as [|c s IH]; simpl; [reflexivity|].
  destruct (Py.isspace c) eqn:Ec; simpl; [exact IH|].
  destruct (Py.rstrip s); [rewrite Ec|]; discriminate.
Qed.

(** What [parse_mandatory_prefix] returns, name by name. *)
Lemma parse_elements (value : string) :
  Forall (fun p => p <> ""
                   /\ has_char "," p = false
                   /\ Py.upper (Py.strip p) = p)
         (parse_mandatory_prefix value).
Proof.
  unfold parse_mandatory_prefix. apply Forall_forall. intros p Hp.
  apply filter_In in Hp as [Hin Hne].
  apply in_map_iff in Hin as (q & <- & Hq).
  split; [|split].
  - apply negb_true_iff in Hne. now apply String.eqb_neq.
  - rewrite upper_has by (simpl; tauto). apply has_char_strip.
    pose proof (split_segments_without_sep "," value) as H.
    rewrite Forall_forall in H. now apply H.
  - apply normalize_name_idempotent.
Qed.

(** Every name [parse_mandatory_prefix] returns is non-empty, free of
    commas and of surrounding whitespace and already upper-cased; the
    segments that are blank are dropped, so a value made of commas and
    blanks gives no name at all. *)
Theorem parse_mandatory_prefix_names_clean :
  forall value : string,
    Forall (fun p => p <> ""
                     /\ has_char "," p = false
                     /\ Py.strip p = p
                     /\ Py.upper p = p)
           (parse_mandatory_prefix value)
    /\ (parse_mandatory_prefix value = []
        <-> Forall (fun seg => all_space seg = true)
                   (Py.split "," value)).
Proof.
  intros value. split.
  - pose proof (parse_elements value) as H.
    rewrite Forall_forall in *. intros p Hp.
    destruct (H p Hp) as (Hne & Hc & Hfix).
    split; [exact Hne|]. split; [exact Hc|].
    assert (Hs : Py.strip p = p).
    { rewrite <- Hfix. apply strip_fixed.
      - rewrite upper_head. apply strip_head.
      - rewrite upper_tail. apply strip_tail. }
    split; [exact Hs|]. now rewrite <- Hs at 1.
  - unfold parse_mandatory_prefix.
    induction (Py.split "," value) as [|seg segs IH]; simpl.
    + split; [constructor | reflexivity].
    + destruct (String.eqb_spec (Py.upper (Py.strip seg)) "") as [E|E];
        simpl.
      * apply (proj1 (upper_empty_iff _)) in E. rewrite IH. split.
        -- intros H. constructor; [|exact H].
           now apply strip_empty_all_space.
        -- intros H. now inversion H.
      * split; [discriminate|].
        intros H. inversion H as [|? ? Hs _]; subst.
        apply strip_all_space in Hs. rewrite Hs in E. now elim E.
Qed.

Example parse_mandatory_prefix_samples :
  map parse_mandatory_prefix
      ["cod_interno, cod_ean"; " , ,, "; ""; "a,,b ,"]
  = [["COD_INTERNO"; "COD_EAN"]; []; []; ["A"; "B"]].
Proof. reflexivity. Qed.

(** Saving the configuration and loading it again gives the same base
    column and the same prefix list, provided neither is empty: what
    [save_config_from_state] puts into the format section is what
    [load_config_values] turns back into the two globals it was
    given. *)
Theorem format_section_round_trip :
  forall cfg : FormatSection,
    BASE_COL (load_config_values cfg) <> "" ->
    MANDATORY_PREFIX (load_config_values cfg) <> [] ->
    load_config_values
      (saved_format_section (BASE_COL (load_config_values cfg))
                            (MANDATORY_PREFIX (load_config_values cfg)))
    = load_config_values cfg.
Proof.
  intros cfg Hb Hp.
  remember (load_config_values cfg) as g eqn:Hg.
  assert (HB : Py.upper (Py.strip (Py.upper (BASE_COL g))) = BASE_COL g).
  { subst g. simpl. rewrite upper_idempotent.
    apply normalize_name_idempotent. }
  assert (HP : Forall (fun p => p <> "" /\ has_char "," p = false
                                /\ Py.upper (Py.strip p) = p)
                      (MANDATORY_PREFIX g)).
  { subst g. simpl. apply parse_elements. }
  assert (Hmap : map (fun p => Py.upper (Py.strip p)) (MANDATORY_PREFIX g)
                 = MANDATORY_PREFIX g).
  { clear -HP. induction HP as [|p ps (_ & _ & Hfix) _ IH]; simpl;
      [reflexivity | now rewrite Hfix, IH]. }
  unfold load_config_values, saved_format_section. simpl.
  apply String.eqb_neq in Hb. rewrite Hb, HB.
  destruct g as [base prefix]. simpl in *. f_equal.
  destruct prefix as [|p ps]; [congruence|].
  rewrite Hmap. unfold parse_mandatory_prefix.
  rewrite split_join.
  - rewrite Hmap. clear -HP.
    induction HP as [|q qs (Hne & _ & _) _ IH]; simpl; [reflexivity|].
    apply String.eqb_neq in Hne. rewrite Hne. simpl. now rewrite IH.
  - discriminate.
  - eapply Forall_impl; [|exact HP]. intros q (_ & Hc & _). exact Hc.
Qed.

Lemma format_section_round_trip_witness :
  BASE_COL (load_config_values
              {| ini_BASE_COL := Some " descricao ";
                 ini_MANDATORY_PREFIX := Some "cod_interno, cod_ean" |})
  <> ""
  /\ load_config_values
       (saved_format_section "DESCRICAO" ["COD_INTERNO"; "COD_EAN"])
     = {| BASE_COL := "DESCRICAO";
          MANDATORY_PREFIX := ["COD_INTERNO"; "COD_EAN"] |}.
Proof.
  split; [discriminate|].
  apply (format_section_round_trip
           {| ini_BASE_COL := Some " descricao ";
              ini_MANDATORY_PREFIX := Some "cod_interno, cod_ean" |});
    discriminate.
Defined.

(** An empty base column or an empty prefix list does not survive the
    round trip: each is saved as its default. *)
Example format_section_defaults_on_empty :
  load_config_values (saved_format_section "" [])
  = default_globals
  /\ MANDATORY_PREFIX
       (load_config_values
          {| ini_BASE_COL := None; ini_MANDATORY_PREFIX := Some " , " |})
     = [].
Proof. split; reflexivity. Qed.

(* ================================================================== *)
(** * More on the barcode and the line *)
(* ================================================================== *)

Lemma ean13_fixed_on_13_digits (s : string) :
  all_digits s = true -> String.length s = 13 ->
  _ean13_fix_and_validate (PyStr s) = (true, s).
Proof.
  intros Hd Hl.
  assert (Hs : smart_str (PyStr s) = s).
  { simpl. apply strip_fixed;
      [apply no_space_head | apply no_space_tail];
      now apply all_digits_no_space. }
  rewrite ean13_accepts; rewrite Hs, (digits_of_all_digits s Hd); [|lia].
  f_equal. apply rjust_full. lia.
Qed.

Lemma all_digits_rjust_zero (n : nat) (d : string) :
  all_digits d = true -> all_digits (Py.rjust n "0" d) = true.
Proof.
  intros Hd. unfold Py.rjust. generalize (n - String.length d). intros k.
  induction k as [|k IH]; simpl; [exact Hd | exact IH].
Qed.

(** Canonicalizing is idempotent: a code the canonicalizer accepted and
    returned is accepted again and returned unchanged. *)
Theorem ean13_canonical_code_is_stable :
  forall value : pyvalue,
    fst (_ean13_fix_and_validate value) = true ->
    _ean13_fix_and_validate (PyStr (snd (_ean13_fix_and_validate value)))
    = _ean13_fix_and_validate value.
Proof.
  intros value Hok. unfold _ean13_fix_and_validate in *.
  destruct (Nat.ltb_spec 13 (String.length (digits_of (smart_str value))))
    as [Hgt | Hle]; [discriminate|]. simpl.
  apply ean13_fixed_on_13_digits.
  - apply all_digits_rjust_zero, all_digits_digits_of.
  - now apply length_rjust.
Qed.

Lemma ean13_canonical_code_is_stable_witness :
  fst (_ean13_fix_and_validate (PyStr "42")) = true
  /\ _ean13_fix_and_validate (PyStr "0000000000042")
     = (true, "0000000000042").
Proof.
  split; [reflexivity|].
  apply (ean13_canonical_code_is_stable (PyStr "42")). reflexivity.
Defined.

Lemma row_get_missing (row : Row) (col : string) (default : pyvalue) :
  ~ In col (map fst row) -> row_get row col default = default.
Proof.
  induction row as [|[c v] row IH]; simpl; [reflexivity|].
  intros H. destruct (String.eqb_spec c col) as [->|Hne].
  - elim H. now left.
  - apply IH. intros Hin. apply H. now right.
Qed.

(** A row without the COD_EAN column is never rejected: with
    validation off its barcode field is empty, with validation on it
    is thirteen zeros; a missing COD_INTERNO column gives an empty
    first field. *)
Theorem build_line_without_prefix_columns :
  forall (g : Globals) (self : App) (row : Row),
    ~ In "COD_EAN" (map fst row) ->
    _build_line g self row
    = (Some (cell row "COD_INTERNO" ++ "|"
               ++ (if validate_ean13 self then "0000000000000" else "")
               ++ "|" ++ final_description g self row),
       self)
    /\ (~ In "COD_INTERNO" (map fst row) -> cell row "COD_INTERNO" = "").
Proof.
  intros g self row Hean.
  assert (Hraw : row_get row "COD_EAN" (PyStr "") = PyStr "")
    by now apply row_get_missing.
  split.
  - rewrite build_line_cases. unfold is_rejected, barcode_field, cell.
    rewrite Hraw. destruct (validate_ean13 self); reflexivity.
  - intros Hin. unfold cell. now rewrite row_get_missing.
Qed.

Lemma build_line_without_prefix_columns_witness :
  ~ In "COD_EAN" (map fst [("DES_PRODUTO", PyStr "CREME XYZ")])
  /\ _build_line default_globals app_validating
       [("DES_PRODUTO", PyStr "CREME XYZ")]
     = (Some "|0000000000000|CREME XYZ", app_validating).
Proof.
  assert (H : ~ In "COD_EAN" (map fst [("DES_PRODUTO", PyStr "CREME XYZ")])).
  { simpl. intros [E | []]. discriminate E. }
  split; [exact H|].
  exact (proj1 (build_line_without_prefix_columns
                  default_globals app_validating
                  [("DES_PRODUTO", PyStr "CREME XYZ")] H)).
Defined.

Lemma count_char_app (c : ascii) (a b : string) :
  count_char c (a ++ b) = count_char c a + count_char c b.
Proof.
  induction a as [|x a IH]; simpl; [reflexivity|]. rewrite IH. lia.
Qed.

Lemma count_char_cons_same (c : ascii) (s : string) :
  count_char c (String c s) = S (count_char c s).
Proof. simpl. now rewrite Ascii.eqb_refl. Qed.

Lemma length_split (sep : ascii) (s : string) :
  List.length (Py.split sep s) = 1 + count_char sep s.
Proof.
  induction s as [|x s IH]; simpl; [reflexivity|].
  destruct (Ascii.eqb x sep); simpl; [now rewrite IH|].
  pose proof (split_not_nil sep s) as Hne.
  destruct (Py.split sep s); [congruence | exact IH].
Qed.

(** The fields of an emitted line are not escaped: cut at the bars,
    the line falls into three fields plus one for every bar its
    internal code, barcode field or description holds; without such
    a bar the three fields come back as they went in. *)
Theorem emitted_line_fields :
  forall (g : Globals) (self : App) (row : Row) (line : string),
    fst (_build_line g self row) = Some line ->
    List.length (Py.split "|" line)
    = 3 + count_char "|" (cell row "COD_INTERNO")
        + count_char "|" (barcode_field self row)
        + count_char "|" (final_description g self row)
    /\ (has_char "|" (cell row "COD_INTERNO") = false ->
        has_char "|" (barcode_field self row) = false ->
        has_char "|" (final_description g self row) = false ->
        Py.split "|" line
        = [cell row "COD_INTERNO"; barcode_field self row;
           final_description g self row]).
Proof.
  intros g self row line. rewrite build_line_cases.
  destruct (is_rejected self row); simpl; [discriminate|].
  intros [= <-].
  change (cell row "COD_INTERNO" ++ "|" ++ barcode_field self row ++ "|"
            ++ final_description g self row)
    with (cell row "COD_INTERNO"
            ++ String "|" (barcode_field self row
                             ++ String "|" (final_description g self row))).
  split.
  - rewrite length_split, count_char_app, count_char_cons_same,
      count_char_app, count_char_cons_same. lia.
  - intros H1 H2 H3.
    rewrite split_app_sep by exact H1.
    rewrite split_app_sep by exact H2.
    now rewrite split_without_sep.
Qed.

Lemma emitted_line_fields_witness :
  fst (_build_line default_globals app_A row_A)
  = Some "123|789|ADSTRIGENTE 387 FACE BEAUTIFUL (DEP: GERAL / QTD: 3)"
  /\ List.length
       (Py.split "|"
          "123|789|ADSTRIGENTE 387 FACE BEAUTIFUL (DEP: GERAL / QTD: 3)")
     = 3.
Proof.
  assert (H : fst (_build_line default_globals app_A row_A)
              = Some "123|789|ADSTRIGENTE 387 FACE BEAUTIFUL (DEP: GERAL / QTD: 3)")
    by (vm_compute; reflexivity).
  split; [exact H|].
  etransitivity;
    [exact (proj1 (emitted_line_fields default_globals app_A row_A _ H))
    | vm_compute; reflexivity].
Defined.

Lemma emitted_or_rejected (g : Globals) (self : App) (rows : list Row) :
  List.length (emitted_lines g self rows)
  + List.length (rejected_records g self rows)
  = List.length rows.
Proof.
  unfold emitted_lines, rejected_records.
  induction rows as [|row rows IH]; simpl; [reflexivity|].
  rewrite build_line_cases.
  destruct (is_rejected self row); simpl; rewrite ?length_app; simpl; lia.
Qed.

(** A pass loses no row and counts none twice: every row adds either
    one line or one record, so the lines and records a pass adds
    number as many as its rows; with validation off every row gives a
    line. *)
Theorem build_lines_accounts_for_every_row :
  forall (g : Globals) (self : App) (rows : list Row) (lines : list string),
    List.length (fst (build_lines g self rows lines))
    + List.length (_ean13_oversized (snd (build_lines g self rows lines)))
    = List.length lines + List.length (_ean13_oversized self)
      + List.length rows
    /\ (validate_ean13 self = false ->
        List.length (fst (build_lines g self rows lines))
        = List.length lines + List.length rows
        /\ _ean13_oversized (snd (build_lines g self rows lines))
           = _ean13_oversized self).
Proof.
  intros g self rows lines. rewrite build_lines_spec. simpl.
  pose proof (emitted_or_rejected g self rows) as H.
  rewrite !length_app. split; [lia|].
  intros Hv.
  assert (Hr : rejected_records g self rows = []).
  { unfold rejected_records. clear H.
    induction rows as [|row rows IH]; simpl; [reflexivity|].
    unfold is_rejected at 1. rewrite Hv. simpl. exact IH. }
  rewrite Hr in *. simpl in *. rewrite app_nil_r. split; [lia | reflexivity].
Qed.

Lemma build_lines_accounts_witness :
  validate_ean13 app_A = false
  /\ List.length (fst (build_lines default_globals app_A [row_A; row_A] []))
     = 2.
Proof.
  split; [reflexivity|].
  exact (proj1 (proj2 (build_lines_accounts_for_every_row
                         default_globals app_A [row_A; row_A] [])
                      eq_refl)).
Defined.

(* ================================================================== *)
(** * The log file only grows *)
(* ================================================================== *)

Lemma file_get_set_same (fs : list (string * string)) (path text : string) :
  file_get (file_set fs path text) path = Some text.
Proof.
  induction fs as [|[q t] fs IH]; simpl.
  - now rewrite String.eqb_refl.
  - destruct (String.eqb_spec q path) as [->|Hq]; simpl.
    + now rewrite String.eqb_refl.
    + apply String.eqb_neq in Hq. now rewrite Hq.
Qed.

Lemma appends_only_ret {A : Type} (a : A) : appends_only (ret a).
Proof. intros st p. exists "". simpl. now rewrite append_empty_r. Qed.

Lemma appends_only_bind {A B : Type} (m : IO A) (k : A -> IO B) :
  appends_only m -> (forall a, appends_only (k a)) ->
  appends_only (bind m k).
Proof.
  intros Hm Hk st p. unfold bind.
  destruct (Hm st p) as [s1 H1].
  destruct (m st) as [[a | e] st']; simpl in *; [|now exists s1].
  destruct (Hk a st' p) as [s2 H2].
  exists (s1 ++ s2). now rewrite H2, H1, append_assoc.
Qed.

Lemma appends_only_file_op : appends_only file_op.
Proof.
  intros [self w] p. exists "". unfold file_op. simpl.
  destruct (faults w) as [|[e|] l]; simpl; now rewrite append_empty_r.
Qed.

Lemma file_text_set (w : World) (path text p : string) :
  file_text (set_files w (file_set (files w) path text)) p
  = if String.eqb p path then text else file_text w p.
Proof.
  unfold file_text. simpl. destruct (String.eqb_spec p path) as [->|Hp].
  - now rewrite file_get_set_same.
  - now rewrite file_get_set_other.
Qed.

Lemma appends_only_fh_write (fh text : string) :
  appends_only (fh_write fh text).
Proof.
  intros [self w] p.
  unfold fh_write, bind, file_op, get_world, put_world. simpl.
  destruct (faults w) as [|[e|] l]; simpl;
    try (exists ""; now rewrite append_empty_r).
  - change (file_text (set_files w
               (file_set (files w) fh
                  (match file_get (files w) fh with
                   | Some t => t
                   | None => ""
                   end ++ text))) p)
      with (file_text (set_files w
               (file_set (files w) fh (file_text w fh ++ text))) p).
    rewrite file_text_set. destruct (String.eqb_spec p fh) as [->|_].
    + now exists text.
    + exists "". now rewrite append_empty_r.
  - change (file_text (set_files (set_faults w l)
               (file_set (files w) fh
                  (match file_get (files w) fh with
                   | Some t => t
                   | None => ""
                   end ++ text))) p)
      with (file_text (set_files w
               (file_set (files w) fh (file_text w fh ++ text))) p).
    rewrite file_text_set. destruct (String.eqb_spec p fh) as [->|_].
    + now exists text.
    + exists "". now rewrite append_empty_r.
Qed.

Lemma appends_only_open_append (path : string) :
  appends_only (py_open path mode_a).
Proof.
  intros [self w] p. exists "". rewrite append_empty_r.
  unfold py_open, bind, file_op, get_world, put_world, ret. simpl.
  destruct (faults w) as [|[e|] l]; simpl; try reflexivity.
  - change (file_text (set_files w
               (file_set (files w) path
                  (match file_get (files w) path with
                   | Some t => t
                   | None => ""
                   end))) p)
      with (file_text (set_files w
               (file_set (files w) path (file_text w path))) p).
    rewrite file_text_set. now destruct (String.eqb_spec p path) as [->|_].
  - change (file_text (set_files (set_faults w l)
               (file_set (files w) path
                  (match file_get (files w) path with
                   | Some t => t
                   | None => ""
                   end))) p)
      with (file_text (set_files w
               (file_set (files w) path (file_text w path))) p).
    rewrite file_text_set. now destruct (String.eqb_spec p path) as [->|_].
Qed.

Lemma appends_only_with_open_append (path : string)
                                    (body : string -> IO unit) :
  (forall fh, appends_only (body fh)) ->
  appends_only (with_open path mode_a body).
Proof.
  intros Hb. unfold with_open. apply appends_only_bind.
  - apply appends_only_open_append.
  - intros fh st p.
    destruct (Hb fh st p) as [s1 H1].
    destruct (body fh st) as [[[] | e] st']; simpl in *.
    + destruct (appends_only_file_op st' p) as [s2 H2].
      unfold fh_close. exists (s1 ++ s2). now rewrite H2, H1, append_assoc.
    + destruct (appends_only_file_op st' p) as [s2 H2].
      unfold fh_close.
      destruct (file_op st') as [[[] | e'] st'']; simpl in *;
        exists (s1 ++ s2); now rewrite H2, H1, append_assoc.
Qed.

Lemma appends_only_for_each {A : Type} (xs : list A) (body : A -> IO unit) :
  (forall x, appends_only (body x)) -> appends_only (for_each xs body).
Proof.
  intros Hb. induction xs as [|x xs IH]; simpl.
  - apply appends_only_ret.
  - apply appends_only_bind; auto.
Qed.

Lemma appends_only_write_log_body (context : string) :
  appends_only (write_log_body context).
Proof.
  unfold write_log_body.
  apply appends_only_bind; [intros st p; exists ""; simpl;
                            now rewrite append_empty_r|].
  intros w. apply appends_only_bind;
    [intros st p; exists ""; simpl; now rewrite append_empty_r|].
  intros self. apply appends_only_with_open_append. intros fh.
  apply appends_only_bind; [apply appends_only_fh_write | intros _].
  apply appends_only_bind; [apply appends_only_fh_write | intros _].
  apply appends_only_bind; [|intros _; apply appends_only_fh_write].
  apply appends_only_for_each. intros rec. apply appends_only_fh_write.
Qed.

(** The log is appended to, never overwritten: whatever the file
    operations do, failures in the middle of a block included, after
    [_write_ean13_log] every file still begins with the text it had
    before. *)
Theorem write_log_keeps_earlier_text :
  forall (context : string) (self : App) (w : World) (p : string),
    exists suffix,
      file_text (snd (snd (_write_ean13_log context (self, w)))) p
      = file_text w p ++ suffix.
Proof.
  intros context self w p.
  unfold _write_ean13_log, bind, get_self. simpl.
  destruct (_ean13_oversized self).
  - exists "". simpl. now rewrite append_empty_r.
  - unfold try_except_pass.
    destruct (appends_only_write_log_body context (self, w) p) as [s H].
    destruct (write_log_body context (self, w)) as [[[] | e] st'];
      exists s; exact H.
Qed.

(* ================================================================== *)
(** * Passes without failures *)
(* ================================================================== *)

Lemma concat_empty_cons (x : string) (xs : list string) :
  String.concat "" (x :: xs) = x ++ String.concat "" xs.
Proof.
  destruct xs; simpl; [now rewrite append_empty_r | reflexivity].
Qed.

Lemma wrote_nothing (path : string) (w : World) :
  faults w = [] -> wrote path "" w w.
Proof.
  intros H. unfold wrote. rewrite append_empty_r. repeat split; auto.
Qed.

Lemma wrote_trans (path t1 t2 : string) (w w1 w2 : World) :
  wrote path t1 w w1 -> wrote path t2 w1 w2 -> wrote path (t1 ++ t2) w w2.
Proof.
  intros (_ & A2 & A3 & A4 & A5 & A6 & A7) (B1 & B2 & B3 & B4 & B5 & B6 & B7).
  unfold wrote. repeat split; try congruence.
  - now rewrite B2, A2, append_assoc.
  - intros p Hp. rewrite B7, A7; auto.
Qed.

Lemma wrote_other_file (path text p : string) (w w' : World) :
  wrote path text w w' -> p <> path -> file_text w' p = file_text w p.
Proof.
  intros (_ & _ & _ & _ & _ & _ & H) Hp. unfold file_text. now rewrite H.
Qed.

Lemma file_op_ok (self : App) (w : World) :
  faults w = [] -> file_op (self, w) = (inl tt, (self, w)).
Proof. intros H. unfold file_op. simpl. now rewrite H. Qed.

Lemma fh_write_ok (fh text : string) (self : App) (w : World) :
  faults w = [] ->
  exists w', fh_write fh text (self, w) = (inl tt, (self, w'))
             /\ wrote fh text w w'.
Proof.
  intros H.
  exists (set_files w (file_set (files w) fh (file_text w fh ++ text))).
  split.
  - unfold fh_write, bind, get_world, put_world.
    rewrite file_op_ok by exact H. reflexivity.
  - unfold wrote. rewrite file_text_set, String.eqb_refl. simpl.
    repeat split; auto.
    intros p Hp. now apply file_get_set_other.
Qed.

Lemma open_append_ok (path : string) (self : App) (w : World) :
  faults w = [] ->
  exists w', py_open path mode_a (self, w) = (inl path, (self, w'))
             /\ wrote path "" w w'.
Proof.
  intros H.
  exists (set_files w (file_set (files w) path (file_text w path))).
  split.
  - unfold py_open, bind, get_world, put_world, ret.
    rewrite file_op_ok by exact H. reflexivity.
  - unfold wrote. rewrite file_text_set, String.eqb_refl, append_empty_r.
    simpl. repeat split; auto.
    intros p Hp. now apply file_get_set_other.
Qed.

Lemma for_each_write_ok {A : Type} (fh : string) (f : A -> string)
                        (xs : list A) :
  forall (self : App) (w : World),
    faults w = [] ->
    exists w', for_each xs (fun x => fh_write fh (f x)) (self, w)
               = (inl tt, (self, w'))
               /\ wrote fh (String.concat "" (map f xs)) w w'.
Proof.
  induction xs as [|x xs IH]; intros self w H.
  - exists w. split; [reflexivity | now apply wrote_nothing].
  - destruct (fh_write_ok fh (f x) self w H) as (w1 & E1 & W1).
    destruct (IH self w1 (proj1 W1)) as (w2 & E2 & W2).
    exists w2. split.
    + simpl. unfold bind. now rewrite E1, E2.
    + simpl map. rewrite concat_empty_cons. eapply wrote_trans; eassumption.
Qed.

Lemma write_log_body_ok (context : string) (self : App) (w : World) :
  faults w = [] ->
  exists w', write_log_body context (self, w) = (inl tt, (self, w'))
             /\ wrote (log_path w)
                      (log_block (clock w) context (_ean13_oversized self))
                      w w'.
Proof.
  intros H.
  destruct (open_append_ok (log_path w) self w H) as (w0 & E0 & W0).
  destruct (fh_write_ok (log_path w)
              ("[" ++ clock w ++ "] " ++ context ++ " - "
                   ++ oversized_caption
                   ++ str_nat (List.length (_ean13_oversized self)) ++ NL)
              self w0 (proj1 W0)) as (w1 & E1 & W1).
  destruct (fh_write_ok (log_path w)
              ("COD_INTERNO" ++ TAB ++ "COD_EAN" ++ TAB
                             ++ "DES_PRODUTO" ++ TAB ++ "LEN" ++ NL)
              self w1 (proj1 W1)) as (w2 & E2 & W2).
  destruct (for_each_write_ok (log_path w) log_record_line
              (_ean13_oversized self) self w2 (proj1 W2)) as (w3 & E3 & W3).
  destruct (fh_write_ok (log_path w) NL self w3 (proj1 W3))
    as (w4 & E4 & W4).
  exists w4. split.
  - unfold write_log_body, bind, get_world, get_self, with_open.
    cbn [fst snd]. unfold bind. rewrite E0, E1, E2, E3, E4.
    unfold fh_close. now rewrite file_op_ok by exact (proj1 W4).
  - pose proof (wrote_trans _ _ _ _ _ _ W0
                  (wrote_trans _ _ _ _ _ _ W1
                     (wrote_trans _ _ _ _ _ _ W2
                        (wrote_trans _ _ _ _ _ _ W3 W4)))) as W.
    unfold log_block. repeat rewrite append_assoc in W. exact W.
Qed.

Lemma write_log_appends_one_block_aux (context : string) (self : App)
                                      (w : World) :
  faults w = [] ->
  _ean13_oversized self <> [] ->
  exists w',
    _write_ean13_log context (self, w) = (inl tt, (self, w'))
    /\ file_text w' (log_path w)
       = file_text w (log_path w)
           ++ log_block (clock w) context (_ean13_oversized self)
    /\ (forall p, p <> log_path w ->
          file_get (files w') p = file_get (files w) p).
Proof.
  intros H Hne.
  destruct (write_log_body_ok context self w H) as (w' & E & W).
  exists w'. split.
  - unfold _write_ean13_log, bind, get_self. simpl.
    destruct (_ean13_oversized self); [congruence|].
    unfold try_except_pass. now rewrite E.
  - destruct W as (_ & W2 & _ & _ & _ & _ & W7). auto.
Qed.

(** When no file operation fails and there are records,
    [_write_ean13_log] appends exactly one block to the log: the
    dated header with the context and the count, the column header,
    one line per record in the order they were filed, and an empty
    line.  No other file changes and no message box opens. *)
Theorem write_log_appends_one_block :
  forall (context : string) (self : App) (w : World),
    faults w = [] ->
    _ean13_oversized self <> [] ->
    exists w',
      _write_ean13_log context (self, w) = (inl tt, (self, w'))
      /\ file_text w' (log_path w)
         = file_text w (log_path w)
             ++ log_block (clock w) context (_ean13_oversized self)
      /\ (forall p, p <> log_path w ->
            file_get (files w') p = file_get (files w) p)
      /\ dialogs w' = dialogs w.
Proof.
  intros context self w H Hne.
  destruct (write_log_body_ok context self w H) as (w' & E & W).
  exists w'. split.
  - unfold _write_ean13_log, bind, get_self. simpl.
    destruct (_ean13_oversized self); [congruence|].
    unfold try_except_pass. now rewrite E.
  - destruct W as (_ & W2 & _ & _ & _ & W6 & W7). auto.
Qed.

Lemma write_log_appends_one_block_witness :
  faults world_ok = []
  /\ file_text
       (snd (snd (_write_ean13_log ctx_export
                    (set_oversized app_validating
                       [rejected_record default_globals row_long_ean],
                     world_ok))))
       (log_path world_ok)
     = "[2025-01-31 08:00:00] " ++ ctx_export ++ " - "
         ++ oversized_caption ++ "1" ++ NL
         ++ "COD_INTERNO" ++ TAB ++ "COD_EAN" ++ TAB
         ++ "DES_PRODUTO" ++ TAB ++ "LEN" ++ NL
         ++ "77" ++ TAB ++ "12345678901234" ++ TAB
         ++ "SABONETE" ++ TAB ++ "14" ++ NL
         ++ NL.
Proof.
  split; [reflexivity|].
  destruct (write_log_appends_one_block ctx_export
              (set_oversized app_validating
                 [rejected_record default_globals row_long_ean])
              world_ok eq_refl)
    as (w' & E & Hlog & _).
  - discriminate.
  - rewrite E. simpl snd. rewrite Hlog. vm_compute. reflexivity.
Defined.

Lemma save_loop_ok (g : Globals) (fh : string) (rows : list Row) :
  forall (self : App) (w : World),
    faults w = [] ->
    exists w',
      for_each rows
        (fun row =>
           bind (build_line_io g row)
                (fun line => match line with
                             | Some l => fh_write fh (l ++ NL)
                             | None => ret tt
                             end))
        (self, w)
      = (inl tt,
         (set_oversized self
            (_ean13_oversized self ++ rejected_records g self rows), w'))
      /\ wrote fh (export_text (emitted_lines g self rows)) w w'.
Proof.
  induction rows as [|row rows IH]; intros self w H.
  - exists w. split.
    + simpl. unfold ret. now rewrite app_nil_r, set_oversized_same.
    + now apply wrote_nothing.
  - simpl for_each. unfold bind at 1. unfold bind at 1.
    unfold build_line_io at 1. cbn [fst snd].
    unfold emitted_lines, rejected_records. simpl flat_map. simpl filter.
    fold (emitted_lines g self rows).
    rewrite build_line_cases.
    destruct (is_rejected self row) eqn:Er; cbn [fst snd].
    + unfold ret at 1.
      destruct (IH (set_oversized self
                      (_ean13_oversized self ++ [rejected_record g row]))
                   w H) as (w' & E & W).
      exists w'. split.
      * rewrite E. rewrite set_oversized_twice. cbn [_ean13_oversized set_oversized].
        unfold rejected_records.
        change (is_rejected
                  (set_oversized self
                     (_ean13_oversized self ++ [rejected_record g row])))
          with (is_rejected self).
        simpl map. now rewrite <- app_assoc.
      * rewrite emitted_lines_ignores_oversized in W. exact W.
    + destruct (fh_write_ok fh
                  ((cell row "COD_INTERNO" ++ "|" ++ barcode_field self row
                      ++ "|" ++ final_description g self row) ++ NL)
                  self w H) as (w1 & E1 & W1).
      destruct (IH self w1 (proj1 W1)) as (w2 & E2 & W2).
      exists w2. split.
      * rewrite E1. exact E2.
      * simpl app. unfold export_text. simpl map.
        rewrite concat_empty_cons.
        eapply wrote_trans; eassumption.
Qed.

Lemma on_save_run_ok (g : Globals) (self : App) (w : World)
                      (d : DataFrame) :
  df self = Some d ->
  str_in (BASE_COL g) (df_columns d) = true ->
  save_as w <> "" ->
  save_as w <> log_path w ->
  faults w = [] ->
  exists w',
    on_save g (self, w)
    = (inl tt,
       (set_oversized self (rejected_records g self (df_rows d)), w'))
    /\ file_text w' (save_as w)
       = export_text (emitted_lines g self (df_rows d))
    /\ file_text w' (log_path w)
       = file_text w (log_path w)
           ++ match rejected_records g self (df_rows d) with
              | [] => ""
              | recs => log_block (clock w) ctx_export recs
              end.
Proof.
  intros Hd Hb Hout Hlog Hf.
  remember (on_save g (self, w)) as r eqn:Hr.
  unfold on_save in Hr. unfold bind at 1 in Hr.
  unfold get_self at 1 in Hr. cbn [fst snd] in Hr.
  rewrite Hd, Hb in Hr. cbn [negb] in Hr.
  unfold bind at 1, asksaveasfilename at 1 in Hr. cbn [fst snd] in Hr.
  apply String.eqb_neq in Hout. rewrite Hout in Hr.
  apply String.eqb_neq in Hout.
  unfold bind at 1, put_self at 1 in Hr. cbn [fst snd] in Hr.
  unfold try_except in Hr. unfold bind at 1 in Hr.
  (* opening the file empties it *)
  set (w0 := set_files w (file_set (files w) (save_as w) "")).
  assert (Hopen : py_open (save_as w) mode_w (set_oversized self [], w)
                  = (inl (save_as w), (set_oversized self [], w0))).
  { unfold py_open, bind, get_world, put_world, ret.
    rewrite file_op_ok by exact Hf. reflexivity. }
  assert (Hf0 : faults w0 = []) by exact Hf.
  destruct (save_loop_ok g (save_as w) (df_rows d)
              (set_oversized self []) w0 Hf0) as (w1 & Eloop & W1).
  rewrite emitted_lines_ignores_oversized in W1.
  change (rejected_records g (set_oversized self []))
    with (rejected_records g self) in Eloop.
  cbn [_ean13_oversized set_oversized app] in Eloop.
  rewrite set_oversized_twice in Eloop.
  unfold with_open, bind at 1 in Hr. rewrite Hopen, Eloop in Hr.
  unfold fh_close in Hr. rewrite file_op_ok in Hr by exact (proj1 W1).
  unfold bind at 1, get_self at 1 in Hr. cbn [fst snd] in Hr.
  assert (Hout1 : file_text w1 (save_as w)
                  = export_text (emitted_lines g self (df_rows d))).
  { destruct W1 as (_ & W2 & _). rewrite W2.
    unfold w0. rewrite file_text_set, String.eqb_refl. reflexivity. }
  assert (Hlog1 : file_text w1 (log_path w) = file_text w (log_path w)).
  { rewrite (wrote_other_file _ _ _ _ _ W1) by congruence.
    unfold w0. rewrite file_text_set.
    apply not_eq_sym, String.eqb_neq in Hlog. now rewrite Hlog. }
  assert (Hdir : log_path w1 = log_path w).
  { unfold log_path. destruct W1 as (_ & _ & -> & _). reflexivity. }
  assert (Hclock : clock w1 = clock w).
  { destruct W1 as (_ & _ & _ & -> & _). reflexivity. }
  unfold must_log in Hr.
  cbn [validate_ean13 _ean13_oversized set_oversized] in Hr.
  destruct (rejected_records g self (df_rows d)) as [|r0 recs] eqn:Er.
  - assert (Hm : validate_ean13 self && false = false)
      by apply andb_false_r.
    rewrite Hm in Hr. unfold showdialog in Hr. cbn [fst snd] in Hr.
    exists (add_dialog w1 (InfoSaved (save_as w))).
    split; [exact Hr|]. rewrite append_empty_r. split; assumption.
  - assert (Hv : validate_ean13 self = true).
    { unfold rejected_records in Er.
      destruct (validate_ean13 self) eqn:E; [reflexivity|].
      exfalso. clear -Er E.
      induction (df_rows d) as [|row rows IH]; simpl in Er;
        [discriminate|].
      unfold is_rejected at 1 in Er. rewrite E in Er. simpl in Er.
      now apply IH. }
    rewrite Hv in Hr. cbn [andb] in Hr. unfold bind at 1 in Hr.
    destruct (write_log_appends_one_block_aux ctx_export
                (set_oversized self (r0 :: recs)) w1 (proj1 W1))
      as (w2 & E2 & L2 & O2); [discriminate|].
    rewrite E2 in Hr. unfold showdialog in Hr. cbn [fst snd] in Hr.
    eexists. split; [exact Hr|]. split.
    + change (file_text w2 (save_as w)
              = export_text (emitted_lines g self (df_rows d))).
      unfold file_text. rewrite O2 by (rewrite Hdir; congruence).
      exact Hout1.
    + change (file_text w2 (log_path w)
              = file_text w (log_path w)
                  ++ log_block (clock w) ctx_export (r0 :: recs)).
      rewrite <- Hdir at 1. rewrite L2, Hdir, Hlog1, Hclock. reflexivity.
Qed.

(** An export during which no file operation fails leaves in the
    chosen file exactly the lines of the accepted rows, in row order,
    each ended by a line feed, whatever the file held before; the
    window keeps the records of the rejected rows, in row order; and
    the log grows by one block if a row was rejected, and not at all
    otherwise.  (The chosen file is assumed not to be the log
    itself.) *)
Theorem on_save_writes_the_accepted_lines :
  forall (g : Globals) (self : App) (w : World) (d : DataFrame),
    df self = Some d ->
    str_in (BASE_COL g) (df_columns d) = true ->
    save_as w <> "" ->
    save_as w <> log_path w ->
    faults w = [] ->
    fst (on_save g (self, w)) = inl tt
    /\ file_text (snd (snd (on_save g (self, w)))) (save_as w)
       = export_text (emitted_lines g self (df_rows d))
    /\ fst (snd (on_save g (self, w)))
       = set_oversized self (rejected_records g self (df_rows d))
    /\ file_text (snd (snd (on_save g (self, w)))) (log_path w)
       = file_text w (log_path w)
           ++ match rejected_records g self (df_rows d) with
              | [] => ""
              | recs => log_block (clock w) ctx_export recs
              end.
Proof.
  intros g self w d Hd Hb Hout Hlog Hf.
  destruct (on_save_run_ok g self w d Hd Hb Hout Hlog Hf)
    as (w' & -> & H1 & H2).
  simpl. auto.
Qed.

Lemma on_save_writes_witness :
  df app_validating <> None
  /\ save_as world_ok <> log_path world_ok
  /\ faults world_ok = []
  /\ file_text (snd (snd (on_save default_globals (app_validating, world_ok))))
       (save_as world_ok)
     = "78|0000000000042|CREME XYZ" ++ NL.
Proof.
  split; [discriminate|]. split; [discriminate|]. split; [reflexivity|].
  etransitivity.
  - refine (proj1 (proj2 (on_save_writes_the_accepted_lines
                            default_globals app_validating world_ok
                            _ eq_refl eq_refl _ _ eq_refl)));
      discriminate.
  - vm_compute. reflexivity.
Defined.

(* ================================================================== *)
(** * Preview: scope of a pass, refusals *)
(* ================================================================== *)

(** A preview covers the first ten rows only: each of them gives one
    line of the preview text or one record.  The outcome depends on
    the rows alone: records and preview text left by an earlier pass
    do not carry over, and previewing again changes nothing in the
    window. *)
Theorem on_preview_is_scoped_to_ten_rows :
  forall (g : Globals) (self : App) (w : World) (d : DataFrame),
    df self = Some d ->
    str_in (BASE_COL g) (df_columns d) = true ->
    preview_txt (fst (snd (on_preview g (self, w))))
    = Py.join NL (emitted_lines g self (firstn 10 (df_rows d)))
    /\ List.length (emitted_lines g self (firstn 10 (df_rows d)))
       + List.length (_ean13_oversized (fst (snd (on_preview g (self, w)))))
       = Nat.min 10 (List.length (df_rows d))
    /\ (forall (old : list Oversized) (text : string) (w2 : World),
           fst (snd (on_preview g
                       (set_preview (set_oversized self old) text, w2)))
           = fst (snd (on_preview g (self, w))))
    /\ (forall w2 : World,
           fst (snd (on_preview g (fst (snd (on_preview g (self, w))), w2)))
           = fst (snd (on_preview g (self, w)))).
Proof.
  intros g self w d Hd Hb.
  rewrite (on_preview_result g self w d Hd Hb).
  split; [reflexivity|]. split; [|split].
  - cbn [_ean13_oversized set_preview set_oversized].
    rewrite emitted_or_rejected. apply length_firstn.
  - intros old text w2.
    rewrite (on_preview_result g (set_preview (set_oversized self old) text)
               w2 d Hd Hb).
    change (rejected_records g (set_preview (set_oversized self old) text))
      with (rejected_records g self).
    assert (He : forall rows,
               emitted_lines g (set_preview (set_oversized self old) text)
                             rows
               = emitted_lines g self rows).
    { intros rows. unfold emitted_lines. apply flat_map_ext. intros row.
      rewrite !build_line_cases.
      change (is_rejected (set_preview (set_oversized self old) text) row)
        with (is_rejected self row).
      destruct (is_rejected self row); reflexivity. }
    rewrite He. reflexivity.
  - intros w2.
    set (self' := set_preview
                    (set_oversized self
                       (rejected_records g self (firstn 10 (df_rows d))))
                    (Py.join NL
                       (emitted_lines g self (firstn 10 (df_rows d))))).
    rewrite (on_preview_result g self' w2 d Hd Hb).
    change (rejected_records g self') with (rejected_records g self).
    assert (He : forall rows,
               emitted_lines g self' rows = emitted_lines g self rows).
    { intros rows. unfold emitted_lines. apply flat_map_ext. intros row.
      rewrite !build_line_cases.
      change (is_rejected self' row) with (is_rejected self row).
      destruct (is_rejected self row); reflexivity. }
    rewrite He. reflexivity.
Qed.

Lemma on_preview_is_scoped_witness :
  df app_validating <> None
  /\ preview_txt
       (fst (snd (on_preview default_globals (app_validating, world_ok))))
     = "78|0000000000042|CREME XYZ".
Proof.
  split; [discriminate|].
  etransitivity.
  - exact (proj1 (on_preview_is_scoped_to_ten_rows
                    default_globals app_validating world_ok _
                    eq_refl eq_refl)).
  - vm_compute. reflexivity.
Defined.

(** Without data, or when no column of the frame is spelled exactly as
    the base column, preview and export refuse before they touch
    anything: the window (preview text, records) and every file stay
    as they were and one message box opens. *)
Lemma pass_refused_run (g : Globals) (self : App) (w : World) :
  (df self = None
   \/ exists d, df self = Some d
                /\ str_in (BASE_COL g) (df_columns d) = false) ->
  exists dlg,
    on_preview g (self, w) = (inl tt, (self, add_dialog w dlg))
    /\ on_save g (self, w) = (inl tt, (self, add_dialog w dlg))
    /\ (dlg = WarnLoadDataFirst \/ dlg = ErrorBaseColMissing (BASE_COL g)).
Proof.
  intros H.
  destruct H as [Hn | (d & Hd & Hb)].
  - exists WarnLoadDataFirst.
    unfold on_preview, on_save, bind, get_self. cbn [fst snd].
    rewrite Hn. unfold showdialog. cbn [fst snd]. auto.
  - exists (ErrorBaseColMissing (BASE_COL g)).
    unfold on_preview, on_save, bind, get_self. cbn [fst snd].
    rewrite Hd, Hb. cbn [negb]. unfold showdialog. cbn [fst snd]. auto.
Qed.

Lemma on_save_cancelled_run (g : Globals) (self : App) (w : World)
                            (d : DataFrame) :
  df self = Some d ->
  str_in (BASE_COL g) (df_columns d) = true ->
  save_as w = "" ->
  on_save g (self, w) = (inl tt, (self, w)).
Proof.
  intros Hd Hb Hc. unfold on_save, bind, get_self. cbn [fst snd].
  rewrite Hd, Hb. cbn [negb]. unfold asksaveasfilename. cbn [fst snd].
  rewrite Hc. reflexivity.
Qed.

(* ================================================================== *)
(** * The column list: what is offered, what is kept *)
(* ================================================================== *)

Lemma dict_keys_fresh (ks : list string) :
  forall seen,
    NoDup (dict_keys seen ks)
    /\ forall k, In k (dict_keys seen ks) -> ~ In k seen.
Proof.
  induction ks as [|k0 ks IH]; intros seen; simpl.
  - split; [constructor | contradiction].
  - destruct (str_in k0 seen) eqn:E.
    + apply IH.
    + destruct (IH (k0 :: seen)) as [Hnd Hfr]. split.
      * constructor; [|exact Hnd].
        intros Hin. apply (Hfr k0 Hin). now left.
      * intros k [<- | Hin].
        -- intros Hs. apply str_in_iff in Hs. congruence.
        -- intros Hs. apply (Hfr k Hin). now right.
Qed.

Lemma dict_keys_complete (ks : list string) :
  forall seen k, In k ks -> ~ In k seen -> In k (dict_keys seen ks).
Proof.
  induction ks as [|k0 ks IH]; intros seen k; simpl; [contradiction|].
  intros [-> | Hin] Hs.
  - destruct (str_in k seen) eqn:E; [|now left].
    apply str_in_iff in E. contradiction.
  - destruct (str_in k0 seen) eqn:E.
    + now apply IH.
    + destruct (String.eqb_spec k0 k) as [->|Hne]; [now left|].
      right. apply IH; [exact Hin|].
      intros [-> | H]; [congruence | contradiction].
Qed.

Lemma populate_run (g : Globals) (self : App) (w : World) (d : DataFrame) :
  df self = Some d ->
  str_in (BASE_COL g) (map (fun c => Py.upper (Py.strip c)) (df_columns d))
  = true ->
  exists w',
    _populate_columns_ui g (self, w)
    = (inl tt,
       (set_columns self
          (map (fun col =>
                  {| col_name := col;
                     col_var := prev_selected (columns self) col;
                     label_var :=
                       prev_label (columns self) col (abbrev_label col) |})
               (offered_names g d)),
        w'))
    /\ files w' = files w
    /\ (dialogs w' = dialogs w
        \/ exists missing,
             dialogs w' = (dialogs w ++ [WarnOptionalMissing missing])%list).
Proof.
  intros Hd Hb.
  unfold _populate_columns_ui, bind, get_self, put_self. cbn [fst snd].
  cbn [df set_columns]. rewrite Hd, Hb. cbn [negb].
  match goal with
  | |- context [match ?l with [] => ret tt | _ :: _ => _ end] =>
      destruct l as [|m ms]
  end.
  - unfold ret. cbn [fst snd]. eexists. split; [reflexivity|]. auto.
  - unfold showdialog. cbn [fst snd]. eexists. split; [reflexivity|].
    split; [reflexivity|]. right. eexists. reflexivity.
Qed.

Lemma offered_names_spec (g : Globals) (d : DataFrame) (name : string) :
  In name (offered_names g d)
  <-> In name (map (fun c => Py.upper (Py.strip c)) (df_columns d))
      /\ name <> BASE_COL g
      /\ ~ In name (MANDATORY_PREFIX g).
Proof.
  unfold offered_names. split.
  - intros H. apply dict_keys_subset in H. apply filter_In in H as [Hin Hx].
    apply negb_true_iff in Hx. split; [exact Hin|].
    assert (Hn : ~ In name (BASE_COL g :: MANDATORY_PREFIX g)).
    { intros Hi. apply str_in_iff in Hi. congruence. }
    split; [intros -> | intros Hi]; apply Hn; simpl; auto.
  - intros (Hin & Hb & Hp). apply dict_keys_complete; [|intros []].
    apply filter_In. split; [exact Hin|]. apply negb_true_iff.
    destruct (str_in name (BASE_COL g :: MANDATORY_PREFIX g)) eqn:E;
      [|reflexivity].
    apply str_in_iff in E. destruct E as [E | E]; [congruence|contradiction].
Qed.

Lemma prev_lookup_absent (cols : list ColEntry) (col default : string) :
  ~ In col (map col_name cols) ->
  prev_selected cols col = false /\ prev_label cols col default = default.
Proof.
  induction cols as [|e cols IH]; simpl; [auto|].
  intros H.
  assert (Hne : col_name e <> col) by (intros E; apply H; now left).
  apply String.eqb_neq in Hne. rewrite Hne. simpl.
  apply IH. intros Hin. apply H. now right.
Qed.

Lemma prev_lookup_present (cols : list ColEntry) (e : ColEntry)
                          (default : string) :
  NoDup (map col_name cols) -> In e cols ->
  prev_selected cols (col_name e) = col_var e
  /\ prev_label cols (col_name e) default = label_var e.
Proof.
  induction cols as [|e0 cols IH]; simpl; [contradiction|].
  intros Hnd [-> | Hin].
  - rewrite String.eqb_refl. simpl. split; [|reflexivity].
    inversion Hnd as [|? ? Hnot _]; subst.
    destruct (prev_lookup_absent cols (col_name e) default Hnot) as [-> _].
    apply orb_false_r.
  - inversion Hnd as [|? ? Hnot Hnd']; subst.
    assert (Hne : col_name e0 <> col_name e).
    { intros E. apply Hnot. rewrite E. now apply in_map. }
    apply String.eqb_neq in Hne. rewrite Hne. simpl. now apply IH.
Qed.

(** After the column list is drawn for a frame that has the base
    column, it offers every normalized column name of the frame that
    is neither the base column nor a prefix column, each exactly once;
    a column that was not listed before comes unticked with its
    default label. *)
Theorem populate_offers_each_attribute_column_once :
  forall (g : Globals) (self : App) (w : World) (d : DataFrame),
    df self = Some d ->
    str_in (BASE_COL g) (map (fun c => Py.upper (Py.strip c)) (df_columns d))
    = true ->
    NoDup (map col_name
             (columns (fst (snd (_populate_columns_ui g (self, w))))))
    /\ (forall name,
           In name (map col_name
                      (columns (fst (snd (_populate_columns_ui g (self, w))))))
           <-> In name (map (fun c => Py.upper (Py.strip c)) (df_columns d))
               /\ name <> BASE_COL g
               /\ ~ In name (MANDATORY_PREFIX g))
    /\ (forall e,
           In e (columns (fst (snd (_populate_columns_ui g (self, w))))) ->
           ~ In (col_name e) (map col_name (columns self)) ->
           col_var e = false /\ label_var e = abbrev_label (col_name e)).
Proof.
  intros g self w d Hd Hb.
  destruct (populate_run g self w d Hd Hb) as (w' & -> & _).
  cbn [fst snd columns set_columns].
  rewrite map_map. cbn [col_name]. rewrite map_id.
  split; [|split].
  - unfold offered_names. apply dict_keys_fresh.
  - intros name. apply offered_names_spec.
  - intros e He Hnew. apply in_map_iff in He as (col & <- & _).
    cbn [col_name col_var label_var] in *.
    now apply prev_lookup_absent.
Qed.

Lemma populate_offers_witness :
  df app_listed = Some frame_mixed_case
  /\ (In "QTD_ESTOQUE_ATUAL"
         (map col_name
            (columns (fst (snd (_populate_columns_ui default_globals
                                  (app_listed, world_ok))))))
      <-> In "QTD_ESTOQUE_ATUAL"
            (map (fun c => Py.upper (Py.strip c))
                 (df_columns frame_mixed_case))
          /\ "QTD_ESTOQUE_ATUAL" <> BASE_COL default_globals
          /\ ~ In "QTD_ESTOQUE_ATUAL" (MANDATORY_PREFIX default_globals)).
Proof.
  split; [reflexivity|].
  exact (proj1 (proj2 (populate_offers_each_attribute_column_once
                         default_globals app_listed world_ok
                         frame_mixed_case eq_refl eq_refl))
               "QTD_ESTOQUE_ATUAL").
Defined.

(** Redrawing the column list keeps what the user set: an entry whose
    column is offered again comes back with its tick and its label
    (the names being distinct, as the keys of a dictionary are), and
    drawing the list twice for the same frame is the same as drawing
    it once. *)
Theorem populate_keeps_ticks_and_labels :
  forall (g : Globals) (self : App) (w : World) (d : DataFrame),
    df self = Some d ->
    str_in (BASE_COL g) (map (fun c => Py.upper (Py.strip c)) (df_columns d))
    = true ->
    (NoDup (map col_name (columns self)) ->
     forall e,
       In e (columns self) ->
       In (col_name e) (offered_names g d) ->
       In e (columns (fst (snd (_populate_columns_ui g (self, w))))))
    /\ (forall w2,
           columns (fst (snd (_populate_columns_ui g
                                (fst (snd (_populate_columns_ui g (self, w))),
                                 w2))))
           = columns (fst (snd (_populate_columns_ui g (self, w))))).
Proof.
  intros g self w d Hd Hb.
  destruct (populate_run g self w d Hd Hb) as (w' & -> & _).
  cbn [fst snd]. split.
  - intros Hnd e He Hoff. cbn [columns set_columns].
    apply in_map_iff. exists (col_name e). split; [|exact Hoff].
    destruct (prev_lookup_present (columns self) e
                (abbrev_label (col_name e)) Hnd He) as [-> ->].
    now destruct e.
  - intros w2.
    set (mk := fun col =>
                 {| col_name := col;
                    col_var := prev_selected (columns self) col;
                    label_var :=
                      prev_label (columns self) col (abbrev_label col) |}).
    set (self1 := set_columns self (map mk (offered_names g d))).
    assert (Hd1 : df self1 = Some d) by exact Hd.
    destruct (populate_run g self1 w2 d Hd1 Hb) as (w3 & -> & _).
    cbn [fst snd columns set_columns]. unfold self1 at 1 2.
    cbn [columns set_columns].
    apply map_ext_in. intros col Hcol.
    assert (Hnd : NoDup (map col_name (map mk (offered_names g d)))).
    { rewrite map_map. cbn [col_name mk]. rewrite map_id.
      unfold offered_names. apply dict_keys_fresh. }
    assert (Hin : In (mk col) (map mk (offered_names g d)))
      by now apply in_map.
    destruct (prev_lookup_present _ (mk col) (abbrev_label col) Hnd Hin)
      as [H1 H2].
    cbn [col_name mk] in H1, H2. rewrite H1, H2. reflexivity.
Qed.

Lemma populate_keeps_witness :
  df app_listed = Some frame_mixed_case
  /\ NoDup (map col_name (columns app_listed))
  /\ In {| col_name := "DEPARTAMENTO"; col_var := true;
           label_var := "SETOR" |}
        (columns (fst (snd (_populate_columns_ui default_globals
                              (app_listed, world_ok))))).
Proof.
  split; [reflexivity|].
  assert (Hnd : NoDup (map col_name (columns app_listed))).
  { simpl. constructor; [intros [] | constructor]. }
  split; [exact Hnd|].
  apply (proj1 (populate_keeps_ticks_and_labels
                  default_globals app_listed world_ok frame_mixed_case
                  eq_refl eq_refl) Hnd).
  - now left.
  - vm_compute. auto.
Defined.

Example populate_mixed_case :
  columns (fst (snd (_populate_columns_ui default_globals
                       (app_listed, world_ok))))
  = [{| col_name := "DEPARTAMENTO"; col_var := true; label_var := "SETOR" |};
     {| col_name := "QTD_ESTOQUE_ATUAL"; col_var := false;
        label_var := "QTD" |}].
Proof. reflexivity. Qed.

(** The column list and the two passes test the base column
    differently: the list looks for it among the normalized names,
    preview and export among the names as the frame spells them.  A
    sheet that spells the base column in another case, or with blanks
    around it, therefore gets its column list drawn and is then
    refused by preview and by export. *)
Theorem mixed_case_base_column_listed_then_refused :
  forall (g : Globals) (self : App) (w : World) (d : DataFrame),
    df self = Some d ->
    str_in (BASE_COL g) (map (fun c => Py.upper (Py.strip c)) (df_columns d))
    = true ->
    str_in (BASE_COL g) (df_columns d) = false ->
    map col_name (columns (fst (snd (_populate_columns_ui g (self, w)))))
    = offered_names g d
    /\ on_preview g (snd (_populate_columns_ui g (self, w)))
       = (inl tt,
          (fst (snd (_populate_columns_ui g (self, w))),
           add_dialog (snd (snd (_populate_columns_ui g (self, w))))
                      (ErrorBaseColMissing (BASE_COL g))))
    /\ on_save g (snd (_populate_columns_ui g (self, w)))
       = (inl tt,
          (fst (snd (_populate_columns_ui g (self, w))),
           add_dialog (snd (snd (_populate_columns_ui g (self, w))))
                      (ErrorBaseColMissing (BASE_COL g)))).
Proof.
  intros g self w d Hd Hn Hraw.
  destruct (populate_run g self w d Hd Hn) as (w' & -> & _).
  cbn [fst snd columns set_columns].
  split.
  - rewrite map_map. cbn [col_name]. apply map_id.
  - unfold on_preview, on_save, bind, get_self. cbn [fst snd df set_columns].
    rewrite Hd, Hraw. cbn [negb]. unfold showdialog. cbn [fst snd]. auto.
Qed.

Lemma mixed_case_base_column_witness :
  str_in (BASE_COL default_globals)
         (map (fun c => Py.upper (Py.strip c)) (df_columns frame_mixed_case))
  = true
  /\ str_in (BASE_COL default_globals) (df_columns frame_mixed_case) = false
  /\ map col_name
       (columns (fst (snd (_populate_columns_ui default_globals
                             (app_listed, world_ok)))))
     = ["DEPARTAMENTO"; "QTD_ESTOQUE_ATUAL"].
Proof.
  split; [reflexivity|]. split; [reflexivity|].
  etransitivity.
  - exact (proj1 (mixed_case_base_column_listed_then_refused
                    default_globals app_listed world_ok frame_mixed_case
                    eq_refl eq_refl eq_refl)).
  - reflexivity.
Defined.

(** A ticked column that the row does not have adds nothing to the
    attribute block, neither a value nor a bare label: when the row
    has none of the ticked columns the block is empty and the line
    ends with the base text. *)
Theorem ticked_columns_missing_from_row_add_nothing :
  forall (g : Globals) (self : App) (row : Row),
    (forall e, In e (columns self) -> col_var e = true ->
               ~ In (col_name e) (map fst row)) ->
    _build_extra_block self row = ""
    /\ final_description g self row = cell row (BASE_COL g).
Proof.
  intros g self row H.
  assert (Hb : _build_extra_block self row = "").
  { apply block_empty_iff, fragments_nil_iff.
    intros e He Hc. unfold cell. now rewrite row_get_missing by auto. }
  split; [exact Hb|].
  unfold final_description. now rewrite Hb.
Qed.

Lemma ticked_columns_missing_witness :
  (forall e, In e (columns app_A) -> col_var e = true ->
             ~ In (col_name e)
                  (map fst [("DES_PRODUTO", PyStr "CREME XYZ");
                            ("departamento", PyStr "GERAL")]))
  /\ _build_extra_block app_A [("DES_PRODUTO", PyStr "CREME XYZ");
                               ("departamento", PyStr "GERAL")] = "".
Proof.
  assert (H : forall e, In e (columns app_A) -> col_var e = true ->
                        ~ In (col_name e)
                             (map fst [("DES_PRODUTO", PyStr "CREME XYZ");
                                       ("departamento", PyStr "GERAL")])).
  { intros e He _ Hin. simpl in He, Hin.
    destruct He as [<- | [<- | []]]; simpl in Hin;
      destruct Hin as [E | [E | []]]; discriminate E. }
  split; [exact H|].
  exact (proj1 (ticked_columns_missing_from_row_add_nothing
                  default_globals app_A _ H)).
Defined.

Lemma normalize_columns_idempotent (cols : list string) :
  map (fun c => Py.upper (Py.strip c))
      (map (fun c => Py.upper (Py.strip c)) cols)
  = map (fun c => Py.upper (Py.strip c)) cols.
Proof.
  rewrite map_map. apply map_ext. intros c. apply normalize_name_idempotent.
Qed.

(** A frame as [on_run_query] delivers it, with its column names
    stripped and upper-cased, cannot be listed and then refused: the
    column list and the passes agree on whether it has the base
    column, every column the list offers is a column of the frame,
    and normalizing it again changes nothing. *)
Theorem query_frame_is_listed_iff_accepted :
  forall (g : Globals) (d : DataFrame),
    str_in (BASE_COL g)
           (map (fun c => Py.upper (Py.strip c))
                (df_columns (normalize_frame d)))
    = str_in (BASE_COL g) (df_columns (normalize_frame d))
    /\ (forall name,
           In name (offered_names g (normalize_frame d)) ->
           In name (df_columns (normalize_frame d)))
    /\ normalize_frame (normalize_frame d) = normalize_frame d.
Proof.
  intros g d. unfold normalize_frame at 1 2 3 4. cbn [df_columns].
  rewrite normalize_columns_idempotent. split; [reflexivity|]. split.
  - intros name H. apply offered_names_spec in H as (H & _).
    cbn [df_columns normalize_frame] in H.
    now rewrite normalize_columns_idempotent in H.
  - unfold normalize_frame. cbn [df_columns df_rows].
    rewrite normalize_columns_idempotent. f_equal.
    rewrite map_map. apply map_ext. intros row.
    rewrite map_map. apply map_ext. intros [k v]. cbn [fst snd].
    now rewrite normalize_name_idempotent.
Qed.

Example query_frame_sample :
  df_columns (normalize_frame frame_mixed_case)
  = ["COD_INTERNO"; "COD_EAN"; "DES_PRODUTO"; "DEPARTAMENTO";
     "QTD_ESTOQUE_ATUAL"]
  /\ fst (_build_line default_globals
            (set_columns app_A selection_A)
            (hd [] (df_rows (normalize_frame frame_mixed_case))))
     = Some "123|789|CREME XYZ (DEP: GERAL / QTD: 3)".
Proof. split; vm_compute; reflexivity. Qed.

(* ================================================================== *)
(** * Single-lined descriptions *)
(* ================================================================== *)

Lemma has_linebreak_app (a b : string) :
  has_linebreak (a ++ b) = has_linebreak a || has_linebreak b.
Proof.
  induction a as [|c a IH]; simpl; [reflexivity|].
  now rewrite IH, orb_assoc.
Qed.

Lemma splitlines_lines_unbroken (s : string) :
  Forall (fun l => has_linebreak l = false) (splitlines s).
Proof.
  induction s as [|c s IH]; simpl; [constructor|].
  destruct (Ascii.eqb c "013"
            && match s with
               | "" => false
               | String c' _ => Ascii.eqb c' "010"
               end); [exact IH|].
  destruct (is_linebreak c) eqn:E; [now constructor|].
  destruct (splitlines s) as [|l ls].
  - repeat constructor. simpl. now rewrite E.
  - inversion IH; subst. constructor; [simpl; now rewrite E | assumption].
Qed.

Lemma join_space_unbroken (ls : list string) :
  Forall (fun l => has_linebreak l = false) ls ->
  has_linebreak (Py.join " " ls) = false.
Proof.
  induction 1 as [|l ls Hl Hls IH]; [reflexivity|].
  rewrite join_cons. destruct ls as [|l' ls']; [exact Hl|].
  rewrite !has_linebreak_app, Hl, IH. reflexivity.
Qed.

Lemma splitlines_unbroken (s : string) :
  has_linebreak s = false ->
  splitlines s = match s with "" => [] | _ => [s] end.
Proof.
  induction s as [|c s IH]; simpl; [reflexivity|].
  intros H. apply orb_false_iff in H as [Hc Hs].
  assert (Hcr : Ascii.eqb c "013" = false).
  { destruct (Ascii.eqb_spec c "013") as [->|]; [discriminate Hc|reflexivity]. }
  rewrite Hcr, Hc, (IH Hs). simpl. now destruct s.
Qed.

Lemma splitlines_nil_iff (s : string) : splitlines s = [] <-> s = "".
Proof.
  split; [|now intros ->].
  destruct s as [|c s]; [reflexivity|]. simpl.
  destruct (Ascii.eqb c "013"
            && match s with
               | "" => false
               | String c' _ => Ascii.eqb c' "010"
               end) eqn:E.
  - apply andb_true_iff in E as [_ E].
    destruct s as [|c' s']; [discriminate|].
    apply Ascii.eqb_eq in E. subst c'. simpl. discriminate.
  - destruct (is_linebreak c); [discriminate|].
    destruct (splitlines s); discriminate.
Qed.

Lemma one_line_is_replace (s : string) :
  only_lf_breaks s = true -> ends_with_lf s = false ->
  Py.join " " (splitlines s) = Py.replace_char "010" " " s.
Proof.
  induction s as [|c s IH]; [reflexivity|].
  intros Hb He. simpl in Hb. apply andb_true_iff in Hb as [Hc Hb].
  assert (Hs : s <> "" -> ends_with_lf s = false).
  { intros Hne. destruct s; [congruence | exact He]. }
  simpl splitlines. simpl Py.replace_char.
  destruct (Ascii.eqb_spec c "010") as [->|Hlf].
  - (* a line feed: an empty line in front of the rest *)
    destruct s as [|c' s']; [discriminate He|].
    cbn [Ascii.eqb andb Bool.eqb].
    specialize (IH Hb (Hs ltac:(discriminate))).
    change (is_linebreak "010") with true. cbv iota.
    rewrite join_cons.
    destruct (splitlines (String c' s')) eqn:E.
    + apply splitlines_nil_iff in E. discriminate.
    + rewrite IH. reflexivity.
  - (* an ordinary character *)
    assert (Hnb : is_linebreak c = false).
    { destruct (is_linebreak c); [|reflexivity]. simpl in Hc.
      discriminate Hc. }
    assert (Hcr : Ascii.eqb c "013" = false).
    { destruct (Ascii.eqb_spec c "013") as [->|]; [discriminate Hnb|reflexivity]. }
    rewrite Hcr, Hnb. cbn [andb].
    destruct s as [|c' s'].
    + reflexivity.
    + specialize (IH Hb (Hs ltac:(discriminate))).
      destruct (splitlines (String c' s')) as [|l ls] eqn:E.
      * apply splitlines_nil_iff in E. discriminate.
      * rewrite <- IH. rewrite !join_cons. destruct ls; reflexivity.
Qed.

(** [one_line] never lets a line boundary through, returns a text
    without boundary as it is, and agrees with the replacement of line
    feeds by spaces (what the other exporter does to the description
    in its log) on every text whose only boundaries are line feeds
    and which does not end in one. *)
Theorem one_line_has_no_line_boundary :
  forall text : pyvalue,
    has_linebreak (one_line text) = false
    /\ (has_linebreak (py_str text) = false -> one_line text = py_str text)
    /\ (only_lf_breaks (py_str text) = true ->
        ends_with_lf (py_str text) = false ->
        one_line text = Py.replace_char "010" " " (py_str text)).
Proof.
  intros text. unfold one_line. split; [|split].
  - apply join_space_unbroken, splitlines_lines_unbroken.
  - intros H. rewrite (splitlines_unbroken _ H).
    now destruct (py_str text).
  - apply one_line_is_replace.
Qed.

Lemma one_line_witness :
  only_lf_breaks ("SABONETE" ++ NL ++ "LIQUIDO") = true
  /\ ends_with_lf ("SABONETE" ++ NL ++ "LIQUIDO") = false
  /\ one_line (PyStr ("SABONETE" ++ NL ++ "LIQUIDO")) = "SABONETE LIQUIDO".
Proof.
  split; [reflexivity|]. split; [reflexivity|].
  etransitivity.
  - refine (proj2 (proj2 (one_line_has_no_line_boundary
                            (PyStr ("SABONETE" ++ NL ++ "LIQUIDO")))) _ _);
      reflexivity.
  - reflexivity.
Defined.

Example one_line_samples :
  map (fun s => one_line (PyStr s))
      ["a" ++ NL; "a" ++ String "013" NL ++ "b"; "a" ++ String "013" "b";
       ""; NL ++ "b"]
  = ["a"; "a b"; "a b"; ""; " b"].
Proof. reflexivity. Qed.

(* ================================================================== *)
(** * The pipe exporter *)
(* ================================================================== *)

Lemma sanitize_text_is_layout_safe_aux (val : pyvalue) :
  has_char "|" (PipeGui.sanitize_text val) = false
  /\ Py.strip (PipeGui.sanitize_text val) = PipeGui.sanitize_text val.
Proof.
  unfold PipeGui.sanitize_text. split.
  - apply has_char_strip, has_char_replaced. discriminate.
  - apply strip_idempotent.
Qed.

(** A sanitized cell cannot break the layout: it holds no bar, no
    carriage return and no line feed, and has no whitespace around
    it. *)
Theorem sanitize_text_is_layout_safe :
  forall val : pyvalue,
    has_char "|" (PipeGui.sanitize_text val) = false
    /\ has_char "013" (PipeGui.sanitize_text val) = false
    /\ has_char "010" (PipeGui.sanitize_text val) = false
    /\ Py.strip (PipeGui.sanitize_text val) = PipeGui.sanitize_text val.
Proof.
  intros val. unfold PipeGui.sanitize_text.
  repeat split.
  - apply has_char_strip, has_char_replaced. discriminate.
  - apply has_char_strip.
    apply has_char_replace_other; [discriminate|].
    apply has_char_replace_other; [discriminate|].
    apply has_char_replaced. discriminate.
  - apply has_char_strip.
    apply has_char_replace_other; [discriminate|].
    apply has_char_replaced. discriminate.
  - apply strip_idempotent.
Qed.

(** Every line of the pipe exporter has exactly three fields when the
    extra text holds no bar: the two sanitized codes and a name
    without bar and without whitespace around it, which is the
    sanitized name itself when there is no extra text. *)
Theorem pipe_line_has_three_fields :
  forall (extra_text extra_pos : string) (row : pyvalue * pyvalue * pyvalue),
    has_char "|" extra_text = false ->
    exists nome,
      Py.split "|" (PipeGui.build_line extra_text extra_pos row)
      = [PipeGui.sanitize_text (fst (fst row));
         PipeGui.sanitize_text (snd (fst row)); nome]
      /\ Py.strip nome = nome
      /\ (extra_text = "" -> nome = PipeGui.sanitize_text (snd row)).
Proof.
  intros extra_text extra_pos [[a b] c] Hx.
  destruct (sanitize_text_is_layout_safe_aux a) as (Ha & _).
  destruct (sanitize_text_is_layout_safe_aux b) as (Hb & _).
  destruct (sanitize_text_is_layout_safe_aux c) as (Hc & Hcs).
  unfold PipeGui.build_line. cbn [fst snd].
  match goal with
  | |- context [_ ++ "|" ++ _ ++ "|" ++ ?n] => exists n
  end.
  assert (Hn : forall n, has_char "|" n = false ->
                 Py.split "|"
                   (PipeGui.sanitize_text a ++ "|"
                      ++ PipeGui.sanitize_text b ++ "|" ++ n)
                 = [PipeGui.sanitize_text a; PipeGui.sanitize_text b; n]).
  { intros n Hbar.
    change (PipeGui.sanitize_text a ++ "|" ++ PipeGui.sanitize_text b
              ++ "|" ++ n)
      with (PipeGui.sanitize_text a
              ++ String "|" (PipeGui.sanitize_text b ++ String "|" n)).
    rewrite !split_app_sep by assumption. now rewrite split_without_sep. }
  destruct (String.eqb_spec extra_text "") as [->|Hne]; cbn [negb].
  - split; [now apply Hn|]. split; [exact Hcs | reflexivity].
  - destruct (extra_pos =? "prefixo")%string.
    + split; [|split; [apply strip_idempotent | congruence]].
      apply Hn, has_char_strip.
      rewrite !has_char_app, Hx, Hc. reflexivity.
    + destruct (PipeGui.sanitize_text c =? "")%string; cbn [negb].
      * split; [|split; [apply strip_idempotent | congruence]].
        now apply Hn, has_char_strip.
      * split; [|split; [apply strip_idempotent | congruence]].
        apply Hn, has_char_strip.
        rewrite !has_char_app, Hx, Hc. reflexivity.
Qed.

Lemma pipe_line_witness :
  has_char "|" "(LOJA 2)" = false
  /\ Py.split "|"
       (PipeGui.build_line "(LOJA 2)" "sufixo"
          (PyStr "123", PyStr " 789 ", PyStr "CREME|XYZ"))
     = ["123"; "789"; "CREME/XYZ (LOJA 2)"].
Proof.
  split; [reflexivity|].
  destruct (pipe_line_has_three_fields "(LOJA 2)" "sufixo"
              (PyStr "123", PyStr " 789 ", PyStr "CREME|XYZ") eq_refl)
    as (nome & H & _).
  vm_compute. reflexivity.
Defined.

Lemma lower_map_get_some (columns : list string) (key c : string) :
  PipeGui.lower_map_get columns key = Some c ->
  In c columns /\ Py.strip (lower c) = key.
Proof.
  induction columns as [|c0 columns IH]; simpl; [discriminate|].
  destruct (PipeGui.lower_map_get columns key) as [c'|].
  - intros [= ->]. destruct (IH eq_refl). auto.
  - destruct (String.eqb_spec (Py.strip (lower c0)) key); [|discriminate].
    intros [= ->]. auto.
Qed.

Lemma lower_map_get_none (columns : list string) (key : string) :
  PipeGui.lower_map_get columns key = None ->
  forall c, In c columns -> Py.strip (lower c) <> key.
Proof.
  induction columns as [|c0 columns IH]; simpl; [contradiction|].
  destruct (PipeGui.lower_map_get columns key) as [c'|]; [discriminate|].
  destruct (String.eqb_spec (Py.strip (lower c0)) key); [discriminate|].
  intros _ c [<- | Hin]; [assumption | now apply IH].
Qed.

(** [pick_columns] matches the three headers it needs without regard
    to case or surrounding blanks: it either selects three columns of
    the frame which read cod_interno, cod_ean and des_produto once
    lower-cased and stripped, in that order, or raises and names
    exactly the needed headers that no column of the frame reads
    as. *)
Theorem pick_columns_matches_headers_loosely :
  forall columns : list string,
    match PipeGui.pick_columns columns with
    | inl cols =>
        exists a b c,
          cols = [a; b; c]
          /\ In a columns /\ In b columns /\ In c columns
          /\ Py.strip (lower a) = "cod_interno"
          /\ Py.strip (lower b) = "cod_ean"
          /\ Py.strip (lower c) = "des_produto"
    | inr missing =>
        missing <> []
        /\ forall key,
             In key missing
             <-> In key ["cod_interno"; "cod_ean"; "des_produto"]
                 /\ forall c, In c columns -> Py.strip (lower c) <> key
    end.
Proof.
  intros columns. unfold PipeGui.pick_columns. cbn [map flat_map fst snd].
  destruct (PipeGui.lower_map_get columns "cod_interno") as [a|] eqn:Ea;
    destruct (PipeGui.lower_map_get columns "cod_ean") as [b|] eqn:Eb;
    destruct (PipeGui.lower_map_get columns "des_produto") as [c|] eqn:Ec;
    cbn [app];
    try (apply lower_map_get_some in Ea as [Ha1 Ha2]);
    try (apply lower_map_get_some in Eb as [Hb1 Hb2]);
    try (apply lower_map_get_some in Ec as [Hc1 Hc2]);
    try (pose proof (lower_map_get_none _ _ Ea) as Na);
    try (pose proof (lower_map_get_none _ _ Eb) as Nb);
    try (pose proof (lower_map_get_none _ _ Ec) as Nc).
  1: now exists a, b, c.
  all: split; [discriminate|]; intros key; split;
    [ intros Hin; simpl in Hin;
      repeat (destruct Hin as [<- | Hin]; [split; [simpl; tauto | assumption]|]);
      contradiction
    | intros [Hin Hno]; simpl in Hin;
      destruct Hin as [<- | [<- | [<- | []]]]; simpl; auto;
      exfalso;
      first [ apply (Hno a Ha1); assumption
            | apply (Hno b Hb1); assumption
            | apply (Hno c Hc1); assumption ] ].
Qed.

Example pick_columns_samples :
  PipeGui.pick_columns [" DES_PRODUTO"; "Cod_Ean"; "x"; "COD_INTERNO "]
  = inl ["COD_INTERNO "; "Cod_Ean"; " DES_PRODUTO"]
  /\ PipeGui.pick_columns ["des_produto"; "ean"]
     = inr ["cod_interno"; "cod_ean"].
Proof. split; reflexivity. Qed.

(* ================================================================== *)
(** * Integral floats *)
(* ================================================================== *)

Lemma string_of_uint_no_point (d : Decimal.uint) (c : ascii) :
  Py.isdigit c = false ->
  has_char c (NilEmpty.string_of_uint d) = false.
Proof.
  intros Hc.
  induction d; cbn [NilEmpty.string_of_uint has_char]; try reflexivity;
    rewrite IHd, orb_false_r; apply (proj2 (Ascii.eqb_neq _ _));
    intros <-; vm_compute in Hc; discriminate Hc.
Qed.

Lemma str_int_reads_back (n : Z) :
  option_map Z.of_int (NilZero.int_of_string (Py.str_int n)) = Some n.
Proof.
  unfold Py.str_int. rewrite NilZero.isi.
  - simpl. now rewrite DecimalZ.of_to.
  - destruct n; simpl; try discriminate.
    intros [= E]. now apply DecimalPos.Unsigned.to_uint_nonnil in E.
  - destruct n; simpl; try discriminate.
    intros [= E]. now apply DecimalPos.Unsigned.to_uint_nonnil in E.
Qed.

(** A float without fractional part is written as a plain integer:
    its text reads back as the integer [int(x)], and holds neither a
    decimal point nor an exponent mark, so no value ever ends in
    [.0]. *)
Theorem smart_str_integral_float_is_plain_integer :
  forall x : float,
    Py.is_integer x = true ->
    option_map Z.of_int (NilZero.int_of_string (smart_str (PyFloat x)))
    = Some (Py.int_of_float x)
    /\ has_char "." (smart_str (PyFloat x)) = false
    /\ has_char "e" (smart_str (PyFloat x)) = false.
Proof.
  intros x Hi.
  assert (Hs : smart_str (PyFloat x) = Py.str_int (Py.int_of_float x)).
  { simpl. rewrite Hi.
    unfold Py.isnan. unfold Py.is_integer in Hi.
    destruct (Prim2SF x); (reflexivity || discriminate). }
  rewrite Hs. split; [apply str_int_reads_back|].
  unfold Py.str_int, NilZero.string_of_int, NilZero.string_of_uint.
  destruct (Z.to_int (Py.int_of_float x)) as [d | d]; destruct d; simpl;
    split; try reflexivity;
    rewrite ?string_of_uint_no_point; reflexivity.
Qed.

Lemma smart_str_integral_float_witness :
  Py.is_integer 3%float = true
  /\ option_map Z.of_int
       (NilZero.int_of_string (smart_str (PyFloat 3%float)))
     = Some 3%Z.
Proof.
  split; [reflexivity|].
  exact (proj1 (smart_str_integral_float_is_plain_integer 3%float eq_refl)).
Defined.
